(** * toxcore/network.c: dual-stack UDP transport, shallow embedding

    The embedding follows the TOX_ENABLE_IPV6 configuration of
    [toxcore/network.c] (the configuration with an address family in
    every [IP]), on a POSIX host (the [#else] side of every [#ifdef WIN32]).
    Where the IPv4-only configuration of a function differs and matters, it
    is embedded next to it under a name ending in [_ipv4only].

    C integers are [Z] with the wrap-around written out, [uint8_t] is
    [Byte.byte], pointers that the code tests against [NULL] are [option]
    (data pointers) or [Z] with [0] for [NULL] (function pointers and the
    opaque [void *object]).  System calls go through an explicit [World]
    that records every call together with the value the system answered. *)

From Stdlib Require Import ZArith Lia Bool.
From Stdlib.Strings Require Import Byte.
From stdpp Require Import base list.

Local Open Scope Z_scope.

(** ** Machine integers and bytes *)

Definition u8 (b : byte) : Z := Z.of_N (Byte.to_N b).

Definition to_u8 (z : Z) : byte :=
  match Byte.of_N (Z.to_N (z mod 256)) with
  | Some b => b
  | None => x00
  end.

Definition wrap16 (z : Z) : Z := z mod 65536.
Definition wrap32 (z : Z) : Z := z mod 4294967296.
Definition wrap64 (z : Z) : Z := z mod 18446744073709551616.

(** The value of a 32-bit object read through an [int32_t] lvalue. *)
Definition to_int32 (z : Z) : Z :=
  let u := wrap32 z in if u <? 2147483648 then u else u - 4294967296.

(** Four consecutive bytes of memory, lowest address first. *)
Record mem32 := Mem32 { octet0 : byte; octet1 : byte; octet2 : byte; octet3 : byte }.

Definition mem32_zero : mem32 := Mem32 x00 x00 x00 x00.

Definition bswap16 (v : Z) : Z :=
  (wrap16 v mod 256) * 256 + wrap16 v / 256.

Definition bswap32 (v : Z) : Z :=
  let u := wrap32 v in
  (u mod 256) * 16777216 + (u / 256 mod 256) * 65536
  + (u / 65536 mod 256) * 256 + u / 16777216.

(** ** System constants

    Values of the Linux ABI for the constants the code takes from the
    system headers. *)

Definition AF_UNSPEC : Z := 0.
Definition AF_INET : Z := 2.
Definition AF_INET6 : Z := 10.
Definition SOCK_DGRAM : Z := 2.
Definition IPPROTO_UDP : Z := 17.
Definition IPPROTO_IPV6 : Z := 41.
Definition IPV6_V6ONLY : Z := 26.
Definition SOL_SOCKET : Z := 1.
Definition SO_BROADCAST : Z := 6.
Definition F_SETFL : Z := 4.
Definition O_NONBLOCK : Z := 2048.
Definition EAGAIN : Z := 11.
Definition sizeof_sockaddr_in : Z := 16.
Definition sizeof_sockaddr_in6 : Z := 28.
Definition sizeof_int : Z := 4.
Definition sizeof_char : Z := 1.

(** ** Address model *)

(** [struct in6_addr]: sixteen bytes, seen by the code both as a whole and
    through [s6_addr32[0..3]]. *)
Record in6_addr := In6_addr {
  s6_word0 : mem32;
  s6_word1 : mem32;
  s6_word2 : mem32;
  s6_word3 : mem32
}.

Definition in6_zero : in6_addr := In6_addr mem32_zero mem32_zero mem32_zero mem32_zero.

(** Byte [i] of [s6_addr], for [0 <= i < 16]. *)
Definition s6_addr (a : in6_addr) (i : nat) : option byte :=
  [ octet0 (s6_word0 a); octet1 (s6_word0 a); octet2 (s6_word0 a); octet3 (s6_word0 a);
    octet0 (s6_word1 a); octet1 (s6_word1 a); octet2 (s6_word1 a); octet3 (s6_word1 a);
    octet0 (s6_word2 a); octet1 (s6_word2 a); octet2 (s6_word2 a); octet3 (s6_word2 a);
    octet0 (s6_word3 a); octet1 (s6_word3 a); octet2 (s6_word3 a); octet3 (s6_word3 a) ] !! i.

(** Modelled from the spec: [network.h], which declares [IP4], [IP6], [IP]
    and [IP_Port], is absent.  The spec's Address is a family tag with a
    union of a 4-byte and a 16-byte value; the code reaches the two members
    as [ip4] and [ip6] whatever the family is.  The union is the 16 bytes of
    [ip6], of which [ip4] is the first four. *)
Record IP := mkIP { family : Z; ip6 : in6_addr }.

Definition ip4 (a : IP) : mem32 := s6_word0 (ip6 a).

Definition set_ip4 (a : IP) (v : mem32) : IP :=
  mkIP (family a) (In6_addr v (s6_word1 (ip6 a)) (s6_word2 (ip6 a)) (s6_word3 (ip6 a))).

Definition set_ip6 (a : IP) (v : in6_addr) : IP := mkIP (family a) v.

Definition set_family (a : IP) (f : Z) : IP := mkIP f (ip6 a).

(** Modelled from the spec: [IP_Port] of the absent [network.h], an address
    and a 16-bit port (kept in the byte order the caller stored). *)
Record IP_Port := mkIP_Port { ip : IP; port : Z }.

Section HostOrder.

(** Byte order of the host: [true] for little-endian. *)
Variable host_le : bool.

(** A [uint32_t] read from, and written to, four bytes of memory. *)
Definition load32 (m : mem32) : Z :=
  if host_le
  then u8 (octet0 m) + 256 * u8 (octet1 m) + 65536 * u8 (octet2 m) + 16777216 * u8 (octet3 m)
  else u8 (octet3 m) + 256 * u8 (octet2 m) + 65536 * u8 (octet1 m) + 16777216 * u8 (octet0 m).

Definition store32 (v : Z) : mem32 :=
  if host_le
  then Mem32 (to_u8 v) (to_u8 (v / 256)) (to_u8 (v / 65536)) (to_u8 (v / 16777216))
  else Mem32 (to_u8 (v / 16777216)) (to_u8 (v / 65536)) (to_u8 (v / 256)) (to_u8 v).

Definition htons (v : Z) : Z := if host_le then bswap16 v else wrap16 v.
Definition ntohs (v : Z) : Z := if host_le then bswap16 v else wrap16 v.
Definition htonl (v : Z) : Z := if host_le then bswap32 v else wrap32 v.

(** [IN6_ARE_ADDR_EQUAL] of the system headers: the four 32-bit words are
    compared. *)
Definition IN6_ARE_ADDR_EQUAL (a b : in6_addr) : Z :=
  if (load32 (s6_word0 a) =? load32 (s6_word0 b))
     && (load32 (s6_word1 a) =? load32 (s6_word1 b))
     && (load32 (s6_word2 a) =? load32 (s6_word2 b))
     && (load32 (s6_word3 a) =? load32 (s6_word3 b))
  then 1 else 0.

(** [int ip_equal(IP *a, IP *b)] *)
Definition ip_equal (a b : option IP) : Z :=
  match a, b with
  | Some a, Some b =>
      if family a =? AF_INET
      then (if load32 (ip4 a) =? load32 (ip4 b) then 1 else 0)
      else if family a =? AF_INET6
      then IN6_ARE_ADDR_EQUAL (ip6 a) (ip6 b)
      else 0
  | _, _ => 0
  end.

(** [int ipport_equal(IP_Port *a, IP_Port *b)] *)
Definition ipport_equal (a b : option IP_Port) : Z :=
  match a, b with
  | Some a, Some b =>
      if (port a =? 0) || negb (port a =? port b)
      then 0
      else ip_equal (Some (ip a)) (Some (ip b))
  | _, _ => 0
  end.

(** [int ip_isset(IP *ip)], its [#else] side: the IPv4-only configuration,
    where [IP] is [IP4]. *)
Definition ip_isset_ipv4only (a : option mem32) : Z :=
  match a with
  | None => 0
  | Some a => if load32 a =? 0 then 0 else 1
  end.

End HostOrder.

(** [void ip_reset(IP *ip)]: [memset(ip, 0, sizeof( *ip))]. *)
Definition ip_reset (a : option IP) : option IP :=
  match a with
  | None => None
  | Some _ => Some (mkIP 0 in6_zero)
  end.

(** [int ip_isset(IP *ip)] *)
Definition ip_isset (a : option IP) : Z :=
  match a with
  | None => 0
  | Some a => if family a =? 0 then 0 else 1
  end.

(** [int ipport_isset(IP_Port *ipport)] *)
Definition ipport_isset (a : option IP_Port) : Z :=
  match a with
  | None => 0
  | Some a => if port a =? 0 then 0 else ip_isset (Some (ip a))
  end.

(** ** Socket addresses on the wire *)

(** [struct sockaddr_in] and [struct sockaddr_in6], with the fields the code
    writes and reads. *)
Record sockaddr_in := Sockaddr_in {
  sin_family : Z;
  sin_port : Z;
  sin_addr : mem32
}.

Record sockaddr_in6 := Sockaddr_in6 {
  sin6_family : Z;
  sin6_port : Z;
  sin6_flowinfo : Z;
  sin6_addr : in6_addr;
  sin6_scope_id : Z
}.

(** [struct sockaddr_storage]: the code fills it through a
    [struct sockaddr_in *] or a [struct sockaddr_in6 *] and hands it to the
    system with the size of that structure; the system fills it with the
    structure of the sender's family.  [SA_other] is a storage of which only
    the leading family field is known. *)
Inductive sockaddr_storage :=
| SA_in (a : sockaddr_in)
| SA_in6 (a : sockaddr_in6)
| SA_other (fam : Z).

Definition ss_family (s : sockaddr_storage) : Z :=
  match s with
  | SA_in a => sin_family a
  | SA_in6 a => sin6_family a
  | SA_other fam => fam
  end.

(** The storage read through a [struct sockaddr_in *].  The system never
    hands back a storage whose family field disagrees with the structure it
    wrote; on such a storage the view keeps the leading fields the two
    structures share and reads the rest as zero. *)
Definition as_sockaddr_in (s : sockaddr_storage) : sockaddr_in :=
  match s with
  | SA_in a => a
  | SA_in6 a => Sockaddr_in (sin6_family a) (sin6_port a) mem32_zero
  | SA_other fam => Sockaddr_in fam 0 mem32_zero
  end.

(** The storage read through a [struct sockaddr_in6 *], likewise. *)
Definition as_sockaddr_in6 (s : sockaddr_storage) : sockaddr_in6 :=
  match s with
  | SA_in6 a => a
  | SA_in a => Sockaddr_in6 (sin_family a) (sin_port a) 0 in6_zero 0
  | SA_other fam => Sockaddr_in6 fam 0 0 in6_zero 0
  end.

(** [*portptr], where [portptr] is [&addr4->sin_port] or
    [&addr6->sin6_port]: a pointer into the storage itself. *)
Definition portptr_get (s : sockaddr_storage) : Z :=
  match s with
  | SA_in a => sin_port a
  | SA_in6 a => sin6_port a
  | SA_other _ => 0
  end.

Definition portptr_set (s : sockaddr_storage) (p : Z) : sockaddr_storage :=
  match s with
  | SA_in a => SA_in (Sockaddr_in (sin_family a) p (sin_addr a))
  | SA_in6 a =>
      SA_in6 (Sockaddr_in6 (sin6_family a) p (sin6_flowinfo a) (sin6_addr a) (sin6_scope_id a))
  | SA_other fam => SA_other fam
  end.

(** ** The socket object *)

(** Modelled from the spec: [Packet_Handles] and [Networking_Core] of the
    absent [network.h].  A dispatch entry is a handler (a function pointer,
    [0] for [NULL]) with its opaque context; the socket owns 256 of them, the
    family it was created with, the bound port and the OS handle. *)
Record Packet_Handles := mkPacket_Handles { function : Z; object : Z }.

Record Networking_Core := mkNetworking_Core {
  packethandlers : list Packet_Handles;
  net_family : Z;
  net_port : Z;
  net_sock : Z
}.

Definition no_handler : Packet_Handles := mkPacket_Handles 0 0.

(** [net->packethandlers[byte]] *)
Definition handler_at (net : Networking_Core) (b : byte) : Packet_Handles :=
  default no_handler (packethandlers net !! Byte.to_nat b).

(** [void networking_registerhandler(Networking_Core *net, uint8_t byte,
    packet_handler_callback cb, void *object)] *)
Definition networking_registerhandler (net : Networking_Core) (b : byte) (cb : Z) (obj : Z)
  : Networking_Core :=
  let e := handler_at net b in
  let net1 :=
    mkNetworking_Core (<[Byte.to_nat b := mkPacket_Handles cb (object e)]> (packethandlers net))
                      (net_family net) (net_port net) (net_sock net) in
  let e1 := handler_at net1 b in
  mkNetworking_Core (<[Byte.to_nat b := mkPacket_Handles (function e1) obj]> (packethandlers net1))
                    (net_family net1) (net_port net1) (net_sock net1).

(** The object [calloc] hands out: all bytes zero. *)
Definition calloc_Networking_Core : Networking_Core :=
  mkNetworking_Core (replicate 256 no_handler) 0 0 0.

(** ** The world outside *)

(** Calls that leave the module: system and library calls, and the call of a
    registered handler. *)
Inductive extcall :=
| Sys_gettimeofday
| Sys_srandom (seed : Z)
| Sys_srand (seed : Z)
| Sys_calloc
| Sys_free
| Sys_socket (domain type protocol : Z)
| Sys_setsockopt (sock level optname optval optlen : Z)
| Sys_fcntl (sock cmd arg1 arg2 : Z)
| Sys_bind (sock : Z) (addr : sockaddr_storage) (addrsize : Z)
| Sys_sendto (sock : Z) (data : list byte) (length flags : Z)
             (addr : sockaddr_storage) (addrsize : Z)
| Sys_recvfrom (sock len flags : Z)
| Sys_printf_bind_failed (error : Z) (addr : IP) (port : Z)
| Call_handler (fn obj : Z) (sender : IP_Port) (data : list byte) (length : Z).

(** What one [recvfrom] on the non-blocking socket can find: a queued
    datagram with the address of its sender, or an error. *)
Inductive recv_outcome :=
| Recv_datagram (payload : list byte) (from : sockaddr_storage)
| Recv_error (err : Z).

Record World := mkWorld {
  w_trace : list (extcall * Z);      (* calls made so far, each with its answer *)
  w_errno : Z;
  w_at_startup_ran : Z;              (* the global [at_startup_ran] *)
  w_pending : list recv_outcome      (* what the socket has queued *)
}.

Definition M (A : Type) : Type := World -> A * World.

Definition ret {A} (a : A) : M A := fun w => (a, w).

Definition bind {A B} (m : M A) (k : A -> M B) : M B :=
  fun w => let (a, w1) := m w in k a w1.

Notation "x <- m ;; k" := (bind m (fun x => k))
  (at level 100, m at next level, right associativity).
Notation "m ;;; k" := (bind m (fun _ => k))
  (at level 100, right associativity).

Definition get_errno : M Z := fun w => (w_errno w, w).

Definition get_at_startup_ran : M Z := fun w => (w_at_startup_ran w, w).

Definition set_at_startup_ran (v : Z) : M unit :=
  fun w => (tt, mkWorld (w_trace w) (w_errno w) v (w_pending w)).

Section Transport.

(** Byte order of the host. *)
Variable host_le : bool.

(** [MAX_UDP_PACKET_SIZE] of the absent [network.h]: the fixed ceiling on
    the size of a datagram read. *)
Variable MAX_UDP_PACKET_SIZE : Z.

(** The system: the answer to a call, given the calls made so far; the
    value of [errno] after it, given the value before; and the clock
    ([tv_sec], [tv_usec]). *)
Variable os_ret : list (extcall * Z) -> extcall -> Z.
Variable os_errno : list (extcall * Z) -> extcall -> Z -> Z.
Variable os_clock : list (extcall * Z) -> Z * Z.

(** Contents of the locals the code leaves uninitialised. *)
Variable uninit_addr : sockaddr_storage.
Variable uninit_ip_port : IP_Port.
Variable uninit_data : list byte.
Variable uninit_length : Z.

(** A call answered by the system. *)
Definition call (c : extcall) : M Z :=
  fun w =>
    let r := os_ret (w_trace w) c in
    (r, mkWorld (w_trace w ++ [(c, r)]) (os_errno (w_trace w) c (w_errno w))
                (w_at_startup_ran w) (w_pending w)).

(** [recvfrom(sock, buf, len, 0, &addr, &addrlen)] on the non-blocking
    socket: takes the datagram at the head of the queue, writes at most
    [len] bytes of it at the start of [buf] and the sender into [addr];
    with nothing queued it answers [-1] with [EAGAIN]. *)
Definition sys_recvfrom (sock : Z) (buf : list byte) (len : Z) (addr : sockaddr_storage)
  : M (Z * list byte * sockaddr_storage) :=
  fun w =>
    let c := Sys_recvfrom sock len 0 in
    match w_pending w with
    | [] =>
        ((-1, buf, addr),
         mkWorld (w_trace w ++ [(c, -1)]) EAGAIN (w_at_startup_ran w) [])
    | Recv_error e :: q =>
        ((-1, buf, addr),
         mkWorld (w_trace w ++ [(c, -1)]) e (w_at_startup_ran w) q)
    | Recv_datagram payload from :: q =>
        let got := take (Z.to_nat len) payload in
        let n := Z.of_nat (length got) in
        ((n, got ++ drop (length got) buf, from),
         mkWorld (w_trace w ++ [(c, n)]) (w_errno w) (w_at_startup_ran w) q)
    end.

(** [uint64_t current_time(void)] *)
Definition current_time : M Z :=
  fun w =>
    let (tv_sec, tv_usec) := os_clock (w_trace w) in
    (wrap64 (1000000 * tv_sec + tv_usec),
     mkWorld (w_trace w ++ [(Sys_gettimeofday, 0)]) (w_errno w)
             (w_at_startup_ran w) (w_pending w)).

(** [int sendpacket(Networking_Core *net, IP_Port ip_port, uint8_t *data,
    uint32_t length)] *)
Definition sendpacket (net : Networking_Core) (ip_port : IP_Port)
           (data : list byte) (length : Z) : M Z :=
  if (net_family net =? AF_INET) && negb (family (ip ip_port) =? AF_INET)
  then ret 0
  else if family (ip ip_port) =? AF_INET
  then
    if net_family net =? AF_INET6
    then
      let addr6 :=
        Sockaddr_in6 AF_INET6 (port ip_port) 0
          (In6_addr (store32 host_le 0) (store32 host_le 0)
                    (store32 host_le (htonl host_le 65535))
                    (store32 host_le (load32 host_le (ip4 (ip ip_port)))))
          0 in
      r <- call (Sys_sendto (net_sock net) data length 0 (SA_in6 addr6) sizeof_sockaddr_in6);;
      ret (to_int32 r)
    else
      let ip4v := ip4 (ip ip_port) in
      let addr4 := Sockaddr_in AF_INET (port ip_port) ip4v in
      r <- call (Sys_sendto (net_sock net) data length 0 (SA_in addr4) sizeof_sockaddr_in);;
      ret (to_int32 r)
  else if family (ip ip_port) =? AF_INET6
  then
    let addr6 := Sockaddr_in6 AF_INET6 (port ip_port) 0 (ip6 (ip ip_port)) 0 in
    r <- call (Sys_sendto (net_sock net) data length 0 (SA_in6 addr6) sizeof_sockaddr_in6);;
    ret (to_int32 r)
  else ret 0.

(** The locals of [networking_poll] that [receivepacket] writes through
    its pointer arguments. *)
Record poll_locals := mkLocals { l_ip_port : IP_Port; l_data : list byte; l_length : Z }.

(** [static int receivepacket(int sock, IP_Port *ip_port, uint8_t *data,
    uint32_t *length)] *)
Definition receivepacket (sock : Z) (l : poll_locals) : M (Z * poll_locals) :=
  got <- sys_recvfrom sock (l_data l) MAX_UDP_PACKET_SIZE uninit_addr;;
  let '(n, data1, addr) := got in
  let length1 := wrap32 n in
  if to_int32 length1 <=? 0
  then ret (-1, mkLocals (l_ip_port l) data1 length1)
  else if ss_family addr =? AF_INET
  then
    let addr_in := as_sockaddr_in addr in
    let ip1 := set_family (ip (l_ip_port l)) (sin_family addr_in) in
    let ip2 := set_ip4 ip1 (sin_addr addr_in) in
    ret (0, mkLocals (mkIP_Port ip2 (sin_port addr_in)) data1 length1)
  else if ss_family addr =? AF_INET6
  then
    let addr_in6 := as_sockaddr_in6 addr in
    let ip1 := set_family (ip (l_ip_port l)) (sin6_family addr_in6) in
    let ip2 := set_ip6 ip1 (sin6_addr addr_in6) in
    ret (0, mkLocals (mkIP_Port ip2 (sin6_port addr_in6)) data1 length1)
  else ret (-1, mkLocals (l_ip_port l) data1 length1).

(** [data[0]] *)
Definition first_byte (data : list byte) : byte := default x00 (data !! 0%nat).

(** The [while] loop of [networking_poll]; [None] when [fuel] iterations
    did not reach its exit.  The table is read anew in every iteration;
    what a handler does is outside the module, the call is recorded. *)
Fixpoint networking_poll_loop (fuel : nat) (net : Networking_Core) (l : poll_locals)
  : M (option unit) :=
  match fuel with
  | O => ret None
  | S fuel' =>
      rl <- receivepacket (net_sock net) l;;
      let '(r, l1) := rl in
      if r =? -1
      then ret (Some tt)
      else if l_length l1 <? 1
      then networking_poll_loop fuel' net l1
      else if function (handler_at net (first_byte (l_data l1))) =? 0
      then networking_poll_loop fuel' net l1
      else
        call (Call_handler (function (handler_at net (first_byte (l_data l1))))
                           (object (handler_at net (first_byte (l_data l1))))
                           (l_ip_port l1) (l_data l1) (l_length l1));;;
        networking_poll_loop fuel' net l1
  end.

(** [void networking_poll(Networking_Core *net)] *)
Definition networking_poll (fuel : nat) (net : Networking_Core) : M (option unit) :=
  networking_poll_loop fuel net (mkLocals uninit_ip_port uninit_data uninit_length).

(** [static int at_startup(void)] *)
Definition at_startup : M Z :=
  ran <- get_at_startup_ran;;
  if negb (ran =? 0)
  then ret 0
  else
    t1 <- current_time;;
    call (Sys_srandom (wrap32 t1));;;
    t2 <- current_time;;
    call (Sys_srand (wrap32 t2));;;
    set_at_startup_ran 1;;;
    ret 0.

(** The [for (tries = 0; tries < 9; tries++)] loop of [new_networking],
    with [tries_left = 9 - tries]; [Some] is its [return temp]. *)
Fixpoint bind_loop (tries_left : nat) (temp : Networking_Core) (addr : sockaddr_storage)
         (addrsize : Z) : M (option Networking_Core) :=
  match tries_left with
  | O => ret None
  | S tries_left' =>
      res <- call (Sys_bind (net_sock temp) addr addrsize);;
      if res =? 0
      then
        ret (Some (mkNetworking_Core (packethandlers temp) (net_family temp)
                                     (portptr_get addr) (net_sock temp)))
      else
        let port1 := ntohs host_le (portptr_get addr) in
        let port2 := wrap16 (port1 + 1) in
        bind_loop tries_left' temp (portptr_set addr (htons host_le port2)) addrsize
  end.

(** What follows the socket's creation in [new_networking]: the options,
    the address to bind, the bind loop and the failure exit. *)
Definition new_networking_bind (a : IP) (port : Z) (temp : Networking_Core)
  : M (option Networking_Core) :=
  call (Sys_setsockopt (net_sock temp) SOL_SOCKET SO_BROADCAST 1 sizeof_int);;;
  call (Sys_fcntl (net_sock temp) F_SETFL O_NONBLOCK 1);;;
  let after_addr (addr : sockaddr_storage) (addrsize : Z) : M (option Networking_Core) :=
    (if family a =? AF_INET6
     then
       let ipv6only := 0 in
       call (Sys_setsockopt (net_sock temp) IPPROTO_IPV6 IPV6_V6ONLY ipv6only sizeof_char);;;
       ret tt
     else ret tt);;;
    r <- bind_loop 9 temp addr addrsize;;
    match r with
    | Some net => ret (Some net)
    | None =>
        e <- get_errno;;
        call (Sys_printf_bind_failed e a port);;;
        call Sys_free;;;
        ret None
    end in
  if net_family temp =? AF_INET
  then
    let ip4v := ip4 a in
    after_addr (SA_in (Sockaddr_in AF_INET (htons host_le port) ip4v)) sizeof_sockaddr_in
  else if net_family temp =? AF_INET6
  then
    after_addr (SA_in6 (Sockaddr_in6 AF_INET6 (htons host_le port) 0 (ip6 a) 0))
               sizeof_sockaddr_in6
  else ret None.

(** [Networking_Core *new_networking(IP ip, uint16_t port)] *)
Definition new_networking (a : IP) (port : Z) : M (option Networking_Core) :=
  if negb (family a =? AF_INET) && negb (family a =? AF_INET6)
  then ret None
  else
    st <- at_startup;;
    if negb (st =? 0)
    then ret None
    else
      p <- call Sys_calloc;;
      if p =? 0
      then ret None
      else
        let temp0 := calloc_Networking_Core in
        let fam := family a in
        let temp1 := mkNetworking_Core (packethandlers temp0) fam (net_port temp0)
                                       (net_sock temp0) in
        let temp2 := mkNetworking_Core (packethandlers temp1) (net_family temp1) 0
                                       (net_sock temp1) in
        s <- call (Sys_socket (net_family temp2) SOCK_DGRAM IPPROTO_UDP);;
        let temp3 := mkNetworking_Core (packethandlers temp2) (net_family temp2)
                                       (net_port temp2) s in
        if net_sock temp3 <? 0
        then call Sys_free;;; ret None
        else new_networking_bind a port temp3.

End Transport.

(** ** Reading a trace *)

(** The calls of [bind] in a trace, each with its answer. *)
Definition bind_calls (tr : list (extcall * Z)) : list (extcall * Z) :=
  omap (fun e => match e.1 with Sys_bind _ _ _ => Some e | _ => None end) tr.

(** The values a trace gives to the option [optname] at [level]. *)
Definition sockopt_values (level optname : Z) (tr : list (extcall * Z)) : list Z :=
  omap (fun e => match e.1 with
                 | Sys_setsockopt _ lv name v _ =>
                     if (lv =? level) && (name =? optname) then Some v else None
                 | _ => None
                 end) tr.

(** The answers a trace gives to the calls of [socket]. *)
Definition socket_answers (tr : list (extcall * Z)) : list Z :=
  omap (fun e => match e.1 with Sys_socket _ _ _ => Some e.2 | _ => None end) tr.

(** The calls [at_startup] makes. *)
Definition startup_call (e : extcall * Z) : Prop :=
  match e.1 with
  | Sys_gettimeofday | Sys_srandom _ | Sys_srand _ => True
  | _ => False
  end.

(** The port, in host order, of the last [bind] of a trace. *)
Definition last_attempted_port (host_le : bool) (tr : list (extcall * Z)) : option Z :=
  match last (bind_calls tr) with
  | Some (Sys_bind _ addr _, _) => Some (ntohs host_le (portptr_get addr))
  | _ => None
  end.

(** The port the failure message of [new_networking] printed, if it was
    printed. *)
Definition reported_port (tr : list (extcall * Z)) : option Z :=
  last (omap (fun e => match e.1 with
                       | Sys_printf_bind_failed _ _ p => Some p
                       | _ => None
                       end) tr).

(** The port the system binds a socket to when [bind] succeeds for the port
    [requested] (host order), as [getsockname] would give it: the port asked
    for, and for a request of port 0 a port of the system's own choice,
    [ephemeral], which is not 0.  [new_networking] never asks the system for
    it. *)
Definition bound_port (ephemeral requested : Z) : Z :=
  if requested =? 0 then ephemeral else requested.

(** The wire address [new_networking] builds for the local address [a] and
    the port [p] (host order), and its size. *)
Definition local_sockaddr (host_le : bool) (a : IP) (p : Z) : sockaddr_storage :=
  if family a =? AF_INET
  then SA_in (Sockaddr_in AF_INET (htons host_le p) (ip4 a))
  else SA_in6 (Sockaddr_in6 AF_INET6 (htons host_le p) 0 (ip6 a) 0).

Definition local_sockaddr_size (a : IP) : Z :=
  if family a =? AF_INET then sizeof_sockaddr_in else sizeof_sockaddr_in6.

(** The call [new_networking] makes for the IPv6 option, on an IPv6 socket
    [s], with its answer [rv]. *)
Definition v6only_events (a : IP) (s rv : Z) : list (extcall * Z) :=
  if family a =? AF_INET6
  then [(Sys_setsockopt s IPPROTO_IPV6 IPV6_V6ONLY 0 sizeof_char, rv)]
  else [].

(** [n] calls of [bind] on [sock] at the consecutive 16-bit ports
    [p, p+1, ...], with the answers [answers]. *)
Definition bind_attempts (host_le : bool) (sock : Z) (a : IP) (p : Z) (answers : list Z)
  : list (extcall * Z) :=
  imap (fun k ans =>
          (Sys_bind sock (local_sockaddr host_le a (wrap16 (p + Z.of_nat k)))
                    (local_sockaddr_size a), ans)) answers.

(** ** The drain operation as the specification words it *)

(** The spec's Address: a family tag with a value of the family's shape. *)
Inductive Address :=
| Addr_IPv4 (value : mem32)
| Addr_IPv6 (value : in6_addr)
| Addr_Unspecified.

Record Endpoint := mkEndpoint { ep_address : Address; ep_port : Z }.

(** The Endpoint an [IP_Port] stands for. *)
Definition endpoint_of (p : IP_Port) : Endpoint :=
  mkEndpoint (if family (ip p) =? AF_INET then Addr_IPv4 (ip4 (ip p))
              else if family (ip p) =? AF_INET6 then Addr_IPv6 (ip6 (ip p))
              else Addr_Unspecified)
             (port p).

(** One handler invocation: handler, context, sender and payload. *)
Record invocation := mkInvocation {
  inv_handler : Z;
  inv_context : Z;
  inv_sender : Endpoint;
  inv_payload : list byte
}.

(** The sender of a wire address, by the family rules. *)
Definition spec_decode_sender (from : sockaddr_storage) : option Endpoint :=
  if ss_family from =? AF_INET
  then Some (mkEndpoint (Addr_IPv4 (sin_addr (as_sockaddr_in from)))
                        (sin_port (as_sockaddr_in from)))
  else if ss_family from =? AF_INET6
  then Some (mkEndpoint (Addr_IPv6 (sin6_addr (as_sockaddr_in6 from)))
                        (sin6_port (as_sockaddr_in6 from)))
  else None.

(** [receive_one] of the spec on what the socket has at its head: the
    sender and the payload (cut at the ceiling [max]), or failure. *)
Definition spec_receive_one (max : Z) (o : recv_outcome) : option (Endpoint * list byte) :=
  match o with
  | Recv_error _ => None
  | Recv_datagram payload from =>
      match take (Z.to_nat max) payload with
      | [] => None
      | b :: rest =>
          match spec_decode_sender from with
          | Some sender => Some (sender, b :: rest)
          | None => None
          end
      end
  end.

(** [lookup(tag)] of the spec. *)
Definition spec_lookup (net : Networking_Core) (tag : byte) : option (Z * Z) :=
  match packethandlers net !! Byte.to_nat tag with
  | Some e => if function e =? 0 then None else Some (function e, object e)
  | None => None
  end.

(** [drain] of the spec: receive until [receive_one] fails; every datagram
    received whose tag has a handler gives one invocation. *)
Fixpoint spec_drain (max : Z) (net : Networking_Core) (pending : list recv_outcome)
  : list invocation :=
  match pending with
  | [] => []
  | o :: rest =>
      match spec_receive_one max o with
      | None => []
      | Some (sender, payload) =>
          match payload with
          | tag :: _ =>
              match spec_lookup net tag with
              | Some (h, c) => [mkInvocation h c sender payload]
              | None => []
              end
          | [] => []
          end ++ spec_drain max net rest
      end
  end.

(** What [drain] of the spec leaves queued: everything behind the first
    entry on which [receive_one] fails, which is itself consumed. *)
Fixpoint spec_left (max : Z) (pending : list recv_outcome) : list recv_outcome :=
  match pending with
  | [] => []
  | o :: rest =>
      match spec_receive_one max o with
      | None => rest
      | Some _ => spec_left max rest
      end
  end.

(** The handler invocations a trace records. *)
Definition invocations (tr : list (extcall * Z)) : list invocation :=
  omap (fun e => match e.1 with
                 | Call_handler fn obj sender data len =>
                     Some (mkInvocation fn obj (endpoint_of sender) (take (Z.to_nat len) data))
                 | _ => None
                 end) tr.

(** ** Concrete inputs *)

Module Examples.

(** 192.0.2.1 and 2001:db8::1 *)
Definition v4_bytes : mem32 := Mem32 xc0 x00 x02 x01.
Definition v6_bytes : in6_addr :=
  In6_addr (Mem32 x20 x01 x0d xb8) mem32_zero mem32_zero (Mem32 x00 x00 x00 x01).

(** An [IP] that [ip_reset] cleared and that then took family [AF_INET]
    and the address 192.0.2.1; one with 0.0.0.0; one left cleared. *)
Definition ip_v4 : IP := set_ip4 (mkIP AF_INET in6_zero) v4_bytes.
Definition ip_v4_any : IP := mkIP AF_INET in6_zero.
Definition ip_v6 : IP := mkIP AF_INET6 v6_bytes.
Definition ip_unset : IP := mkIP 0 in6_zero.

(** Port 33445 as a little-endian host stores it in network order. *)
Definition port_33445_net : Z := 42370.

Definition world0 : World := mkWorld [] 0 0 [].

(** A system on which [calloc] and [socket] succeed (descriptor 3) and
    every other call answers [0]. *)
Definition os_ok (tr : list (extcall * Z)) (c : extcall) : Z :=
  match c with
  | Sys_calloc => 1
  | Sys_socket _ _ _ => 3
  | _ => 0
  end.

(** The same system with every port taken: [bind] answers [-1] and leaves
    [EADDRINUSE] (98) in [errno]. *)
Definition os_busy (tr : list (extcall * Z)) (c : extcall) : Z :=
  match c with
  | Sys_calloc => 1
  | Sys_socket _ _ _ => 3
  | Sys_bind _ _ _ => -1
  | _ => 0
  end.

(** The same system with the first two ports taken, and on which every
    [setsockopt] fails. *)
Definition os_third (tr : list (extcall * Z)) (c : extcall) : Z :=
  match c with
  | Sys_calloc => 1
  | Sys_socket _ _ _ => 3
  | Sys_bind _ _ _ => if Z.of_nat (length (bind_calls tr)) <? 2 then -1 else 0
  | Sys_setsockopt _ _ _ _ _ => -1
  | _ => 0
  end.

Definition os_errno_bind (tr : list (extcall * Z)) (c : extcall) (e : Z) : Z :=
  match c with
  | Sys_bind _ _ _ => 98
  | _ => e
  end.

Definition os_clock0 (tr : list (extcall * Z)) : Z * Z := (1700000000, 0).

Definition ceiling : Z := 65507.

(** A socket as [new_networking] returns it, of either family, and the
    IPv6 one with a handler for tag 7. *)
Definition net4 : Networking_Core := mkNetworking_Core (replicate 256 no_handler) AF_INET port_33445_net 3.
Definition net6 : Networking_Core := mkNetworking_Core (replicate 256 no_handler) AF_INET6 port_33445_net 3.
Definition net6_h7 : Networking_Core := networking_registerhandler net6 x07 4096 8192.

Definition from_v4 : sockaddr_storage := SA_in (Sockaddr_in AF_INET port_33445_net v4_bytes).
Definition from_v6 : sockaddr_storage :=
  SA_in6 (Sockaddr_in6 AF_INET6 port_33445_net 0 v6_bytes 0).

Definition some_locals : poll_locals :=
  mkLocals (mkIP_Port ip_unset 0) [] 0.

(** A socket with two datagrams queued: tag 7 from 192.0.2.1, tag 8 from
    2001:db8::1. *)
Definition world_two_datagrams : World :=
  mkWorld [] 0 0 [Recv_datagram [x07; x01] from_v4; Recv_datagram [x08] from_v6].

End Examples.

(** ** Copying and initialising addresses *)



(** One byte at offset [i] of an object after [memset(object, 0, n)]. *)
Definition memset_zero_byte (n i : Z) (b : byte) : byte := if i <? n then x00 else b.

(** Four bytes at offset [off]. *)
Definition memset_zero_mem32 (n off : Z) (m : mem32) : mem32 :=
  Mem32 (memset_zero_byte n off (octet0 m)) (memset_zero_byte n (off + 1) (octet1 m))
        (memset_zero_byte n (off + 2) (octet2 m)) (memset_zero_byte n (off + 3) (octet3 m)).

(** [void ip_init(IP *ip, uint8_t ipv6enabled)].  Its [memset] has the
    length [sizeof(ip)], the size of a pointer ([sizeof_pointer]: 8 on an
    LP64 host, 4 on an ILP32 one), not [sizeof( *ip)] as in [ip_reset].  In
    the structure the 2-byte family and 2 bytes of padding come first and the
    union starts at offset 4.  What the [memset] writes into the family is
    overwritten by the assignment that follows. *)
Definition ip_init (sizeof_pointer : Z) (a : option IP) (ipv6enabled : byte) : option IP :=
  match a with
  | None => None
  | Some a =>
      let cleared :=
        In6_addr (memset_zero_mem32 sizeof_pointer 4 (s6_word0 (ip6 a)))
                 (memset_zero_mem32 sizeof_pointer 8 (s6_word1 (ip6 a)))
                 (memset_zero_mem32 sizeof_pointer 12 (s6_word2 (ip6 a)))
                 (memset_zero_mem32 sizeof_pointer 16 (s6_word3 (ip6 a))) in
      Some (mkIP (if negb (u8 ipv6enabled =? 0) then AF_INET6 else AF_INET) cleared)
  end.

(** ** Parsing and resolving *)

(** [struct addrinfo], with the fields the code reads; the list linked
    through [ai_next] is a [list]. *)
Record addrinfo := mkAddrinfo {
  ai_family : Z;
  ai_addrlen : Z;
  ai_addr : sockaddr_storage
}.

Section Resolver.

(** [inet_pton(AF_INET, address, &addr4)] and
    [inet_pton(AF_INET6, address, &addr6)]: the value returned and what the
    destination holds afterwards. *)
Variable inet_pton4 : list byte -> Z * mem32.
Variable inet_pton6 : list byte -> Z * in6_addr.

(** [getaddrinfo(address, NULL, &hints, &server)], given the node name and
    the [ai_family] and [ai_socktype] of the hints: the value returned and
    the list handed out in [server]. *)
Variable getaddrinfo : list byte -> Z -> Z -> Z * list addrinfo.

(** [int addr_parse_ip(const char *address, IP *to)]: the value returned and
    what [to] points to afterwards. *)
Definition addr_parse_ip (address : option (list byte)) (to : option IP) : Z * option IP :=
  match address, to with
  | Some address, Some to =>
      let (r4, addr4) := inet_pton4 address in
      if 1 =? r4
      then
        let to1 := set_family to AF_INET in
        (1, Some (set_ip4 to1 addr4))
      else
        let (r6, addr6) := inet_pton6 address in
        if 1 =? r6
        then
          let to1 := set_family to AF_INET6 in
          (1, Some (set_ip6 to1 addr6))
        else (0, Some to)
  | _, _ => (0, to)
  end.

(** The locals the [while] loop of [addr_resolve] carries, with [*to]. *)
Record resolve_state := mkResolve {
  rs_rc : Z;
  rs_to : IP;
  rs_ip4 : mem32;
  rs_ip6 : in6_addr
}.

(** One pass through the body of the loop, on the entry [walker]. *)
Definition addr_resolve_step (fam : Z) (walker : addrinfo) (st : resolve_state)
  : resolve_state :=
  if negb (fam =? AF_UNSPEC)
  then
    if ai_family walker =? fam
    then
      if fam =? AF_INET
      then
        if ai_addrlen walker =? sizeof_sockaddr_in
        then
          let addr := as_sockaddr_in (ai_addr walker) in
          mkResolve 3 (set_ip4 (rs_to st) (sin_addr addr)) (rs_ip4 st) (rs_ip6 st)
        else st
      else if fam =? AF_INET6
      then
        if ai_addrlen walker =? sizeof_sockaddr_in6
        then
          let addr := as_sockaddr_in6 (ai_addr walker) in
          mkResolve 3 (set_ip6 (rs_to st) (sin6_addr addr)) (rs_ip4 st) (rs_ip6 st)
        else st
      else st
    else st
  else
    if ai_family walker =? AF_INET
    then
      if ai_addrlen walker =? sizeof_sockaddr_in
      then
        let addr := as_sockaddr_in (ai_addr walker) in
        mkResolve (Z.lor (rs_rc st) 1) (rs_to st) (sin_addr addr) (rs_ip6 st)
      else st
    else if ai_family walker =? AF_INET6
    then
      if ai_addrlen walker =? sizeof_sockaddr_in6
      then
        let addr := as_sockaddr_in6 (ai_addr walker) in
        mkResolve (Z.lor (rs_rc st) 2) (rs_to st) (rs_ip4 st) (sin6_addr addr)
      else st
    else st.

(** [while (walker && (rc != 3)) { ...; walker = walker->ai_next; }] *)
Fixpoint addr_resolve_walk (fam : Z) (walker : list addrinfo) (st : resolve_state)
  : resolve_state :=
  match walker with
  | [] => st
  | entry :: next =>
      if negb (rs_rc st =? 3)
      then addr_resolve_walk fam next (addr_resolve_step fam entry st)
      else st
  end.

(** [int addr_resolve(const char *address, IP *to)]: the value returned and
    what [to] points to afterwards. *)
Definition addr_resolve (address : option (list byte)) (to : option IP) : Z * option IP :=
  match address, to with
  | Some address, Some to =>
      let fam := family to in
      let (rc, server) := getaddrinfo address fam SOCK_DGRAM in
      if negb (rc =? 0)
      then (0, Some to)
      else
        let st := addr_resolve_walk fam server (mkResolve rc to mem32_zero in6_zero) in
        if family (rs_to st) =? AF_UNSPEC
        then
          if negb (Z.land (rs_rc st) 2 =? 0)
          then (rs_rc st, Some (set_ip6 (set_family (rs_to st) AF_INET6) (rs_ip6 st)))
          else if negb (Z.land (rs_rc st) 1 =? 0)
          then (rs_rc st, Some (set_ip4 (set_family (rs_to st) AF_INET) (rs_ip4 st)))
          else (0, Some (rs_to st))
        else (rs_rc st, Some (rs_to st))
  | _, _ => (0, to)
  end.

(** [int addr_resolve_or_parse_ip(const char *address, IP *to)] *)
Definition addr_resolve_or_parse_ip (address : option (list byte)) (to : option IP)
  : Z * option IP :=
  let (r, to1) := addr_resolve address to in
  if r =? 0
  then
    let (r2, to2) := addr_parse_ip address to1 in
    if r2 =? 0 then (0, to2) else (1, to2)
  else (1, to1).

End Resolver.

(** An entry [addr_resolve] can use for the family [f]: of that family and
    with the length of that family's socket address. *)
Definition usable_entry (f : Z) (e : addrinfo) : bool :=
  (ai_family e =? f)
  && (ai_addrlen e =? (if f =? AF_INET then sizeof_sockaddr_in else sizeof_sockaddr_in6)).

(** What [addr_resolve] writes into [to] from the entry [e]: the address of
    the entry, as an IPv4 address when [to] is of family [AF_INET] and as an
    IPv6 address otherwise. *)
Definition entry_into (to : IP) (e : addrinfo) : IP :=
  if family to =? AF_INET
  then set_ip4 to (sin_addr (as_sockaddr_in (ai_addr e)))
  else set_ip6 to (sin6_addr (as_sockaddr_in6 (ai_addr e))).

(** [rc & bit], as a truth value: what [addr_resolve] has seen so far. *)
Definition rc_has (bit rc : Z) : bool := negb (Z.land rc bit =? 0).

(** The address an entry carries, read as IPv4 and as IPv6. *)
Definition entry_ip4 (e : addrinfo) : mem32 := sin_addr (as_sockaddr_in (ai_addr e)).
Definition entry_ip6 (e : addrinfo) : in6_addr := sin6_addr (as_sockaddr_in6 (ai_addr e)).

(** Resolvers and parsers to try the functions on. *)
Module ResolverExamples.

Definition entry_v4 : addrinfo := mkAddrinfo AF_INET sizeof_sockaddr_in Examples.from_v4.
Definition entry_v6 : addrinfo := mkAddrinfo AF_INET6 sizeof_sockaddr_in6 Examples.from_v6.

(** A second IPv6 entry, 2001:db8::2, and an IPv4 entry of a wrong length. *)
Definition v6_bytes_2 : in6_addr :=
  In6_addr (Mem32 x20 x01 x0d xb8) mem32_zero mem32_zero (Mem32 x00 x00 x00 x02).
Definition entry_v6_2 : addrinfo :=
  mkAddrinfo AF_INET6 sizeof_sockaddr_in6
             (SA_in6 (Sockaddr_in6 AF_INET6 0 0 v6_bytes_2 0)).
Definition entry_v4_short : addrinfo := mkAddrinfo AF_INET 8 Examples.from_v4.

(** A resolver that hands out the IPv4 entry and then the two IPv6 ones;
    one that hands out the two IPv6 ones; one that fails ([EAI_NONAME]). *)
Definition gai_mixed (node : list byte) (fam socktype : Z) : Z * list addrinfo :=
  (0, [entry_v4_short; entry_v4; entry_v6; entry_v6_2]).
Definition gai_two_v6 (node : list byte) (fam socktype : Z) : Z * list addrinfo :=
  (0, [entry_v6; entry_v6_2]).
Definition gai_fails (node : list byte) (fam socktype : Z) : Z * list addrinfo :=
  (-2, []).

(** Parsers that accept, as IPv4, the texts that start with the digit 1
    and, as IPv6, those that start with the digit 2. *)
Definition pton4 (text : list byte) : Z * mem32 :=
  match text with
  | x31 :: _ => (1, Examples.v4_bytes)
  | _ => (0, mem32_zero)
  end.
Definition pton6 (text : list byte) : Z * in6_addr :=
  match text with
  | x32 :: _ => (1, Examples.v6_bytes)
  | _ => (0, in6_zero)
  end.

(** The texts [1] and [2:]. *)
Definition text_v4 : list byte := [x31].
Definition text_v6 : list byte := [x32; x3a].

End ResolverExamples.

(** ** More of the trace *)

(** The calls of [free] in a trace, and the answers to its calls of
    [calloc]. *)
Definition free_calls (tr : list (extcall * Z)) : list (extcall * Z) :=
  omap (fun e => match e.1 with Sys_free => Some e | _ => None end) tr.

Definition calloc_answers (tr : list (extcall * Z)) : list Z :=
  omap (fun e => match e.1 with Sys_calloc => Some e.2 | _ => None end) tr.

(** * Properties *)

(** ** Bytes and byte order *)

Lemma u8_range (b : byte) : 0 <= u8 b < 256.
Proof.
  unfold u8. pose proof (Byte.to_N_bounded b) as H.
  split; [apply N2Z.is_nonneg | lia].
Qed.

Lemma to_u8_u8 (b : byte) : to_u8 (u8 b) = b.
Proof.
  unfold to_u8. pose proof (u8_range b) as H.
  rewrite Z.mod_small by exact H.
  unfold u8. rewrite N2Z.id, Byte.of_to_N. reflexivity.
Qed.

Lemma to_u8_low (b : byte) (k : Z) : to_u8 (u8 b + 256 * k) = b.
Proof.
  rewrite <- (to_u8_u8 b) at 2. unfold to_u8. pose proof (u8_range b) as H.
  replace ((u8 b + 256 * k) mod 256) with (u8 b mod 256); [reflexivity |].
  rewrite Z.mul_comm, Z.mod_add by lia. reflexivity.
Qed.

Lemma div_low (b : byte) (k : Z) : (u8 b + 256 * k) / 256 = k.
Proof.
  pose proof (u8_range b) as H.
  rewrite Z.mul_comm, Z.div_add by lia. rewrite Z.div_small by exact H. lia.
Qed.

Lemma store32_load32 (le : bool) (m : mem32) : store32 le (load32 le m) = m.
Proof.
  destruct m as [a b c d]. unfold store32, load32. cbn [octet0 octet1 octet2 octet3].
  destruct le.
  - replace (u8 a + 256 * u8 b + 65536 * u8 c + 16777216 * u8 d)
      with (u8 a + 256 * (u8 b + 256 * (u8 c + 256 * (u8 d + 256 * 0)))) by lia.
    change 65536 with (256 * 256) at 1. change 16777216 with (256 * 256 * 256) at 1.
    rewrite <- !Z.div_div by lia.
    rewrite !div_low, !to_u8_low. reflexivity.
  - replace (u8 d + 256 * u8 c + 65536 * u8 b + 16777216 * u8 a)
      with (u8 d + 256 * (u8 c + 256 * (u8 b + 256 * (u8 a + 256 * 0)))) by lia.
    change 65536 with (256 * 256) at 1. change 16777216 with (256 * 256 * 256) at 1.
    rewrite <- !Z.div_div by lia.
    rewrite !div_low, !to_u8_low. reflexivity.
Qed.

Lemma store32_zero (le : bool) : store32 le 0 = mem32_zero.
Proof. destruct le; reflexivity. Qed.

Lemma store32_htonl_ffff (le : bool) :
  store32 le (htonl le 65535) = Mem32 x00 x00 xff xff.
Proof. destruct le; vm_compute; reflexivity. Qed.

Lemma bswap16_involutive (p : Z) : 0 <= p < 65536 -> bswap16 (bswap16 p) = p.
Proof.
  intros Hp. unfold bswap16, wrap16.
  rewrite (Z.mod_small p 65536) by lia.
  assert (H1 : 0 <= p mod 256 < 256) by (apply Z.mod_pos_bound; lia).
  assert (H2 : 0 <= p / 256 < 256)
    by (split; [apply Z.div_pos; lia | apply Z.div_lt_upper_bound; lia]).
  pose proof (Z.div_mod p 256 ltac:(lia)) as H3.
  set (q := p / 256) in *. set (r := p mod 256) in *. clearbody q r.
  rewrite (Z.mod_small (r * 256 + q) 65536) by lia.
  replace (r * 256 + q) with (q + r * 256) by lia.
  rewrite Z.mod_add, Z.div_add by lia.
  rewrite (Z.mod_small q 256), (Z.div_small q 256) by lia.
  lia.
Qed.

Lemma ntohs_htons (le : bool) (p : Z) : 0 <= p < 65536 -> ntohs le (htons le p) = p.
Proof.
  intros Hp. unfold ntohs, htons. destruct le.
  - apply bswap16_involutive; exact Hp.
  - unfold wrap16. rewrite (Z.mod_small p 65536) by lia. apply Z.mod_small; lia.
Qed.

Lemma wrap16_range (z : Z) : 0 <= wrap16 z < 65536.
Proof. unfold wrap16. apply Z.mod_pos_bound. lia. Qed.

Lemma wrap16_succ (z : Z) : wrap16 (wrap16 z + 1) = wrap16 (z + 1).
Proof. unfold wrap16. rewrite Z.add_mod_idemp_l by lia. reflexivity. Qed.

(** ** Address model *)

Lemma load32_inj (le : bool) (m1 m2 : mem32) : load32 le m1 = load32 le m2 -> m1 = m2.
Proof.
  intros H. rewrite <- (store32_load32 le m1), <- (store32_load32 le m2), H. reflexivity.
Qed.

Lemma IN6_ARE_ADDR_EQUAL_refl (le : bool) (a : in6_addr) : IN6_ARE_ADDR_EQUAL le a a = 1.
Proof. unfold IN6_ARE_ADDR_EQUAL. rewrite !Z.eqb_refl. reflexivity. Qed.

Lemma IN6_ARE_ADDR_EQUAL_sym (le : bool) (a b : in6_addr) :
  IN6_ARE_ADDR_EQUAL le a b = IN6_ARE_ADDR_EQUAL le b a.
Proof.
  unfold IN6_ARE_ADDR_EQUAL.
  rewrite (Z.eqb_sym (load32 le (s6_word0 a))), (Z.eqb_sym (load32 le (s6_word1 a))),
    (Z.eqb_sym (load32 le (s6_word2 a))), (Z.eqb_sym (load32 le (s6_word3 a))).
  reflexivity.
Qed.

(** Two IPv4 addresses are equal exactly when their four bytes are. *)
Lemma ip_equal_ipv4_bytes (le : bool) (a b : IP) :
  family a = AF_INET -> (ip_equal le (Some a) (Some b) = 1 <-> ip4 a = ip4 b).
Proof.
  intros Ha. unfold ip_equal. rewrite Ha. cbn [Z.eqb AF_INET Pos.eqb].
  destruct (Z.eqb_spec (load32 le (ip4 a)) (load32 le (ip4 b))) as [E | N].
  - split; [intros _; eapply load32_inj; exact E | reflexivity].
  - split; [discriminate | intros E; rewrite E in N; contradiction].
Qed.

(** Where [ip_equal] does what its header comment says: it is reflexive on
    the addresses whose family is IPv4 or IPv6, symmetric on every pair of
    addresses of the same family, and [0] whenever its first operand is
    unset (or of any family other than IPv4 and IPv6). *)
Lemma ip_equal_within_family (le : bool) (a b : IP) :
  (family a = AF_INET \/ family a = AF_INET6 -> ip_equal le (Some a) (Some a) = 1)
  /\ (family a = family b -> ip_equal le (Some a) (Some b) = ip_equal le (Some b) (Some a))
  /\ (family a <> AF_INET -> family a <> AF_INET6 -> ip_equal le (Some a) (Some b) = 0).
Proof.
  split; [| split].
  - intros [H | H]; unfold ip_equal; rewrite H.
    + cbn [Z.eqb AF_INET Pos.eqb]. rewrite Z.eqb_refl. reflexivity.
    + cbn [Z.eqb AF_INET AF_INET6 Pos.eqb]. apply IN6_ARE_ADDR_EQUAL_refl.
  - intros H. unfold ip_equal. rewrite <- H.
    destruct (family a =? AF_INET).
    + rewrite (Z.eqb_sym (load32 le (ip4 a))). reflexivity.
    + destruct (family a =? AF_INET6); [apply IN6_ARE_ADDR_EQUAL_sym | reflexivity].
  - intros H4 H6. unfold ip_equal.
    destruct (Z.eqb_spec (family a) AF_INET) as [E | _]; [contradiction |].
    destruct (Z.eqb_spec (family a) AF_INET6) as [E | _]; [contradiction |].
    reflexivity.
Qed.

(** C3: [ip_equal] never reads the family of its second operand, against
    its own header comment (unset means unequal; returns 0 when not equal or
    when uninitialized).  With the IPv4 address 0.0.0.0 first and the
    cleared address [ip_reset] leaves second, it returns 1, although the
    second address is unset and the families differ; with the operands
    exchanged it returns 0, so the relation is not symmetric.  Two set
    addresses of different families do the same: the IPv4 address
    32.1.13.184 first and the IPv6 address 2001:db8::1 second give 1, the
    other order gives 0.  So it is on either byte order. *)
Theorem ip_equal_unset_second_operand (le : bool) :
  family Examples.ip_v4_any = AF_INET
  /\ ip_reset (Some Examples.ip_v4) = Some Examples.ip_unset
  /\ family Examples.ip_unset = AF_UNSPEC
  /\ ip_isset (Some Examples.ip_unset) = 0
  /\ ip_equal le (Some Examples.ip_v4_any) (Some Examples.ip_unset) = 1
  /\ ip_equal le (Some Examples.ip_unset) (Some Examples.ip_v4_any) = 0
  /\ ip_equal le (Some (set_ip4 Examples.ip_v4_any (Mem32 x20 x01 x0d xb8)))
               (Some Examples.ip_v6) = 1
  /\ ip_equal le (Some Examples.ip_v6)
               (Some (set_ip4 Examples.ip_v4_any (Mem32 x20 x01 x0d xb8))) = 0.
Proof. destruct le; repeat split. Qed.

(** C8 (as amended): [ip_isset] is [0] exactly when the family is
    Unspecified and [1] on every other family, whatever the value bytes are. *)
Theorem ip_isset_family_only (a : IP) (v : in6_addr) :
  (ip_isset (Some a) = 0 <-> family a = AF_UNSPEC)
  /\ (ip_isset (Some a) = 1 <-> family a <> AF_UNSPEC)
  /\ ip_isset (Some (set_ip6 a v)) = ip_isset (Some a).
Proof.
  unfold ip_isset, set_ip6, AF_UNSPEC. cbn [family].
  destruct (Z.eqb_spec (family a) 0) as [E | N].
  - split; [tauto | split; [| reflexivity]].
    split; [discriminate | intros H; contradiction].
  - split; [| split; [tauto | reflexivity]].
    split; [discriminate | intros H; contradiction].
Qed.

(** C8, as stated, fails: the IPv4 address 0.0.0.0, whose value bytes are
    all zero, is set. *)
Lemma ip_isset_zero_value_counterexample :
  ip_isset (Some Examples.ip_v4_any) = 1
  /\ family Examples.ip_v4_any = AF_INET
  /\ ip6 Examples.ip_v4_any = in6_zero.
Proof. repeat split. Qed.

(** The IPv4-only configuration has no family: there [ip_isset] is [0]
    exactly on the all-zero value. *)
Lemma ip_isset_ipv4only_zero (le : bool) (a : mem32) :
  ip_isset_ipv4only le (Some a) = 0 <-> a = mem32_zero.
Proof.
  unfold ip_isset_ipv4only.
  destruct (Z.eqb_spec (load32 le a) 0) as [E | N].
  - split; [intros _ | reflexivity].
    apply (load32_inj le). rewrite E. destruct le; reflexivity.
  - split; [discriminate |]. intros ->. exfalso. apply N. destruct le; reflexivity.
Qed.

(** C10: an endpoint whose port is 0 is equal to no endpoint, itself
    included. *)
Theorem ipport_equal_port_zero (le : bool) (a b : IP_Port) :
  port a = 0 ->
  ipport_equal le (Some a) (Some b) = 0 /\ ipport_equal le (Some a) (Some a) = 0.
Proof.
  intros H. unfold ipport_equal. rewrite H. cbn [Z.eqb orb]. split; reflexivity.
Qed.

Lemma ipport_equal_port_zero_witness :
  port (mkIP_Port Examples.ip_v4 0) = 0
  /\ ipport_equal true (Some (mkIP_Port Examples.ip_v4 0)) (Some (mkIP_Port Examples.ip_v4 0)) = 0.
Proof.
  split; [reflexivity |].
  apply (ipport_equal_port_zero true (mkIP_Port Examples.ip_v4 0) (mkIP_Port Examples.ip_v4 0)).
  reflexivity.
Defined.

(** ** Dispatch table *)

Lemma byte_to_nat_lt (b : byte) : (Byte.to_nat b < 256)%nat.
Proof. pose proof (Byte.to_nat_bounded b). lia. Qed.

Lemma byte_to_nat_inj (b1 b2 : byte) : Byte.to_nat b1 = Byte.to_nat b2 -> b1 = b2.
Proof.
  intros H. pose proof (Byte.of_to_nat b1) as H1. rewrite H, Byte.of_to_nat in H1.
  congruence.
Qed.

Lemma networking_registerhandler_table (net : Networking_Core) (b : byte) (cb obj : Z) :
  packethandlers (networking_registerhandler net b cb obj)
  = <[Byte.to_nat b := mkPacket_Handles cb obj]> (packethandlers net).
Proof.
  unfold networking_registerhandler. cbn [packethandlers].
  rewrite list_insert_insert_eq.
  destruct (decide (Byte.to_nat b < length (packethandlers net))%nat) as [Hlt | Hge].
  - f_equal. unfold handler_at. cbn [packethandlers].
    rewrite list_lookup_insert_eq by exact Hlt. reflexivity.
  - rewrite !list_insert_ge by lia. reflexivity.
Qed.

(** C9: registration sets slot [t] to exactly [(h, c)], whatever was there,
    and leaves the other 255 slots and the other fields of the socket as
    they were. *)
Theorem networking_registerhandler_frame (net : Networking_Core) (t : byte) (h c : Z) :
  length (packethandlers net) = 256%nat ->
  handler_at (networking_registerhandler net t h c) t = mkPacket_Handles h c
  /\ (forall t', t' <> t ->
        handler_at (networking_registerhandler net t h c) t' = handler_at net t')
  /\ (forall i, i <> Byte.to_nat t ->
        packethandlers (networking_registerhandler net t h c) !! i = packethandlers net !! i)
  /\ length (packethandlers (networking_registerhandler net t h c)) = 256%nat
  /\ net_family (networking_registerhandler net t h c) = net_family net
  /\ net_port (networking_registerhandler net t h c) = net_port net
  /\ net_sock (networking_registerhandler net t h c) = net_sock net.
Proof.
  intros Hlen. pose proof (byte_to_nat_lt t) as Ht.
  repeat split.
  - unfold handler_at. rewrite networking_registerhandler_table.
    rewrite list_lookup_insert_eq by lia. reflexivity.
  - intros t' Hne. unfold handler_at. rewrite networking_registerhandler_table.
    rewrite list_lookup_insert_ne; [reflexivity |].
    intros E. apply Hne. symmetry. apply byte_to_nat_inj. exact E.
  - intros i Hne. rewrite networking_registerhandler_table.
    apply list_lookup_insert_ne. congruence.
  - rewrite networking_registerhandler_table, length_insert. exact Hlen.
Qed.

Lemma networking_registerhandler_frame_witness :
  length (packethandlers Examples.net6) = 256%nat
  /\ handler_at (networking_registerhandler Examples.net6 x07 4096 8192) x07
     = mkPacket_Handles 4096 8192
  /\ handler_at (networking_registerhandler Examples.net6 x07 4096 8192) x08
     = handler_at Examples.net6 x08.
Proof.
  assert (H : length (packethandlers Examples.net6) = 256%nat) by reflexivity.
  split; [exact H |].
  pose proof (networking_registerhandler_frame Examples.net6 x07 4096 8192 H) as [H1 [H2 _]].
  split; [exact H1 | apply H2; discriminate].
Defined.

(** ** Sending *)

Section Sending.

Variable host_le : bool.
Variable os_ret : list (extcall * Z) -> extcall -> Z.
Variable os_errno : list (extcall * Z) -> extcall -> Z -> Z.

(** C1: through an IPv6 socket, an IPv4 destination goes to the system in
    one [sendto] whose address is the IPv4-mapped IPv6 address: bytes 0-9
    zero, bytes 10-11 [0xFF], bytes 12-15 the four IPv4 bytes, and the port
    as the destination has it. *)
Theorem sendpacket_ipv4_mapped (net : Networking_Core) (ip_port : IP_Port)
        (data : list byte) (length : Z) (w : World) :
  net_family net = AF_INET6 ->
  family (ip ip_port) = AF_INET ->
  exists (a6 : sockaddr_in6) (r : Z),
    sendpacket host_le os_ret os_errno net ip_port data length w
    = (to_int32 r,
       mkWorld (w_trace w
                ++ [(Sys_sendto (net_sock net) data length 0 (SA_in6 a6) sizeof_sockaddr_in6, r)])
               (os_errno (w_trace w)
                  (Sys_sendto (net_sock net) data length 0 (SA_in6 a6) sizeof_sockaddr_in6)
                  (w_errno w))
               (w_at_startup_ran w) (w_pending w))
    /\ sin6_family a6 = AF_INET6
    /\ sin6_port a6 = port ip_port
    /\ (forall i, (i < 10)%nat -> s6_addr (sin6_addr a6) i = Some x00)
    /\ s6_addr (sin6_addr a6) 10 = Some xff
    /\ s6_addr (sin6_addr a6) 11 = Some xff
    /\ s6_addr (sin6_addr a6) 12 = Some (octet0 (ip4 (ip ip_port)))
    /\ s6_addr (sin6_addr a6) 13 = Some (octet1 (ip4 (ip ip_port)))
    /\ s6_addr (sin6_addr a6) 14 = Some (octet2 (ip4 (ip ip_port)))
    /\ s6_addr (sin6_addr a6) 15 = Some (octet3 (ip4 (ip ip_port))).
Proof.
  intros Hnet Hdst. unfold sendpacket. rewrite Hnet, Hdst.
  change (AF_INET6 =? AF_INET) with false. change (AF_INET =? AF_INET) with true.
  change (AF_INET6 =? AF_INET6) with true. cbn [andb negb].
  rewrite store32_zero, store32_htonl_ffff, store32_load32.
  eexists. eexists. split; [reflexivity |].
  cbn [sin6_family sin6_port sin6_addr].
  repeat split.
  intros i Hi. do 10 (destruct i as [| i]; [reflexivity |]). lia.
Qed.

(** C5: through an IPv4 socket, a send to an IPv6 destination returns 0
    and leaves the world as it was: no call is made. *)
Theorem sendpacket_ipv4_socket_ipv6_destination (net : Networking_Core) (ip_port : IP_Port)
        (data : list byte) (length : Z) (w : World) :
  net_family net = AF_INET ->
  family (ip ip_port) = AF_INET6 ->
  sendpacket host_le os_ret os_errno net ip_port data length w = (0, w).
Proof.
  intros Hnet Hdst. unfold sendpacket. rewrite Hnet, Hdst. reflexivity.
Qed.

End Sending.

Lemma sendpacket_ipv4_mapped_witness :
  net_family Examples.net6 = AF_INET6
  /\ family (ip (mkIP_Port Examples.ip_v4 Examples.port_33445_net)) = AF_INET
  /\ exists (a6 : sockaddr_in6) (r : Z),
       sendpacket true Examples.os_ok Examples.os_errno_bind Examples.net6
                  (mkIP_Port Examples.ip_v4 Examples.port_33445_net) [x07; x01] 2 Examples.world0
       = (to_int32 r,
          mkWorld [(Sys_sendto 3 [x07; x01] 2 0 (SA_in6 a6) sizeof_sockaddr_in6, r)] 0 0 [])
       /\ sin6_port a6 = Examples.port_33445_net
       /\ s6_addr (sin6_addr a6) 9 = Some x00
       /\ s6_addr (sin6_addr a6) 10 = Some xff
       /\ s6_addr (sin6_addr a6) 11 = Some xff
       /\ s6_addr (sin6_addr a6) 12 = Some xc0
       /\ s6_addr (sin6_addr a6) 15 = Some x01.
Proof.
  split; [reflexivity | split; [reflexivity |]].
  destruct (sendpacket_ipv4_mapped true Examples.os_ok Examples.os_errno_bind Examples.net6
              (mkIP_Port Examples.ip_v4 Examples.port_33445_net) [x07; x01] 2 Examples.world0
              eq_refl eq_refl)
    as (a6 & r & Hrun & _ & Hport & Hzero & H10 & H11 & H12 & _ & _ & H15).
  exists a6, r.
  split; [exact Hrun |].
  split; [exact Hport |].
  split; [apply Hzero; lia |].
  split; [exact H10 |].
  split; [exact H11 |].
  split; [exact H12 | exact H15].
Defined.

Lemma sendpacket_ipv4_socket_ipv6_destination_witness :
  net_family Examples.net4 = AF_INET
  /\ family (ip (mkIP_Port Examples.ip_v6 Examples.port_33445_net)) = AF_INET6
  /\ sendpacket true Examples.os_ok Examples.os_errno_bind Examples.net4
                (mkIP_Port Examples.ip_v6 Examples.port_33445_net) [x07; x01] 2 Examples.world0
     = (0, Examples.world0).
Proof.
  split; [reflexivity | split; [reflexivity |]].
  apply (sendpacket_ipv4_socket_ipv6_destination true Examples.os_ok Examples.os_errno_bind
           Examples.net4 (mkIP_Port Examples.ip_v6 Examples.port_33445_net) [x07; x01] 2
           Examples.world0); reflexivity.
Defined.

(** ** Receiving *)

Lemma int32_of_small (n : Z) : 0 <= n < 2147483648 -> wrap32 n = n /\ to_int32 (wrap32 n) = n.
Proof.
  intros H. unfold to_int32, wrap32.
  rewrite !(Z.mod_small n 4294967296) by lia.
  split; [reflexivity |].
  destruct (Z.ltb_spec n 2147483648); [reflexivity | lia].
Qed.

Lemma int32_of_minus_one : to_int32 (wrap32 (-1)) = -1.
Proof. reflexivity. Qed.

Lemma sin_family_as_sockaddr_in (s : sockaddr_storage) :
  sin_family (as_sockaddr_in s) = ss_family s.
Proof. destruct s; reflexivity. Qed.

Lemma sin6_family_as_sockaddr_in6 (s : sockaddr_storage) :
  sin6_family (as_sockaddr_in6 s) = ss_family s.
Proof. destruct s; reflexivity. Qed.

Section Receiving.

Variable MAX_UDP_PACKET_SIZE : Z.
Variable os_ret : list (extcall * Z) -> extcall -> Z.
Variable os_errno : list (extcall * Z) -> extcall -> Z -> Z.
Variable uninit_addr : sockaddr_storage.
Variable uninit_ip_port : IP_Port.
Variable uninit_data : list byte.
Variable uninit_length : Z.

Hypothesis MAX_int32 : MAX_UDP_PACKET_SIZE < 2147483648.

Lemma taken_length (payload : list byte) :
  0 <= Z.of_nat (length (take (Z.to_nat MAX_UDP_PACKET_SIZE) payload)) < 2147483648.
Proof. rewrite length_take. lia. Qed.

(** What [sys_recvfrom] answers is [-1] or a length below [2^31]. *)
Lemma sys_recvfrom_answer (sock : Z) (buf : list byte) (w : World) :
  let n := (sys_recvfrom sock buf MAX_UDP_PACKET_SIZE uninit_addr w).1.1.1 in
  wrap32 n = n /\ to_int32 (wrap32 n) = n \/ n = -1.
Proof.
  unfold sys_recvfrom. destruct (w_pending w) as [| [payload from | e] q]; cbn [fst].
  - right; reflexivity.
  - left. apply int32_of_small, taken_length.
  - right; reflexivity.
Qed.

(** C6: [receivepacket] fails exactly when the read answers a length of
    zero or less or the sender's wire address is of a family other than
    IPv4 and IPv6; otherwise it succeeds with the family, the address and
    the port of the wire address.  Either way the world is left as the read
    left it: a datagram that was read is gone. *)
Theorem receivepacket_fails_exactly (sock : Z) (l : poll_locals) (w : World) :
  let read := sys_recvfrom sock (l_data l) MAX_UDP_PACKET_SIZE uninit_addr w in
  let n := read.1.1.1 in
  let addr := read.1.2 in
  let res := receivepacket MAX_UDP_PACKET_SIZE uninit_addr sock l w in
  res.2 = read.2
  /\ (res.1.1 = -1 \/ res.1.1 = 0)
  /\ (res.1.1 = -1 <->
      n <= 0 \/ (ss_family addr <> AF_INET /\ ss_family addr <> AF_INET6))
  /\ (res.1.1 = 0 ->
      family (ip (l_ip_port res.1.2)) = ss_family addr
      /\ (ss_family addr = AF_INET ->
          ip4 (ip (l_ip_port res.1.2)) = sin_addr (as_sockaddr_in addr)
          /\ port (l_ip_port res.1.2) = sin_port (as_sockaddr_in addr))
      /\ (ss_family addr = AF_INET6 ->
          ip6 (ip (l_ip_port res.1.2)) = sin6_addr (as_sockaddr_in6 addr)
          /\ port (l_ip_port res.1.2) = sin6_port (as_sockaddr_in6 addr))
      /\ l_length res.1.2 = n
      /\ l_data res.1.2 = read.1.1.2).
Proof.
  pose proof (sys_recvfrom_answer sock (l_data l) w) as Hn.
  cbv zeta in *. unfold receivepacket, bind.
  destruct (sys_recvfrom sock (l_data l) MAX_UDP_PACKET_SIZE uninit_addr w)
    as [[[n data1] addr] w1].
  cbn [fst snd] in *.
  assert (Hint : to_int32 (wrap32 n) = n) by (destruct Hn as [[_ H] | ->]; [exact H | reflexivity]).
  rewrite Hint.
  destruct (Z.leb_spec n 0) as [Hle | Hgt].
  { cbn [ret fst snd]. split; [reflexivity |]. split; [left; reflexivity |].
    split; [| discriminate].
    split; [intros _; left; exact Hle | reflexivity]. }
  assert (Hwrap : wrap32 n = n) by (destruct Hn as [[H _] | ->]; [exact H | lia]).
  destruct (Z.eqb_spec (ss_family addr) AF_INET) as [E4 | N4].
  { cbn [ret fst snd l_ip_port ip port l_length l_data set_ip4 set_family family ip4 ip6
         s6_word0].
    rewrite sin_family_as_sockaddr_in.
    split; [reflexivity |]. split; [right; reflexivity |].
    split.
    - split; [discriminate |]. intros [H | [H _]]; [lia | contradiction].
    - intros _. split; [reflexivity |]. split; [intros _; split; reflexivity |].
      split; [| split; [exact Hwrap | reflexivity]].
      intros E6. rewrite E4 in E6. discriminate. }
  destruct (Z.eqb_spec (ss_family addr) AF_INET6) as [E6 | N6].
  { cbn [ret fst snd l_ip_port ip port l_length l_data set_ip6 set_family family ip6].
    rewrite sin6_family_as_sockaddr_in6.
    split; [reflexivity |]. split; [right; reflexivity |].
    split.
    - split; [discriminate |]. intros [H | [_ H]]; [lia | contradiction].
    - intros _. split; [reflexivity |]. split; [intros E4; contradiction |].
      split; [intros _; split; reflexivity |].
      split; [exact Hwrap | reflexivity]. }
  cbn [ret fst snd]. split; [reflexivity |]. split; [left; reflexivity |].
  split; [| discriminate].
  split; [intros _; right; split; assumption | reflexivity].
Qed.

(** *** Draining *)

Lemma invocations_app (tr1 tr2 : list (extcall * Z)) :
  invocations (tr1 ++ tr2) = invocations tr1 ++ invocations tr2.
Proof. unfold invocations. apply omap_app. Qed.

Lemma spec_lookup_handler_at (net : Networking_Core) (tag : byte) :
  spec_lookup net tag
  = if function (handler_at net tag) =? 0 then None
    else Some (function (handler_at net tag), object (handler_at net tag)).
Proof.
  unfold spec_lookup, handler_at.
  destruct (packethandlers net !! Byte.to_nat tag) as [e |]; reflexivity.
Qed.

(** [receivepacket] with nothing to read, or an error to read. *)
Lemma receivepacket_nothing (sock : Z) (l : poll_locals) (w : World) :
  match w_pending w with
  | [] => True
  | Recv_error _ :: _ => True
  | Recv_datagram payload _ :: _ => take (Z.to_nat MAX_UDP_PACKET_SIZE) payload = []
  end ->
  exists (l1 : poll_locals) (w1 : World) (r : Z),
    receivepacket MAX_UDP_PACKET_SIZE uninit_addr sock l w = ((-1, l1), w1)
    /\ w_trace w1 = w_trace w ++ [(Sys_recvfrom sock MAX_UDP_PACKET_SIZE 0, r)]
    /\ w_pending w1 = tail (w_pending w).
Proof.
  intros H. unfold receivepacket, bind, sys_recvfrom.
  destruct (w_pending w) as [| [payload from | e] q].
  - eexists _, _, _. split; [reflexivity |]. split; reflexivity.
  - rewrite H. eexists _, _, _. split; [reflexivity |]. split; reflexivity.
  - eexists _, _, _. split; [reflexivity |]. split; reflexivity.
Qed.

(** [receivepacket] with a datagram of at least one byte to read. *)
Lemma receivepacket_datagram (sock : Z) (l : poll_locals) (w : World)
      (payload : list byte) (from : sockaddr_storage) (q : list recv_outcome)
      (b : byte) (rest : list byte) :
  w_pending w = Recv_datagram payload from :: q ->
  take (Z.to_nat MAX_UDP_PACKET_SIZE) payload = b :: rest ->
  exists (r : Z) (l1 : poll_locals) (w1 : World),
    receivepacket MAX_UDP_PACKET_SIZE uninit_addr sock l w = ((r, l1), w1)
    /\ w_pending w1 = q
    /\ w_trace w1 = w_trace w
                    ++ [(Sys_recvfrom sock MAX_UDP_PACKET_SIZE 0, Z.of_nat (length (b :: rest)))]
    /\ match spec_decode_sender from with
       | None => r = -1
       | Some sender =>
           r = 0
           /\ endpoint_of (l_ip_port l1) = sender
           /\ l_length l1 = Z.of_nat (length (b :: rest))
           /\ exists tail, l_data l1 = (b :: rest) ++ tail
       end.
Proof.
  intros Hq Htake. unfold receivepacket, bind, sys_recvfrom. rewrite Hq, Htake.
  pose proof (taken_length payload) as Hlen. rewrite Htake in Hlen.
  destruct (int32_of_small _ Hlen) as [Hwrap Hint].
  rewrite Hint, Hwrap.
  destruct (Z.leb_spec (Z.of_nat (length (b :: rest))) 0) as [Hle | Hgt];
    [cbn [length] in Hle; lia |].
  unfold spec_decode_sender.
  destruct (Z.eqb_spec (ss_family from) AF_INET) as [E4 | N4].
  { eexists _, _, _. split; [reflexivity |]. split; [reflexivity |]. split; [reflexivity |].
    split; [reflexivity |]. split; [| split; [reflexivity | eexists; reflexivity]].
    unfold endpoint_of.
    cbn [l_ip_port ip port set_ip4 set_family family ip4 ip6 s6_word0].
    rewrite sin_family_as_sockaddr_in, E4. reflexivity. }
  destruct (Z.eqb_spec (ss_family from) AF_INET6) as [E6 | N6].
  { eexists _, _, _. split; [reflexivity |]. split; [reflexivity |]. split; [reflexivity |].
    split; [reflexivity |]. split; [| split; [reflexivity | eexists; reflexivity]].
    unfold endpoint_of.
    cbn [l_ip_port ip port set_ip6 set_family family ip6].
    rewrite sin6_family_as_sockaddr_in6, E6. reflexivity. }
  eexists _, _, _. split; [reflexivity |]. split; [reflexivity |]. split; reflexivity.
Qed.

Lemma networking_poll_loop_drains (q : list recv_outcome) :
  forall (fuel : nat) (net : Networking_Core) (l : poll_locals) (w : World),
    w_pending w = q ->
    (length q < fuel)%nat ->
    exists (w' : World) (evs : list (extcall * Z)),
      networking_poll_loop MAX_UDP_PACKET_SIZE os_ret os_errno uninit_addr fuel net l w
      = (Some tt, w')
      /\ w_trace w' = w_trace w ++ evs
      /\ invocations evs = spec_drain MAX_UDP_PACKET_SIZE net q
      /\ w_pending w' = spec_left MAX_UDP_PACKET_SIZE q.
Proof.
  induction q as [| o q IH]; intros fuel net l w Hq Hfuel;
    (destruct fuel as [| fuel]; [cbn [length] in Hfuel; lia |]);
    cbn [networking_poll_loop]; unfold bind at 1.
  - destruct (receivepacket_nothing (net_sock net) l w) as (l1 & w1 & r & Hrun & Htr & Hpend);
      [rewrite Hq; exact I |].
    rewrite Hrun. cbn [Z.eqb Pos.eqb ret].
    exists w1, [(Sys_recvfrom (net_sock net) MAX_UDP_PACKET_SIZE 0, r)].
    split; [reflexivity |]. split; [exact Htr |]. split; [reflexivity |].
    rewrite Hpend, Hq. reflexivity.
  - assert (Hstop :
      spec_receive_one MAX_UDP_PACKET_SIZE o = None ->
      match w_pending w with
      | [] => True
      | Recv_error _ :: _ => True
      | Recv_datagram payload _ :: _ => take (Z.to_nat MAX_UDP_PACKET_SIZE) payload = []
      end \/ exists payload from b rest,
               o = Recv_datagram payload from
               /\ take (Z.to_nat MAX_UDP_PACKET_SIZE) payload = b :: rest
               /\ spec_decode_sender from = None).
    { rewrite Hq. destruct o as [payload from | e]; [| left; exact I].
      cbn [spec_receive_one].
      destruct (take (Z.to_nat MAX_UDP_PACKET_SIZE) payload) as [| b rest] eqn:Htake;
        [left; reflexivity |].
      destruct (spec_decode_sender from) eqn:Hdec; [discriminate |].
      intros _. right. exists payload, from, b, rest. repeat split; assumption. }
    cbn [spec_drain spec_left].
    destruct (spec_receive_one MAX_UDP_PACKET_SIZE o) as [[sender pl] |] eqn:Hone.
    + (* a datagram is received *)
      destruct o as [payload from | e]; [| discriminate].
      cbn [spec_receive_one] in Hone.
      destruct (take (Z.to_nat MAX_UDP_PACKET_SIZE) payload) as [| b rest] eqn:Htake;
        [discriminate |].
      destruct (receivepacket_datagram (net_sock net) l w payload from q b rest Hq Htake)
        as (r & l1 & w1 & Hrun & Hq1 & Htr1 & Hdec).
      destruct (spec_decode_sender from) as [sender' |]; [| discriminate].
      injection Hone as <- <-.
      destruct Hdec as (-> & Hsender & Hlen & tail & Hdata).
      rewrite Hrun. cbn [Z.eqb].
      rewrite Hlen.
      destruct (Z.ltb_spec (Z.of_nat (length (b :: rest))) 1) as [Hlt | _];
        [cbn [length] in Hlt; lia |].
      assert (Hfirst : first_byte (l_data l1) = b) by (rewrite Hdata; reflexivity).
      rewrite Hfirst, spec_lookup_handler_at.
      destruct (function (handler_at net b) =? 0).
      * destruct (IH fuel net l1 w1 Hq1 ltac:(cbn [length] in Hfuel; lia))
          as (w' & evs & Hloop & Htr & Hinv & Hleft).
        exists w', ((Sys_recvfrom (net_sock net) MAX_UDP_PACKET_SIZE 0,
                     Z.of_nat (length (b :: rest))) :: evs).
        split; [exact Hloop |]. split; [| split; [| exact Hleft]].
        -- rewrite Htr, Htr1, <- app_assoc. reflexivity.
        -- change (invocations evs = [] ++ spec_drain MAX_UDP_PACKET_SIZE net q). exact Hinv.
      * unfold bind at 1. unfold call at 1.
        match goal with
        | |- context [networking_poll_loop _ _ _ _ fuel net l1 ?w2] =>
            destruct (IH fuel net l1 w2 Hq1 ltac:(cbn [length] in Hfuel; lia))
              as (w' & evs & Hloop & Htr & Hinv & Hleft)
        end.
        eexists w', (_ :: _ :: evs).
        split; [exact Hloop |]. split; [| split; [| exact Hleft]].
        -- rewrite Htr. cbn [w_trace]. rewrite Htr1, <- !app_assoc. reflexivity.
        -- match goal with
           | |- invocations (?e1 :: ?e2 :: evs) = _ =>
               change (invocations ([e1; e2] ++ evs)
                       = [mkInvocation (function (handler_at net b)) (object (handler_at net b))
                                       sender' (b :: rest)]
                           ++ spec_drain MAX_UDP_PACKET_SIZE net q)
           end.
           rewrite invocations_app, Hinv. f_equal.
           unfold invocations. cbn [omap list_omap fst].
           f_equal. f_equal; [exact Hsender |].
           rewrite Hdata, Nat2Z.id. apply take_app_length.
    + (* the first receive fails: the loop ends *)
      destruct (Hstop eq_refl) as [Hnone | (payload & from & b & rest & -> & Htake & Hdec)].
      * destruct (receivepacket_nothing (net_sock net) l w Hnone)
          as (l1 & w1 & r & Hrun & Htr & Hpend).
        rewrite Hrun. cbn [Z.eqb Pos.eqb ret].
        exists w1, [(Sys_recvfrom (net_sock net) MAX_UDP_PACKET_SIZE 0, r)].
        split; [reflexivity |]. split; [exact Htr |]. split; [reflexivity |].
        rewrite Hpend, Hq. reflexivity.
      * destruct (receivepacket_datagram (net_sock net) l w payload from q b rest Hq Htake)
          as (r & l1 & w1 & Hrun & Hq1 & Htr1 & Hr).
        rewrite Hdec in Hr. subst r.
        rewrite Hrun. cbn [Z.eqb Pos.eqb ret].
        eexists w1, [_].
        split; [reflexivity |]. split; [exact Htr1 |]. split; [reflexivity | exact Hq1].
Qed.

(** C4: [networking_poll] returns, and the handler invocations it made are
    those of the spec's drain on the queue it found: it receives until a
    receive fails, and every datagram received (one byte at least) whose
    first byte has a handler gives exactly one invocation, of that handler,
    with its context, the sender and the whole payload; a datagram whose
    first byte has no handler gives none; an empty queue gives none.  What
    was queued behind the receive that failed stays queued. *)
Theorem networking_poll_dispatches (net : Networking_Core) (w : World) :
  exists (w' : World) (evs : list (extcall * Z)),
    networking_poll MAX_UDP_PACKET_SIZE os_ret os_errno uninit_addr
                    uninit_ip_port uninit_data uninit_length
                    (S (length (w_pending w))) net w
    = (Some tt, w')
    /\ w_trace w' = w_trace w ++ evs
    /\ invocations evs = spec_drain MAX_UDP_PACKET_SIZE net (w_pending w)
    /\ w_pending w' = spec_left MAX_UDP_PACKET_SIZE (w_pending w)
    /\ (w_pending w = [] -> invocations evs = []).
Proof.
  destruct (networking_poll_loop_drains (w_pending w) (S (length (w_pending w))) net
              (mkLocals uninit_ip_port uninit_data uninit_length) w eq_refl (Nat.lt_succ_diag_r _))
    as (w' & evs & Hrun & Htr & Hinv & Hleft).
  exists w', evs. unfold networking_poll.
  split; [exact Hrun |]. split; [exact Htr |]. split; [exact Hinv |]. split; [exact Hleft |].
  intros Hnil. rewrite Hinv, Hnil. reflexivity.
Qed.

(** More fuel changes nothing. *)
Lemma networking_poll_enough_fuel (net : Networking_Core) (w : World) (fuel : nat) :
  (length (w_pending w) < fuel)%nat ->
  (networking_poll MAX_UDP_PACKET_SIZE os_ret os_errno uninit_addr
                   uninit_ip_port uninit_data uninit_length fuel net w).1 = Some tt.
Proof.
  intros Hfuel.
  destruct (networking_poll_loop_drains (w_pending w) fuel net
              (mkLocals uninit_ip_port uninit_data uninit_length) w eq_refl Hfuel)
    as (w' & evs & Hrun & _).
  unfold networking_poll. rewrite Hrun. reflexivity.
Qed.

End Receiving.

(** What the spec's drain gives on one datagram: one invocation when the tag
    has a handler, none when it has none. *)
Lemma spec_drain_one_registered (max : Z) (net : Networking_Core) (tag : byte)
      (rest : list byte) (from : sockaddr_storage) (sender : Endpoint) (e : Packet_Handles) :
  take (Z.to_nat max) (tag :: rest) = tag :: rest ->
  spec_decode_sender from = Some sender ->
  packethandlers net !! Byte.to_nat tag = Some e ->
  function e <> 0 ->
  spec_drain max net [Recv_datagram (tag :: rest) from]
  = [mkInvocation (function e) (object e) sender (tag :: rest)].
Proof.
  intros Htake Hdec Hslot Hfn. cbn [spec_drain spec_receive_one].
  rewrite Htake, Hdec. unfold spec_lookup. rewrite Hslot.
  destruct (Z.eqb_spec (function e) 0); [contradiction | reflexivity].
Qed.

Lemma spec_drain_one_unregistered (max : Z) (net : Networking_Core) (tag : byte)
      (rest : list byte) (from : sockaddr_storage) :
  function (handler_at net tag) = 0 ->
  spec_drain max net [Recv_datagram (tag :: rest) from] = [].
Proof.
  intros Hfn. cbn [spec_drain spec_receive_one].
  destruct (take (Z.to_nat max) (tag :: rest)) as [| b l] eqn:Htake; [reflexivity |].
  assert (b = tag) as -> by (destruct (Z.to_nat max); [discriminate | cbn in Htake; congruence]).
  destruct (spec_decode_sender from); [| reflexivity].
  rewrite spec_lookup_handler_at, Hfn. reflexivity.
Qed.

Lemma receivepacket_fails_exactly_witness :
  Examples.ceiling < 2147483648
  /\ (receivepacket Examples.ceiling (SA_other 0) 3 Examples.some_locals
                    Examples.world_two_datagrams).2
     = (sys_recvfrom 3 (l_data Examples.some_locals) Examples.ceiling (SA_other 0)
                     Examples.world_two_datagrams).2
  /\ port (l_ip_port (receivepacket Examples.ceiling (SA_other 0) 3 Examples.some_locals
                                    Examples.world_two_datagrams).1.2)
     = Examples.port_33445_net
  /\ ip4 (ip (l_ip_port (receivepacket Examples.ceiling (SA_other 0) 3 Examples.some_locals
                                       Examples.world_two_datagrams).1.2))
     = Examples.v4_bytes.
Proof.
  assert (H : Examples.ceiling < 2147483648) by reflexivity.
  split; [exact H |].
  pose proof (receivepacket_fails_exactly Examples.ceiling (SA_other 0) H 3 Examples.some_locals
                Examples.world_two_datagrams) as (Hworld & _ & _ & Hok).
  split; [exact Hworld |].
  destruct (Hok eq_refl) as (_ & H4 & _).
  destruct (H4 eq_refl) as (Haddr & Hport).
  split; [exact Hport | exact Haddr].
Defined.

Lemma networking_poll_dispatches_witness :
  Examples.ceiling < 2147483648
  /\ exists (w' : World) (evs : list (extcall * Z)),
       networking_poll Examples.ceiling Examples.os_ok Examples.os_errno_bind (SA_other 0)
                       (mkIP_Port Examples.ip_unset 0) [] 0 3 Examples.net6_h7
                       Examples.world_two_datagrams
       = (Some tt, w')
       /\ w_trace w' = evs
       /\ invocations evs
          = [mkInvocation 4096 8192
                          (mkEndpoint (Addr_IPv4 Examples.v4_bytes) Examples.port_33445_net)
                          [x07; x01]]
       /\ w_pending w' = []
       /\ (w_pending Examples.world_two_datagrams = [] -> invocations evs = []).
Proof.
  assert (H : Examples.ceiling < 2147483648) by reflexivity.
  split; [exact H |].
  exact (networking_poll_dispatches Examples.ceiling Examples.os_ok Examples.os_errno_bind
           (SA_other 0) (mkIP_Port Examples.ip_unset 0) [] 0 H Examples.net6_h7
           Examples.world_two_datagrams).
Defined.

(** ** Creating and binding the socket *)

Lemma portptr_get_local_sockaddr (le : bool) (a : IP) (p : Z) :
  portptr_get (local_sockaddr le a p) = htons le p.
Proof. unfold local_sockaddr. destruct (family a =? AF_INET); reflexivity. Qed.

Lemma portptr_set_local_sockaddr (le : bool) (a : IP) (p p' : Z) :
  portptr_set (local_sockaddr le a p) (htons le p') = local_sockaddr le a p'.
Proof. unfold local_sockaddr. destruct (family a =? AF_INET); reflexivity. Qed.

Lemma wrap16_small (p : Z) : 0 <= p < 65536 -> wrap16 p = p.
Proof. intros H. unfold wrap16. apply Z.mod_small. exact H. Qed.

Lemma wrap16_shift (p : Z) (k : nat) :
  wrap16 (wrap16 (p + 1) + Z.of_nat k) = wrap16 (p + Z.of_nat (S k)).
Proof.
  unfold wrap16. rewrite Z.add_mod_idemp_l by lia. f_equal. lia.
Qed.

Lemma bind_attempts_cons (le : bool) (s : Z) (a : IP) (p x : Z) (l : list Z) :
  0 <= p < 65536 ->
  bind_attempts le s a p (x :: l)
  = (Sys_bind s (local_sockaddr le a p) (local_sockaddr_size a), x)
      :: bind_attempts le s a (wrap16 (p + 1)) l.
Proof.
  intros Hp. unfold bind_attempts. rewrite imap_cons.
  rewrite Z.add_0_r, (wrap16_small p Hp). f_equal.
  apply imap_ext. intros k y _. cbn [compose]. rewrite wrap16_shift. reflexivity.
Qed.

Lemma bind_attempts_app (le : bool) (s : Z) (a : IP) (p : Z) (l1 l2 : list Z) :
  bind_attempts le s a p (l1 ++ l2)
  = bind_attempts le s a p l1
      ++ bind_attempts le s a (p + Z.of_nat (length l1)) l2.
Proof.
  unfold bind_attempts. rewrite imap_app. f_equal.
  apply imap_ext. intros k y _. cbn [compose].
  replace (p + Z.of_nat (length l1 + k)) with (p + Z.of_nat (length l1) + Z.of_nat k) by lia.
  reflexivity.
Qed.

Lemma bind_calls_app (tr1 tr2 : list (extcall * Z)) :
  bind_calls (tr1 ++ tr2) = bind_calls tr1 ++ bind_calls tr2.
Proof. unfold bind_calls. apply omap_app. Qed.

Lemma bind_calls_imap (f : nat -> Z -> extcall * Z) (l : list Z) :
  (forall k x, exists s addr sz, (f k x).1 = Sys_bind s addr sz) ->
  bind_calls (imap f l) = imap f l.
Proof.
  revert f. induction l as [| x l IH]; intros f Hf; [reflexivity |].
  rewrite imap_cons. unfold bind_calls in *. cbn [omap list_omap].
  destruct (Hf 0%nat x) as (s & addr & sz & E). rewrite E. f_equal.
  apply IH. intros k y. apply Hf.
Qed.

Lemma bind_calls_bind_attempts (le : bool) (s : Z) (a : IP) (p : Z) (answers : list Z) :
  bind_calls (bind_attempts le s a p answers) = bind_attempts le s a p answers.
Proof.
  unfold bind_attempts. apply bind_calls_imap. intros k x. eexists _, _, _. reflexivity.
Qed.

Lemma length_bind_attempts (le : bool) (s : Z) (a : IP) (p : Z) (answers : list Z) :
  length (bind_attempts le s a p answers) = length answers.
Proof. unfold bind_attempts. apply length_imap. Qed.

Section Binding.

Variable host_le : bool.
Variable os_ret : list (extcall * Z) -> extcall -> Z.
Variable os_errno : list (extcall * Z) -> extcall -> Z -> Z.
Variable os_clock : list (extcall * Z) -> Z * Z.

(** The bind loop: its calls are [bind]s at consecutive ports from [p],
    at most [n] of them, each but the last answered with a failure.  It
    ends with [Some] on the first answer [0], keeping the port of that
    attempt, and with [None] after [n] failures, in the world the last
    failed [bind] left. *)
Lemma bind_loop_attempts (a : IP) (n : nat) :
  forall (temp : Networking_Core) (p : Z) (w : World),
    0 <= p < 65536 ->
    exists (r : option Networking_Core) (w' : World) (answers : list Z),
      bind_loop host_le os_ret os_errno n temp (local_sockaddr host_le a p)
                (local_sockaddr_size a) w = (r, w')
      /\ (length answers <= n)%nat
      /\ w_trace w' = w_trace w ++ bind_attempts host_le (net_sock temp) a p answers
      /\ match r with
         | Some net =>
             exists failed,
               answers = failed ++ [0]
               /\ Forall (fun x => x <> 0) failed
               /\ net = mkNetworking_Core (packethandlers temp) (net_family temp)
                          (htons host_le (wrap16 (p + Z.of_nat (length failed))))
                          (net_sock temp)
         | None =>
             length answers = n
             /\ Forall (fun x => x <> 0) answers
             /\ (n = 0%nat -> w' = w)
             /\ (n <> 0%nat ->
                 exists w0 init x,
                   answers = init ++ [x]
                   /\ w_trace w0 = w_trace w ++ bind_attempts host_le (net_sock temp) a p init
                   /\ w' = (call os_ret os_errno
                                 (Sys_bind (net_sock temp)
                                    (local_sockaddr host_le a
                                       (wrap16 (p + Z.of_nat (length init))))
                                    (local_sockaddr_size a)) w0).2)
         end.
Proof.
  induction n as [| n IH]; intros temp p w Hp.
  - exists None, w, []. cbn [bind_loop ret length].
    split; [reflexivity |]. split; [lia |]. split; [rewrite app_nil_r; reflexivity |].
    split; [reflexivity |]. split; [constructor |]. split; [reflexivity | congruence].
  - cbn [bind_loop]. unfold bind at 1. unfold call at 1.
    set (c := Sys_bind (net_sock temp) (local_sockaddr host_le a p) (local_sockaddr_size a)).
    set (res := os_ret (w_trace w) c).
    set (w1 := mkWorld (w_trace w ++ [(c, res)]) (os_errno (w_trace w) c (w_errno w))
                       (w_at_startup_ran w) (w_pending w)).
    destruct (Z.eqb_spec res 0) as [E0 | N0].
    + exists (Some (mkNetworking_Core (packethandlers temp) (net_family temp)
                      (portptr_get (local_sockaddr host_le a p)) (net_sock temp))),
             w1, [0].
      split; [reflexivity |]. split; [cbn [length]; lia |].
      split; [rewrite bind_attempts_cons by exact Hp; subst w1; cbn [w_trace];
              rewrite E0; reflexivity |].
      exists []. split; [reflexivity |]. split; [constructor |].
      rewrite portptr_get_local_sockaddr. cbn [length]. rewrite Z.add_0_r, (wrap16_small p Hp).
      reflexivity.
    + rewrite portptr_get_local_sockaddr, (ntohs_htons host_le p Hp),
        portptr_set_local_sockaddr.
      destruct (IH temp (wrap16 (p + 1)) w1 (wrap16_range _))
        as (r & w' & answers & Hrun & Hlen & Htr & Hres).
      exists r, w', (res :: answers).
      split; [exact Hrun |]. split; [cbn [length]; lia |].
      split; [rewrite Htr, bind_attempts_cons by exact Hp; subst w1; cbn [w_trace];
              rewrite <- app_assoc; reflexivity |].
      destruct r as [net |].
      * destruct Hres as (failed & -> & Hfailed & ->).
        exists (res :: failed). split; [reflexivity |]. split; [constructor; assumption |].
        cbn [length]. rewrite wrap16_shift. reflexivity.
      * destruct Hres as (Hn & Hall & Hzero & Hlast).
        split; [cbn [length]; lia |]. split; [constructor; assumption |].
        split; [discriminate |]. intros _.
        destruct n as [| n'].
        -- destruct answers; [| discriminate]. rewrite (Hzero eq_refl).
           exists w, [], res. split; [reflexivity |].
           split; [rewrite app_nil_r; reflexivity |].
           cbn [length]. rewrite Z.add_0_r, (wrap16_small p Hp). reflexivity.
        -- destruct (Hlast ltac:(discriminate)) as (w0 & init & x & -> & Htr0 & ->).
           exists w0, (res :: init), x. split; [reflexivity |].
           split; [rewrite Htr0, bind_attempts_cons by exact Hp; subst w1; cbn [w_trace];
                   rewrite <- app_assoc; reflexivity |].
           cbn [length]. rewrite wrap16_shift. reflexivity.
Qed.

Lemma new_networking_bind_spec (a : IP) (port : Z) (temp : Networking_Core) (w : World) :
  0 <= port < 65536 ->
  net_family temp = family a ->
  family a = AF_INET \/ family a = AF_INET6 ->
  exists (r : option Networking_Core) (w' : World) (rb rf rv : Z)
         (answers : list Z) (post : list (extcall * Z)),
    new_networking_bind host_le os_ret os_errno a port temp w = (r, w')
    /\ w_trace w'
       = w_trace w
         ++ ([(Sys_setsockopt (net_sock temp) SOL_SOCKET SO_BROADCAST 1 sizeof_int, rb);
              (Sys_fcntl (net_sock temp) F_SETFL O_NONBLOCK 1, rf)]
             ++ v6only_events a (net_sock temp) rv)
         ++ bind_attempts host_le (net_sock temp) a port answers
         ++ post
    /\ (1 <= length answers <= 9)%nat
    /\ match r with
       | Some net =>
           post = []
           /\ exists failed,
               answers = failed ++ [0]
               /\ Forall (fun x => x <> 0) failed
               /\ net = mkNetworking_Core (packethandlers temp) (net_family temp)
                          (htons host_le (wrap16 (port + Z.of_nat (length failed))))
                          (net_sock temp)
       | None =>
           length answers = 9%nat
           /\ Forall (fun x => x <> 0) answers
           /\ exists init x e0 r1 r2,
               answers = init ++ [x]
               /\ post
                  = [(Sys_printf_bind_failed
                        (os_errno
                           (w_trace w
                            ++ ([(Sys_setsockopt (net_sock temp) SOL_SOCKET SO_BROADCAST 1
                                                 sizeof_int, rb);
                                 (Sys_fcntl (net_sock temp) F_SETFL O_NONBLOCK 1, rf)]
                                ++ v6only_events a (net_sock temp) rv)
                            ++ bind_attempts host_le (net_sock temp) a port init)
                           (Sys_bind (net_sock temp)
                              (local_sockaddr host_le a (wrap16 (port + Z.of_nat (length init))))
                              (local_sockaddr_size a))
                           e0)
                        a port, r1);
                     (Sys_free, r2)]
       end.
Proof.
  intros Hport Hfam Hvalid.
  unfold new_networking_bind. rewrite Hfam.
  unfold bind at 1. unfold call at 1.
  set (rb := os_ret (w_trace w) _).
  set (w1 := mkWorld _ _ _ _).
  unfold bind at 1. unfold call at 1.
  set (rf := os_ret (w_trace w1) _).
  set (w2 := mkWorld _ _ _ _).
  assert (Htr2 : w_trace w2
                 = w_trace w
                   ++ [(Sys_setsockopt (net_sock temp) SOL_SOCKET SO_BROADCAST 1 sizeof_int, rb);
                       (Sys_fcntl (net_sock temp) F_SETFL O_NONBLOCK 1, rf)]).
  { subst w2 w1. cbn [w_trace]. rewrite <- app_assoc. reflexivity. }
  clearbody rb rf w2. clear w1.
  assert (Hgo : forall (w3 : World) (rv : Z),
             w_trace w3 = w_trace w2 ++ v6only_events a (net_sock temp) rv ->
             exists (r : option Networking_Core) (w' : World)
                    (answers : list Z) (post : list (extcall * Z)),
               (r0 <- bind_loop host_le os_ret os_errno 9 temp (local_sockaddr host_le a port)
                                (local_sockaddr_size a);;
                match r0 with
                | Some net => ret (Some net)
                | None =>
                    e <- get_errno;;
                    call os_ret os_errno (Sys_printf_bind_failed e a port);;;
                    call os_ret os_errno Sys_free;;;
                    ret None
                end) w3 = (r, w')
               /\ w_trace w' = w_trace w3
                               ++ bind_attempts host_le (net_sock temp) a port answers ++ post
               /\ (1 <= length answers <= 9)%nat
               /\ match r with
                  | Some net =>
                      post = []
                      /\ exists failed,
                          answers = failed ++ [0]
                          /\ Forall (fun x => x <> 0) failed
                          /\ net = mkNetworking_Core (packethandlers temp) (net_family temp)
                                     (htons host_le (wrap16 (port + Z.of_nat (length failed))))
                                     (net_sock temp)
                  | None =>
                      length answers = 9%nat
                      /\ Forall (fun x => x <> 0) answers
                      /\ exists init x e0 r1 r2,
                          answers = init ++ [x]
                          /\ post
                             = [(Sys_printf_bind_failed
                                   (os_errno
                                      (w_trace w3
                                       ++ bind_attempts host_le (net_sock temp) a port init)
                                      (Sys_bind (net_sock temp)
                                         (local_sockaddr host_le a
                                            (wrap16 (port + Z.of_nat (length init))))
                                         (local_sockaddr_size a))
                                      e0)
                                   a port, r1);
                                (Sys_free, r2)]
                  end).
  { intros w3 rv Htr3. unfold bind at 1.
    destruct (bind_loop_attempts a 9 temp port w3 Hport)
      as (r & w4 & answers & Hrun & Hlen & Htr4 & Hres).
    rewrite Hrun. destruct r as [net |].
    - exists (Some net), w4, answers, []. split; [reflexivity |].
      split; [rewrite app_nil_r; exact Htr4 |].
      destruct Hres as (failed & Hans & Hfailed & Hnet).
      split; [rewrite Hans in *; rewrite length_app in *; cbn [length] in *; lia |].
      split; [reflexivity |]. exists failed. repeat split; assumption.
    - destruct Hres as (Hn & Hall & _ & Hlast).
      destruct (Hlast ltac:(discriminate)) as (w0 & init & x & Hans & Htr0 & Hw4).
      unfold bind, get_errno, call, ret. cbn [w_trace w_errno].
      eexists None, _, answers, [_; _]. split; [reflexivity |].
      split; [cbn [w_trace]; rewrite Htr4, <- !app_assoc; reflexivity |].
      split; [lia |]. split; [exact Hn |]. split; [exact Hall |].
      exists init, x, (w_errno w0). eexists _, _. split; [exact Hans |].
      rewrite Hw4. unfold call. cbn [snd w_errno w_trace]. rewrite Htr0. reflexivity. }
  destruct Hvalid as [E4 | E6].
  - assert (Hv6 : forall rv, v6only_events a (net_sock temp) rv = [])
      by (intros rv; unfold v6only_events; rewrite E4; reflexivity).
    rewrite E4. change (AF_INET =? AF_INET) with true. change (AF_INET =? AF_INET6) with false.
    cbv iota. unfold bind at 1. unfold ret at 1.
    assert (Hloc : SA_in (Sockaddr_in AF_INET (htons host_le port) (ip4 a))
                   = local_sockaddr host_le a port)
      by (unfold local_sockaddr; rewrite E4; reflexivity).
    assert (Hsz : sizeof_sockaddr_in = local_sockaddr_size a)
      by (unfold local_sockaddr_size; rewrite E4; reflexivity).
    rewrite Hloc, Hsz.
    destruct (Hgo w2 0 ltac:(rewrite Hv6, app_nil_r; reflexivity))
      as (r & w' & answers & post & Hrun & Htr & Hlen & Hres).
    exists r, w', rb, rf, 0, answers, post.
    split; [exact Hrun |].
    split; [rewrite Htr, Htr2, Hv6, app_nil_r, <- !app_assoc; reflexivity |].
    split; [exact Hlen |].
    destruct r as [net |]; [rewrite Hfam, E4 in Hres; exact Hres |].
    destruct Hres as (Hn & Hall & init & x & e0 & r1 & r2 & Hans & Hpost).
    split; [exact Hn |]. split; [exact Hall |].
    exists init, x, e0, r1, r2. split; [exact Hans |].
    rewrite Hpost, Htr2, Hv6, app_nil_r, <- ?app_assoc. reflexivity.
  - rewrite E6. change (AF_INET6 =? AF_INET) with false.
    change (AF_INET6 =? AF_INET6) with true.
    cbv iota. unfold bind at 1. unfold bind at 1. unfold call at 1. unfold ret at 1.
    unfold bind at 1.
    set (rv := os_ret (w_trace w2) _).
    set (w3 := mkWorld _ _ _ _).
    assert (Hv6 : v6only_events a (net_sock temp) rv
                  = [(Sys_setsockopt (net_sock temp) IPPROTO_IPV6 IPV6_V6ONLY 0 sizeof_char, rv)])
      by (unfold v6only_events; rewrite E6; reflexivity).
    assert (Hloc : SA_in6 (Sockaddr_in6 AF_INET6 (htons host_le port) 0 (ip6 a) 0)
                   = local_sockaddr host_le a port)
      by (unfold local_sockaddr; rewrite E6; reflexivity).
    assert (Hsz : sizeof_sockaddr_in6 = local_sockaddr_size a)
      by (unfold local_sockaddr_size; rewrite E6; reflexivity).
    rewrite Hloc, Hsz.
    destruct (Hgo w3 rv ltac:(rewrite Hv6; reflexivity))
      as (r & w' & answers & post & Hrun & Htr & Hlen & Hres).
    exists r, w', rb, rf, rv, answers, post.
    split; [exact Hrun |].
    assert (Htr3 : w_trace w3
                   = w_trace w
                     ++ ([(Sys_setsockopt (net_sock temp) SOL_SOCKET SO_BROADCAST 1 sizeof_int, rb);
                          (Sys_fcntl (net_sock temp) F_SETFL O_NONBLOCK 1, rf)]
                         ++ v6only_events a (net_sock temp) rv)).
    { subst w3. cbn [w_trace]. rewrite Htr2, Hv6, <- !app_assoc. reflexivity. }
    split; [rewrite Htr, Htr3, <- !app_assoc; reflexivity |].
    split; [exact Hlen |].
    destruct r as [net |]; [rewrite Hfam, E6 in Hres; exact Hres |].
    destruct Hres as (Hn & Hall & init & x & e0 & r1 & r2 & Hans & Hpost).
    split; [exact Hn |]. split; [exact Hall |].
    exists init, x, e0, r1, r2. split; [exact Hans |].
    rewrite Hpost, Htr3, <- ?app_assoc. reflexivity.
Qed.

Lemma at_startup_spec (w : World) :
  exists (start : list (extcall * Z)) (w1 : World),
    at_startup os_ret os_errno os_clock w = (0, w1)
    /\ w_trace w1 = w_trace w ++ start
    /\ Forall startup_call start.
Proof.
  unfold at_startup. unfold bind at 1. unfold get_at_startup_ran.
  destruct (w_at_startup_ran w =? 0).
  - cbn [negb]. unfold bind, current_time, call, set_at_startup_ran, ret. cbn [w_trace].
    destruct (os_clock (w_trace w)) as [sec1 usec1]. cbn [w_trace].
    destruct (os_clock _) as [sec2 usec2]. cbn [w_trace].
    eexists [_; _; _; _], _. split; [reflexivity |].
    split; [rewrite <- !app_assoc; reflexivity |].
    repeat constructor.
  - exists [], w. split; [reflexivity |]. split; [rewrite app_nil_r; reflexivity | constructor].
Qed.

(** The three ways [new_networking] can go: no socket is asked for; the
    socket is refused; or the socket is there, is configured, and the bind
    loop runs. *)
Lemma new_networking_spec (a : IP) (port : Z) (w : World) :
  0 <= port < 65536 ->
  exists (r : option Networking_Core) (w' : World) (evs : list (extcall * Z)),
    new_networking host_le os_ret os_errno os_clock a port w = (r, w')
    /\ w_trace w' = w_trace w ++ evs
    /\ ((r = None /\ exists start calloc_ev,
            evs = start ++ calloc_ev /\ Forall startup_call start
            /\ ((calloc_ev = [] /\ family a <> AF_INET /\ family a <> AF_INET6)
                \/ (calloc_ev = [(Sys_calloc, 0)]
                    /\ os_ret (w_trace w ++ start) Sys_calloc = 0)))
        \/ (r = None /\ exists start p fd rf,
              evs = start ++ [(Sys_calloc, p); (Sys_socket (family a) SOCK_DGRAM IPPROTO_UDP, fd);
                              (Sys_free, rf)]
              /\ Forall startup_call start /\ fd < 0
              /\ fd = os_ret (w_trace w ++ start ++ [(Sys_calloc, p)])
                             (Sys_socket (family a) SOCK_DGRAM IPPROTO_UDP))
        \/ (exists start p s rb rf rv answers post,
              Forall startup_call start
              /\ 0 <= s
              /\ (family a = AF_INET \/ family a = AF_INET6)
              /\ evs = (start ++ [(Sys_calloc, p);
                                  (Sys_socket (family a) SOCK_DGRAM IPPROTO_UDP, s)])
                       ++ ([(Sys_setsockopt s SOL_SOCKET SO_BROADCAST 1 sizeof_int, rb);
                            (Sys_fcntl s F_SETFL O_NONBLOCK 1, rf)]
                           ++ v6only_events a s rv)
                       ++ bind_attempts host_le s a port answers
                       ++ post
              /\ (1 <= length answers <= 9)%nat
              /\ match r with
                 | Some net =>
                     post = []
                     /\ exists failed,
                         answers = failed ++ [0]
                         /\ Forall (fun x => x <> 0) failed
                         /\ net = mkNetworking_Core (replicate 256 no_handler) (family a)
                                    (htons host_le (wrap16 (port + Z.of_nat (length failed))))
                                    s
                 | None =>
                     length answers = 9%nat
                     /\ Forall (fun x => x <> 0) answers
                     /\ exists init x e0 r1 r2,
                         answers = init ++ [x]
                         /\ post
                            = [(Sys_printf_bind_failed
                                  (os_errno
                                     (w_trace w
                                      ++ (start ++ [(Sys_calloc, p);
                                                    (Sys_socket (family a) SOCK_DGRAM
                                                                IPPROTO_UDP, s)])
                                      ++ ([(Sys_setsockopt s SOL_SOCKET SO_BROADCAST 1
                                                           sizeof_int, rb);
                                           (Sys_fcntl s F_SETFL O_NONBLOCK 1, rf)]
                                          ++ v6only_events a s rv)
                                      ++ bind_attempts host_le s a port init)
                                     (Sys_bind s
                                        (local_sockaddr host_le a
                                           (wrap16 (port + Z.of_nat (length init))))
                                        (local_sockaddr_size a))
                                     e0)
                                  a port, r1);
                               (Sys_free, r2)]
                 end)).
Proof.
  intros Hport. unfold new_networking.
  destruct (Z.eqb_spec (family a) AF_INET) as [E4 | N4];
    [| destruct (Z.eqb_spec (family a) AF_INET6) as [E6 | N6]]; cbn [negb andb].
  3: { exists None, w, []. split; [reflexivity |]. split; [rewrite app_nil_r; reflexivity |].
       left. split; [reflexivity |]. exists [], [].
       split; [reflexivity |]. split; [constructor |]. left. repeat split; assumption. }
  all: assert (Hvalid : family a = AF_INET \/ family a = AF_INET6) by tauto.
  all: unfold bind at 1;
    destruct (at_startup_spec w) as (start & w1 & Hstart & Htr1 & Hstartup);
    rewrite Hstart; cbn [Z.eqb negb];
    unfold bind at 1; unfold call at 1;
    set (p := os_ret (w_trace w1) Sys_calloc);
    set (w2 := mkWorld _ _ _ _);
    (destruct (Z.eqb_spec p 0) as [Ep | Np];
     [ exists None, w2, (start ++ [(Sys_calloc, 0)]);
       split; [reflexivity |];
       split; [subst w2; cbn [w_trace]; rewrite Htr1, Ep, <- app_assoc; reflexivity |];
       left; split; [reflexivity |];
       exists start, [(Sys_calloc, 0)];
       split; [reflexivity |]; split; [exact Hstartup |];
       right; split; [reflexivity |]; rewrite <- Htr1; exact Ep
     | ]);
    cbv zeta; cbn [packethandlers net_family net_port net_sock calloc_Networking_Core];
    unfold bind at 1; unfold call at 1;
    set (s := os_ret (w_trace w2) _);
    set (w3 := mkWorld _ _ _ _);
    assert (Htr3 : w_trace w3
                   = w_trace w
                     ++ start ++ [(Sys_calloc, p);
                                  (Sys_socket (family a) SOCK_DGRAM IPPROTO_UDP, s)])
      by (subst w3 w2; cbn [w_trace]; rewrite Htr1, <- !app_assoc; reflexivity);
    clearbody w3;
    (destruct (Z.ltb_spec s 0) as [Hneg | Hpos];
     [ unfold bind, call, ret;
       eexists None, _, (start ++ [_; _; _]);
       split; [reflexivity |];
       split; [cbn [w_trace]; rewrite Htr3, <- !app_assoc; reflexivity |];
       right; left; split; [reflexivity |];
       eexists start, p, s, _;
       split; [reflexivity |]; split; [exact Hstartup |]; split; [exact Hneg |];
       subst s w2; cbn [w_trace]; rewrite Htr1, <- app_assoc; reflexivity
     | ]);
    destruct (new_networking_bind_spec a port
                (mkNetworking_Core (replicate 256 no_handler) (family a) 0 s) w3
                Hport eq_refl Hvalid)
      as (r & w' & rb & rf & rv & answers & post & Hrun & Htr & Hlen & Hres);
    cbn [net_sock packethandlers net_family] in *;
    exists r, w';
    eexists;
    (split; [exact Hrun |]);
    (split; [rewrite Htr, Htr3, <- !app_assoc; reflexivity |]);
    right; right;
    exists start, p, s, rb, rf, rv, answers, post;
    (split; [exact Hstartup |]);
    (split; [exact Hpos |]);
    (split; [exact Hvalid |]);
    (split; [rewrite <- !app_assoc; reflexivity |]);
    (split; [exact Hlen |]);
    (destruct r as [net |]; [exact Hres |]);
    destruct Hres as (Hn & Hall & init & x & e0 & r1 & r2 & Hans & Hpost);
    (split; [exact Hn |]); (split; [exact Hall |]);
    exists init, x, e0, r1, r2; (split; [exact Hans |]);
    rewrite Hpost, Htr3, <- ?app_assoc; reflexivity.
Qed.

(** *** What the traces of [new_networking] contain *)

Lemma startup_calls_only (start : list (extcall * Z)) (level optname : Z) :
  Forall startup_call start ->
  socket_answers start = [] /\ bind_calls start = []
  /\ sockopt_values level optname start = [].
Proof.
  induction 1 as [| [c r] l Hc _ IH]; [repeat split |].
  destruct IH as (IH1 & IH2 & IH3).
  unfold socket_answers, bind_calls, sockopt_values in *. cbn [omap list_omap fst].
  destruct c; try contradiction; rewrite ?IH1, ?IH2, ?IH3; repeat split.
Qed.

Lemma socket_answers_app (tr1 tr2 : list (extcall * Z)) :
  socket_answers (tr1 ++ tr2) = socket_answers tr1 ++ socket_answers tr2.
Proof. unfold socket_answers. apply omap_app. Qed.

Lemma sockopt_values_app (level optname : Z) (tr1 tr2 : list (extcall * Z)) :
  sockopt_values level optname (tr1 ++ tr2)
  = sockopt_values level optname tr1 ++ sockopt_values level optname tr2.
Proof. unfold sockopt_values. apply omap_app. Qed.

Lemma imap_bind_only (f : nat -> Z -> extcall * Z) (l : list Z) (level optname : Z) :
  (forall k x, exists s addr sz, (f k x).1 = Sys_bind s addr sz) ->
  socket_answers (imap f l) = [] /\ sockopt_values level optname (imap f l) = [].
Proof.
  revert f. induction l as [| x l IH]; intros f Hf; [split; reflexivity |].
  rewrite imap_cons. destruct (IH (f ∘ S)) as (IH1 & IH2); [intros k y; apply Hf |].
  unfold socket_answers, sockopt_values in *. cbn [omap list_omap].
  destruct (Hf 0%nat x) as (s & addr & sz & E). rewrite E. split; assumption.
Qed.

Lemma bind_attempts_only_bind (s : Z) (a : IP) (p : Z) (answers : list Z)
      (level optname : Z) :
  socket_answers (bind_attempts host_le s a p answers) = []
  /\ sockopt_values level optname (bind_attempts host_le s a p answers) = [].
Proof.
  unfold bind_attempts. apply imap_bind_only. intros k x. eexists _, _, _. reflexivity.
Qed.

Lemma v6only_events_content (a : IP) (s rv : Z) :
  socket_answers (v6only_events a s rv) = []
  /\ bind_calls (v6only_events a s rv) = []
  /\ Forall (fun v => v = 0) (sockopt_values IPPROTO_IPV6 IPV6_V6ONLY (v6only_events a s rv)).
Proof.
  unfold v6only_events. destruct (family a =? AF_INET6).
  - repeat split. repeat constructor.
  - repeat split. constructor.
Qed.

(** C2 (as amended): [new_networking] binds at [(local_address,
    local_port)] and, after each failure, at the next port (a 16-bit
    increment), at most 9 times in all; on the first success it returns the
    socket with the port of that attempt recorded; after 9 failures it
    fails, printing the OS error the last attempt left and the port it was
    asked for, [local_port], which is the first port attempted, not the
    last.  On a system that gives the memory and the descriptor, for a
    family that is IPv4 or IPv6, the attempts are made: the first [bind] is
    there, on that descriptor. *)
Theorem new_networking_bind_retry (a : IP) (port : Z) (w : World) :
  0 <= port < 65536 ->
  exists (r : option Networking_Core) (w' : World) (pre : list (extcall * Z)) (s : Z)
         (answers : list Z) (post : list (extcall * Z)),
    new_networking host_le os_ret os_errno os_clock a port w = (r, w')
    /\ w_trace w' = w_trace w ++ pre ++ bind_attempts host_le s a port answers ++ post
    /\ bind_calls pre = []
    /\ bind_calls post = []
    /\ (length answers <= 9)%nat
    /\ (forall fd, fd ∈ socket_answers pre -> 0 <= fd -> fd = s /\ answers <> [])
    /\ match r with
       | Some net =>
           post = []
           /\ exists failed,
               answers = failed ++ [0]
               /\ Forall (fun x => x <> 0) failed
               /\ net_port net = htons host_le (wrap16 (port + Z.of_nat (length failed)))
               /\ net_sock net = s
               /\ net_family net = family a
       | None =>
           Forall (fun x => x <> 0) answers
           /\ (answers <> [] ->
               length answers = 9%nat
               /\ exists init x e0 r1 r2,
                   answers = init ++ [x]
                   /\ post
                      = [(Sys_printf_bind_failed
                            (os_errno
                               (w_trace w ++ pre ++ bind_attempts host_le s a port init)
                               (Sys_bind s (local_sockaddr host_le a (wrap16 (port + 8)))
                                         (local_sockaddr_size a))
                               e0)
                            a port, r1);
                         (Sys_free, r2)])
       end
    /\ (family a = AF_INET \/ family a = AF_INET6 ->
        (forall tr, os_ret tr Sys_calloc <> 0) ->
        (forall tr, 0 <= os_ret tr (Sys_socket (family a) SOCK_DGRAM IPPROTO_UDP)) ->
        socket_answers pre = [s] /\ 0 <= s /\ (1 <= length answers)%nat).
Proof.
  intros Hport.
  destruct (new_networking_spec a port w Hport) as (r & w' & evs & Hrun & Htr & Hcases).
  destruct Hcases as [(-> & start & cev & -> & Hstart & Hcev)
                     | [(-> & start & p & fd & rf & -> & Hstart & Hfd & Hfdos)
                       | (start & p & s & rb & rf & rv & answers & post & Hstart & Hs & Hvalid
                          & -> & Hlen & Hres)]].
  - destruct (startup_calls_only start 0 0 Hstart) as (Hsock & Hbind & _).
    exists None, w', (start ++ cev), 0, [], [].
    split; [exact Hrun |]. split; [rewrite Htr, app_nil_r; reflexivity |].
    split; [rewrite bind_calls_app, Hbind; destruct Hcev as [(-> & _) | (-> & _)]; reflexivity |].
    split; [reflexivity |]. split; [cbn [length]; lia |].
    split.
    { intros fd Hin. rewrite socket_answers_app, Hsock in Hin.
      destruct Hcev as [(-> & _) | (-> & _)]; cbn in Hin; inversion Hin. }
    split; [split; [constructor | congruence] |].
    intros Hvalid Hcalloc Hsocket. exfalso.
    destruct Hcev as [(_ & N4 & N6) | (_ & Hos)]; [tauto |].
    exact (Hcalloc _ Hos).
  - destruct (startup_calls_only start 0 0 Hstart) as (Hsock & Hbind & _).
    eexists None, w', _, 0, [], [].
    split; [exact Hrun |]. split; [rewrite Htr, app_nil_r; reflexivity |].
    split; [rewrite bind_calls_app, Hbind; reflexivity |].
    split; [reflexivity |]. split; [cbn [length]; lia |].
    split.
    { intros fd' Hin Hpos. rewrite socket_answers_app, Hsock in Hin. cbn in Hin.
      apply list_elem_of_singleton in Hin. lia. }
    split; [split; [constructor | congruence] |].
    intros Hvalid Hcalloc Hsocket. exfalso.
    pose proof (Hsocket (w_trace w ++ start ++ [(Sys_calloc, p)])) as Hge. lia.
  - destruct (startup_calls_only start 0 0 Hstart) as (Hsock & Hbind & _).
    destruct (v6only_events_content a s rv) as (Hv6s & Hv6b & _).
    exists r, w',
      ((start ++ [(Sys_calloc, p); (Sys_socket (family a) SOCK_DGRAM IPPROTO_UDP, s)])
       ++ ([(Sys_setsockopt s SOL_SOCKET SO_BROADCAST 1 sizeof_int, rb);
            (Sys_fcntl s F_SETFL O_NONBLOCK 1, rf)] ++ v6only_events a s rv)),
      s, answers, post.
    split; [exact Hrun |]. split; [rewrite Htr, <- !app_assoc; reflexivity |].
    split; [rewrite !bind_calls_app, Hbind, Hv6b; reflexivity |].
    assert (Hnonempty : answers <> []) by (destruct answers; [cbn in Hlen; lia | discriminate]).
    assert (Hfirst : socket_answers
                       ((start ++ [(Sys_calloc, p);
                                   (Sys_socket (family a) SOCK_DGRAM IPPROTO_UDP, s)])
                        ++ [(Sys_setsockopt s SOL_SOCKET SO_BROADCAST 1 sizeof_int, rb);
                            (Sys_fcntl s F_SETFL O_NONBLOCK 1, rf)] ++ v6only_events a s rv)
                     = [s])
      by (rewrite !socket_answers_app, Hsock, Hv6s; reflexivity).
    destruct r as [net |].
    + destruct Hres as (-> & failed & Hans & Hfailed & ->).
      split; [reflexivity |]. split; [lia |].
      split.
      { intros fd Hin _. rewrite Hfirst in Hin.
        apply list_elem_of_singleton in Hin. split; assumption. }
      split; [split; [reflexivity |]; exists failed; repeat split; assumption |].
      intros _ _ _. split; [exact Hfirst |]. split; [exact Hs | lia].
    + destruct Hres as (Hn & Hall & init & x & e0 & r1 & r2 & Hans & ->).
      split; [reflexivity |]. split; [lia |].
      split.
      { intros fd Hin _. rewrite Hfirst in Hin.
        apply list_elem_of_singleton in Hin. split; assumption. }
      split.
      { split; [exact Hall |]. intros _. split; [exact Hn |].
        exists init, x, e0, r1, r2. split; [exact Hans |].
        assert (Hinit : length init = 8%nat)
          by (rewrite Hans, length_app in Hn; cbn [length] in Hn; lia).
        rewrite Hinit, <- ?app_assoc. reflexivity. }
      intros _ _ _. split; [exact Hfirst |]. split; [exact Hs | lia].
Qed.

(** C7 (as amended): creating an IPv6 socket, [new_networking] asks for
    the value 0 of the option [IPV6_V6ONLY] and for no other: it asks for
    dual-stack operation, where the socket also carries IPv4 as v4-mapped
    addresses, not for IPv6-only mode.  Whatever the system answers to that
    call, the first [bind] follows it, and a first [bind] that succeeds gives
    the socket.  On a system that gives the memory and the descriptor the
    request is made, once. *)
Theorem new_networking_ipv6_option (a : IP) (port : Z) (w : World) :
  0 <= port < 65536 ->
  family a = AF_INET6 ->
  exists (r : option Networking_Core) (w' : World) (evs : list (extcall * Z)),
    new_networking host_le os_ret os_errno os_clock a port w = (r, w')
    /\ w_trace w' = w_trace w ++ evs
    /\ Forall (fun v => v = 0) (sockopt_values IPPROTO_IPV6 IPV6_V6ONLY evs)
    /\ (forall fd, fd ∈ socket_answers evs -> 0 <= fd ->
          exists pre rv rb post,
            evs = pre
                  ++ [(Sys_setsockopt fd IPPROTO_IPV6 IPV6_V6ONLY 0 sizeof_char, rv);
                      (Sys_bind fd (local_sockaddr host_le a port) sizeof_sockaddr_in6, rb)]
                  ++ post
            /\ (rb = 0 ->
                exists net, r = Some net /\ net_sock net = fd /\ net_family net = AF_INET6))
    /\ ((forall tr, os_ret tr Sys_calloc <> 0) ->
        (forall tr, 0 <= os_ret tr (Sys_socket (family a) SOCK_DGRAM IPPROTO_UDP)) ->
        exists fd,
          socket_answers evs = [fd] /\ 0 <= fd
          /\ sockopt_values IPPROTO_IPV6 IPV6_V6ONLY evs = [0]).
Proof.
  intros Hport Hfam.
  destruct (new_networking_spec a port w Hport) as (r & w' & evs & Hrun & Htr & Hcases).
  exists r, w', evs. split; [exact Hrun |]. split; [exact Htr |].
  destruct Hcases as [(-> & start & cev & -> & Hstart & Hcev)
                     | [(-> & start & p & fd & rf & -> & Hstart & Hfd & Hfdos)
                       | (start & p & s & rb & rf & rv & answers & post & Hstart & Hs & Hvalid
                          & -> & Hlen & Hres)]].
  - destruct (startup_calls_only start IPPROTO_IPV6 IPV6_V6ONLY Hstart)
      as (Hsock & _ & Hopt).
    rewrite sockopt_values_app, socket_answers_app, Hsock, Hopt.
    split; [destruct Hcev as [(-> & _) | (-> & _)]; constructor |].
    split.
    { intros fd Hin. destruct Hcev as [(-> & _) | (-> & _)]; cbn in Hin; inversion Hin. }
    intros Hcalloc Hsocket. exfalso.
    destruct Hcev as [(_ & _ & N6) | (_ & Hos)]; [contradiction |].
    exact (Hcalloc _ Hos).
  - destruct (startup_calls_only start IPPROTO_IPV6 IPV6_V6ONLY Hstart)
      as (Hsock & _ & Hopt).
    rewrite sockopt_values_app, socket_answers_app, Hsock, Hopt.
    split; [constructor |].
    split.
    { intros fd' Hin Hpos. cbn in Hin. apply list_elem_of_singleton in Hin. lia. }
    intros Hcalloc Hsocket. exfalso.
    pose proof (Hsocket (w_trace w ++ start ++ [(Sys_calloc, p)])) as Hge. lia.
  - destruct (startup_calls_only start IPPROTO_IPV6 IPV6_V6ONLY Hstart)
      as (Hsock & _ & Hopt).
    destruct (v6only_events_content a s rv) as (Hv6s & _ & Hv6o).
    destruct (bind_attempts_only_bind s a port answers IPPROTO_IPV6 IPV6_V6ONLY)
      as (Hbs & Hbo).
    assert (Hpost : socket_answers post = []
                    /\ sockopt_values IPPROTO_IPV6 IPV6_V6ONLY post = []).
    { destruct r as [net |].
      - destruct Hres as (-> & _). split; reflexivity.
      - destruct Hres as (_ & _ & init & x & e0 & r1 & r2 & _ & ->). split; reflexivity. }
    destruct Hpost as (Hps & Hpo).
    assert (Hv6 : sockopt_values IPPROTO_IPV6 IPV6_V6ONLY (v6only_events a s rv) = [0])
      by (unfold v6only_events; rewrite Hfam; reflexivity).
    split.
    { rewrite !sockopt_values_app, Hopt, Hbo, Hpo. cbn [app]. rewrite !app_nil_r. exact Hv6o. }
    split.
    2: { intros _ _. exists s.
         split; [rewrite !socket_answers_app, Hsock, Hv6s, Hbs, Hps; reflexivity |].
         split; [exact Hs |].
         rewrite !sockopt_values_app, Hopt, Hbo, Hpo, Hv6. reflexivity. }
    intros fd Hin _.
    rewrite !socket_answers_app, Hsock, Hv6s, Hbs, Hps in Hin. cbn in Hin.
    apply list_elem_of_singleton in Hin. subst fd.
    destruct answers as [| x rest]; [cbn in Hlen; lia |].
    exists ((start ++ [(Sys_calloc, p); (Sys_socket (family a) SOCK_DGRAM IPPROTO_UDP, s)])
            ++ [(Sys_setsockopt s SOL_SOCKET SO_BROADCAST 1 sizeof_int, rb);
                (Sys_fcntl s F_SETFL O_NONBLOCK 1, rf)]),
           rv, x, (bind_attempts host_le s a (wrap16 (port + 1)) rest ++ post).
    split.
    { rewrite bind_attempts_cons by exact Hport.
      unfold v6only_events, local_sockaddr_size. rewrite Hfam.
      change (AF_INET6 =? AF_INET6) with true. change (AF_INET6 =? AF_INET) with false.
      cbv iota. rewrite <- !app_assoc. reflexivity. }
    intros Hx. destruct r as [net |].
    + destruct Hres as (_ & failed & _ & _ & ->).
      eexists. split; [reflexivity |]. split; [reflexivity | exact Hfam].
    + destruct Hres as (_ & Hall & _). inversion Hall. contradiction.
Qed.

End Binding.

Lemma new_networking_bind_retry_witness :
  0 <= 33445 < 65536
  /\ (family Examples.ip_v4_any = AF_INET \/ family Examples.ip_v4_any = AF_INET6)
  /\ (forall tr, Examples.os_busy tr Sys_calloc <> 0)
  /\ (forall tr, 0 <= Examples.os_busy tr (Sys_socket (family Examples.ip_v4_any)
                                                      SOCK_DGRAM IPPROTO_UDP))
  /\ exists (w' : World) (pre : list (extcall * Z)) (s : Z)
            (answers : list Z) (post : list (extcall * Z)),
       new_networking true Examples.os_busy Examples.os_errno_bind Examples.os_clock0
                      Examples.ip_v4_any 33445 Examples.world0 = (None, w')
       /\ w_trace w'
          = w_trace Examples.world0
            ++ pre ++ bind_attempts true s Examples.ip_v4_any 33445 answers ++ post
       /\ bind_calls pre = []
       /\ socket_answers pre = [s]
       /\ 0 <= s
       /\ length answers = 9%nat
       /\ Forall (fun x => x <> 0) answers
       /\ exists e r1 r2,
           post = [(Sys_printf_bind_failed e Examples.ip_v4_any 33445, r1); (Sys_free, r2)].
Proof.
  assert (H : 0 <= 33445 < 65536) by lia.
  assert (Hfam : family Examples.ip_v4_any = AF_INET \/ family Examples.ip_v4_any = AF_INET6)
    by (left; reflexivity).
  assert (Hcalloc : forall tr, Examples.os_busy tr Sys_calloc <> 0)
    by (intros tr; discriminate).
  assert (Hsocket : forall tr, 0 <= Examples.os_busy tr (Sys_socket (family Examples.ip_v4_any)
                                                                    SOCK_DGRAM IPPROTO_UDP))
    by (intros tr; cbn; lia).
  split; [exact H |]. split; [exact Hfam |]. split; [exact Hcalloc |].
  split; [exact Hsocket |].
  destruct (new_networking_bind_retry true Examples.os_busy Examples.os_errno_bind
              Examples.os_clock0 Examples.ip_v4_any 33445 Examples.world0 H)
    as (r & w' & pre & s & answers & post & H1 & H2 & H3 & _ & _ & _ & Hres & Hmade).
  destruct (Hmade Hfam Hcalloc Hsocket) as (Hsock & Hs & Hlen).
  assert (Hr : r = None).
  { vm_compute in H1. injection H1 as Hr _. symmetry. exact Hr. }
  subst r. destruct Hres as (Hall & Hnine).
  destruct Hnine as (Hn & init & x & e0 & r1 & r2 & _ & Hpost);
    [intros E; rewrite E in Hlen; cbn in Hlen; lia |].
  exists w', pre, s, answers, post.
  split; [exact H1 |]. split; [exact H2 |]. split; [exact H3 |]. split; [exact Hsock |].
  split; [exact Hs |]. split; [exact Hn |]. split; [exact Hall |].
  eexists _, r1, r2. exact Hpost.
Defined.

(** On the system of [Examples.os_third] the third attempt succeeds: the
    socket records port 33447, in network order. *)
Lemma new_networking_third_attempt :
  option_map net_port
             (new_networking true Examples.os_third Examples.os_errno_bind Examples.os_clock0
                             Examples.ip_v6 33445 Examples.world0).1
  = Some (htons true 33447)
  /\ length (bind_calls
               (w_trace (new_networking true Examples.os_third Examples.os_errno_bind
                                        Examples.os_clock0 Examples.ip_v6 33445
                                        Examples.world0).2))
     = 3%nat.
Proof. vm_compute. split; reflexivity. Qed.

(** C2, as stated, fails: with every port taken, the nine attempts run from
    port 33445 to port 33453, and the failure message reports 33445, the port
    asked for, not 33453, the last one attempted.  The increment is one of a
    16-bit value: from port 65535 the attempts go on at 0, and the ninth is
    at port 7.  And what is recorded on success is the port passed to [bind],
    not the port bound: asked for port 0, the socket records 0, whatever
    port the system chose. *)
Lemma new_networking_reported_port_counterexample :
  (new_networking true Examples.os_busy Examples.os_errno_bind Examples.os_clock0
                  Examples.ip_v4_any 33445 Examples.world0).1 = None
  /\ length (bind_calls
               (w_trace (new_networking true Examples.os_busy Examples.os_errno_bind
                                        Examples.os_clock0 Examples.ip_v4_any 33445
                                        Examples.world0).2))
     = 9%nat
  /\ last_attempted_port true
       (w_trace (new_networking true Examples.os_busy Examples.os_errno_bind
                                Examples.os_clock0 Examples.ip_v4_any 33445 Examples.world0).2)
     = Some 33453
  /\ reported_port
       (w_trace (new_networking true Examples.os_busy Examples.os_errno_bind
                                Examples.os_clock0 Examples.ip_v4_any 33445 Examples.world0).2)
     = Some 33445
  /\ last_attempted_port true
       (w_trace (new_networking true Examples.os_busy Examples.os_errno_bind
                                Examples.os_clock0 Examples.ip_v4_any 65535 Examples.world0).2)
     = Some 7
  /\ option_map (fun net => ntohs true (net_port net))
                (new_networking true Examples.os_ok Examples.os_errno_bind Examples.os_clock0
                                Examples.ip_v4_any 0 Examples.world0).1
     = Some 0
  /\ last_attempted_port true
       (w_trace (new_networking true Examples.os_ok Examples.os_errno_bind
                                Examples.os_clock0 Examples.ip_v4_any 0 Examples.world0).2)
     = Some 0
  /\ (forall ephemeral, ephemeral <> 0 -> bound_port ephemeral 0 <> 0).
Proof.
  repeat split; try (vm_compute; reflexivity).
  intros ephemeral H. exact H.
Qed.

Lemma new_networking_ipv6_option_witness :
  0 <= 33445 < 65536
  /\ family Examples.ip_v6 = AF_INET6
  /\ (forall tr, Examples.os_third tr Sys_calloc <> 0)
  /\ (forall tr, 0 <= Examples.os_third tr (Sys_socket (family Examples.ip_v6)
                                                       SOCK_DGRAM IPPROTO_UDP))
  /\ exists (r : option Networking_Core) (w' : World) (evs : list (extcall * Z))
            (fd : Z) (pre post : list (extcall * Z)) (rv rb : Z),
       new_networking true Examples.os_third Examples.os_errno_bind Examples.os_clock0
                      Examples.ip_v6 33445 Examples.world0 = (r, w')
       /\ w_trace w' = w_trace Examples.world0 ++ evs
       /\ socket_answers evs = [fd]
       /\ sockopt_values IPPROTO_IPV6 IPV6_V6ONLY evs = [0]
       /\ evs = pre
                ++ [(Sys_setsockopt fd IPPROTO_IPV6 IPV6_V6ONLY 0 sizeof_char, rv);
                    (Sys_bind fd (local_sockaddr true Examples.ip_v6 33445)
                              sizeof_sockaddr_in6, rb)]
                ++ post.
Proof.
  assert (H : 0 <= 33445 < 65536) by lia.
  assert (Hcalloc : forall tr, Examples.os_third tr Sys_calloc <> 0)
    by (intros tr; discriminate).
  assert (Hsocket : forall tr, 0 <= Examples.os_third tr (Sys_socket (family Examples.ip_v6)
                                                                     SOCK_DGRAM IPPROTO_UDP))
    by (intros tr; cbn; lia).
  split; [exact H |]. split; [reflexivity |]. split; [exact Hcalloc |].
  split; [exact Hsocket |].
  destruct (new_networking_ipv6_option true Examples.os_third Examples.os_errno_bind
              Examples.os_clock0 Examples.ip_v6 33445 Examples.world0 H eq_refl)
    as (r & w' & evs & H1 & H2 & _ & Hfollow & Hmade).
  destruct (Hmade Hcalloc Hsocket) as (fd & Hsock & Hfd & Hopt).
  destruct (Hfollow fd) as (pre & rv & rb & post & Hevs & _);
    [rewrite Hsock; apply list_elem_of_singleton; reflexivity | exact Hfd |].
  exists r, w', evs, fd, pre, post, rv, rb.
  split; [exact H1 |]. split; [exact H2 |]. split; [exact Hsock |]. split; [exact Hopt |].
  exact Hevs.
Defined.

(** C7, as stated, fails: the IPv6 socket is created, and the one value its
    creation gives to [IPV6_V6ONLY] is 0, which turns IPv6-only mode off and
    leaves v4-mapped delivery on.  On [Examples.os_third], where every
    [setsockopt] fails, the socket is created all the same. *)
Lemma new_networking_v6only_counterexample :
  option_map net_family
             (new_networking true Examples.os_ok Examples.os_errno_bind Examples.os_clock0
                             Examples.ip_v6 33445 Examples.world0).1
  = Some AF_INET6
  /\ sockopt_values IPPROTO_IPV6 IPV6_V6ONLY
       (w_trace (new_networking true Examples.os_ok Examples.os_errno_bind Examples.os_clock0
                                Examples.ip_v6 33445 Examples.world0).2)
     = [0]
  /\ option_map net_family
                (new_networking true Examples.os_third Examples.os_errno_bind
                                Examples.os_clock0 Examples.ip_v6 33445 Examples.world0).1
     = Some AF_INET6.
Proof. vm_compute. repeat split. Qed.

(** * Further properties *)

(** ** Address model *)

Lemma IN6_ARE_ADDR_EQUAL_bytes (le : bool) (a b : in6_addr) :
  IN6_ARE_ADDR_EQUAL le a b = 1 <-> a = b.
Proof.
  split.
  - unfold IN6_ARE_ADDR_EQUAL.
    destruct (Z.eqb_spec (load32 le (s6_word0 a)) (load32 le (s6_word0 b))) as [E0 | _];
      [| discriminate].
    destruct (Z.eqb_spec (load32 le (s6_word1 a)) (load32 le (s6_word1 b))) as [E1 | _];
      [| discriminate].
    destruct (Z.eqb_spec (load32 le (s6_word2 a)) (load32 le (s6_word2 b))) as [E2 | _];
      [| discriminate].
    destruct (Z.eqb_spec (load32 le (s6_word3 a)) (load32 le (s6_word3 b))) as [E3 | _];
      [| discriminate].
    intros _. destruct a, b. cbn [s6_word0 s6_word1 s6_word2 s6_word3] in *.
    apply load32_inj in E0, E1, E2, E3. congruence.
  - intros ->. apply IN6_ARE_ADDR_EQUAL_refl.
Qed.

Lemma IN6_ARE_ADDR_EQUAL_bool (le : bool) (a b : in6_addr) :
  IN6_ARE_ADDR_EQUAL le a b = 0 \/ IN6_ARE_ADDR_EQUAL le a b = 1.
Proof. unfold IN6_ARE_ADDR_EQUAL. destruct (_ && _); [right | left]; reflexivity. Qed.

(** X1: what [ip_equal] compares is decided by the family of its first
    operand alone: for an IPv4 first operand it is 1 exactly when the first
    four value bytes of the two operands agree, for an IPv6 first operand
    exactly when all sixteen agree; the family of the second operand is
    never read.  The result is 0 or 1. *)
Theorem ip_equal_compares_bytes (le : bool) (a b : IP) :
  (family a = AF_INET -> (ip_equal le (Some a) (Some b) = 1 <-> ip4 a = ip4 b))
  /\ (family a = AF_INET6 -> (ip_equal le (Some a) (Some b) = 1 <-> ip6 a = ip6 b))
  /\ (forall f, ip_equal le (Some a) (Some (set_family b f)) = ip_equal le (Some a) (Some b))
  /\ (ip_equal le (Some a) (Some b) = 0 \/ ip_equal le (Some a) (Some b) = 1).
Proof.
  split; [apply ip_equal_ipv4_bytes |]. split; [| split].
  - intros H. unfold ip_equal. rewrite H.
    change (AF_INET6 =? AF_INET) with false. change (AF_INET6 =? AF_INET6) with true.
    cbv iota. apply IN6_ARE_ADDR_EQUAL_bytes.
  - intros f. reflexivity.
  - unfold ip_equal. destruct (family a =? AF_INET).
    + destruct (_ =? _); [right | left]; reflexivity.
    + destruct (family a =? AF_INET6); [apply IN6_ARE_ADDR_EQUAL_bool | left; reflexivity].
Qed.

Lemma ip_equal_compares_bytes_witness :
  family Examples.ip_v4 = AF_INET
  /\ family Examples.ip_v6 = AF_INET6
  /\ ip_equal true (Some Examples.ip_v4) (Some (set_family Examples.ip_v4 AF_INET6)) = 1
  /\ ip_equal true (Some Examples.ip_v6) (Some (set_family Examples.ip_v6 AF_UNSPEC)) = 1.
Proof.
  split; [reflexivity |]. split; [reflexivity |]. split.
  - apply (proj1 (ip_equal_compares_bytes true Examples.ip_v4
                    (set_family Examples.ip_v4 AF_INET6)) eq_refl).
    reflexivity.
  - apply (proj1 (proj2 (ip_equal_compares_bytes true Examples.ip_v6
                           (set_family Examples.ip_v6 AF_UNSPEC))) eq_refl).
    reflexivity.
Defined.

Lemma ip_equal_self (le : bool) (a : IP) :
  family a = AF_INET \/ family a = AF_INET6 -> ip_equal le (Some a) (Some a) = 1.
Proof.
  intros [H | H]; unfold ip_equal; rewrite H.
  - change (AF_INET =? AF_INET) with true. cbv iota. rewrite Z.eqb_refl. reflexivity.
  - change (AF_INET6 =? AF_INET) with false. change (AF_INET6 =? AF_INET6) with true.
    cbv iota. apply IN6_ARE_ADDR_EQUAL_refl.
Qed.

(** X2: two endpoints that [ipport_equal] finds equal have the same port,
    and the first of them is set, with an IPv4 or IPv6 address; and every
    endpoint with a port other than 0 and an IPv4 or IPv6 address is equal
    to itself. *)
Theorem ipport_equal_set_endpoints (le : bool) (a b : IP_Port) :
  (ipport_equal le (Some a) (Some b) = 1 ->
   port b = port a
   /\ ipport_isset (Some a) = 1
   /\ (family (ip a) = AF_INET \/ family (ip a) = AF_INET6)
   /\ ip_equal le (Some (ip a)) (Some (ip b)) = 1)
  /\ (port a <> 0 -> family (ip a) = AF_INET \/ family (ip a) = AF_INET6 ->
      ipport_equal le (Some a) (Some a) = 1).
Proof.
  split.
  - unfold ipport_equal, ipport_isset, ip_isset.
    destruct (Z.eqb_spec (port a) 0) as [E0 | N0]; [discriminate |].
    destruct (Z.eqb_spec (port a) (port b)) as [Ep | Np]; [| discriminate].
    cbn [orb negb]. intros Heq. split; [congruence |].
    assert (Hfam : family (ip a) = AF_INET \/ family (ip a) = AF_INET6).
    { unfold ip_equal in Heq.
      destruct (Z.eqb_spec (family (ip a)) AF_INET) as [E4 | _]; [left; exact E4 |].
      destruct (Z.eqb_spec (family (ip a)) AF_INET6) as [E6 | _]; [right; exact E6 |].
      discriminate. }
    split; [| split; [exact Hfam | exact Heq]].
    destruct Hfam as [-> | ->]; reflexivity.
  - intros Hp Hfam. unfold ipport_equal.
    destruct (Z.eqb_spec (port a) 0) as [E0 | _]; [contradiction |].
    rewrite Z.eqb_refl. cbn [orb negb].
    apply ip_equal_self; exact Hfam.
Qed.

Lemma ipport_equal_set_endpoints_witness :
  port (mkIP_Port Examples.ip_v6 Examples.port_33445_net) <> 0
  /\ ipport_equal true (Some (mkIP_Port Examples.ip_v6 Examples.port_33445_net))
                  (Some (mkIP_Port Examples.ip_v6 Examples.port_33445_net)) = 1
  /\ ipport_isset (Some (mkIP_Port Examples.ip_v6 Examples.port_33445_net)) = 1.
Proof.
  assert (Hp : port (mkIP_Port Examples.ip_v6 Examples.port_33445_net) <> 0) by discriminate.
  pose proof (ipport_equal_set_endpoints true
                (mkIP_Port Examples.ip_v6 Examples.port_33445_net)
                (mkIP_Port Examples.ip_v6 Examples.port_33445_net)) as [Himp Hrefl].
  pose proof (Hrefl Hp (or_intror eq_refl)) as Heq.
  split; [exact Hp |]. split; [exact Heq |].
  exact (proj1 (proj2 (Himp Heq))).
Defined.



(** X4: [ip_reset] gives the same cleared address whatever it is applied
    to; the cleared address is not set, is equal to nothing when it is the
    first operand of [ip_equal], makes every endpoint built on it unset and
    unequal to everything, and [ip_reset] on it changes nothing. *)
Theorem ip_reset_unsets (le : bool) (a b : IP) (p : Z) (e : IP_Port) :
  exists cleared : IP,
    ip_reset (Some a) = Some cleared
    /\ ip_reset (Some b) = Some cleared
    /\ ip_reset (Some cleared) = Some cleared
    /\ ip_isset (Some cleared) = 0
    /\ ip_equal le (Some cleared) (Some b) = 0
    /\ ipport_isset (Some (mkIP_Port cleared p)) = 0
    /\ ipport_equal le (Some (mkIP_Port cleared p)) (Some e) = 0.
Proof.
  exists (mkIP 0 in6_zero). repeat split.
  - unfold ipport_isset. cbn [port ip]. destruct (p =? 0); reflexivity.
  - unfold ipport_equal. cbn [port ip]. destruct ((p =? 0) || negb (p =? port e)); reflexivity.
Qed.

(** X5: [ip_init] sets the family by its flag, so the address is set
    afterwards; but its [memset] has the length of a pointer, so on a host
    whose pointers have at most 8 bytes it clears at most the first four
    value bytes: bytes 4-15 of the value are what they were, and with 4-byte
    pointers the whole value is.  It does not null out the address as
    [ip_reset] does. *)
Theorem ip_init_keeps_value (sizeof_pointer : Z) (a : IP) (ipv6enabled : byte) :
  sizeof_pointer <= 8 ->
  exists a' : IP,
    ip_init sizeof_pointer (Some a) ipv6enabled = Some a'
    /\ family a' = (if u8 ipv6enabled =? 0 then AF_INET else AF_INET6)
    /\ ip_isset (Some a') = 1
    /\ s6_word1 (ip6 a') = s6_word1 (ip6 a)
    /\ s6_word2 (ip6 a') = s6_word2 (ip6 a)
    /\ s6_word3 (ip6 a') = s6_word3 (ip6 a)
    /\ (sizeof_pointer <= 4 -> ip6 a' = ip6 a)
    /\ (sizeof_pointer = 8 -> ip4 a' = mem32_zero).
Proof.
  intros Hsz. eexists. split; [reflexivity |].
  assert (Hkeep : forall off m, sizeof_pointer <= off -> memset_zero_mem32 sizeof_pointer off m = m).
  { intros off m Hoff. destruct m. unfold memset_zero_mem32, memset_zero_byte.
    cbn [octet0 octet1 octet2 octet3].
    destruct (Z.ltb_spec off sizeof_pointer); [lia |].
    destruct (Z.ltb_spec (off + 1) sizeof_pointer); [lia |].
    destruct (Z.ltb_spec (off + 2) sizeof_pointer); [lia |].
    destruct (Z.ltb_spec (off + 3) sizeof_pointer); [lia |].
    reflexivity. }
  cbn [family ip6 s6_word1 s6_word2 s6_word3].
  split; [destruct (u8 ipv6enabled =? 0); reflexivity |].
  split; [unfold ip_isset; cbn [family]; destruct (u8 ipv6enabled =? 0); reflexivity |].
  split; [apply Hkeep; lia |]. split; [apply Hkeep; lia |]. split; [apply Hkeep; lia |].
  split.
  - intros H4. destruct a as [f [w0 w1 w2 w3]]. cbn [ip6 s6_word0 s6_word1 s6_word2 s6_word3].
    rewrite !Hkeep by lia. reflexivity.
  - intros ->. unfold ip4. cbn [ip6 s6_word0]. destruct (s6_word0 (ip6 a)). reflexivity.
Qed.

Lemma ip_init_keeps_value_witness :
  8 <= 8
  /\ exists a' : IP,
       ip_init 8 (Some Examples.ip_v6) x00 = Some a'
       /\ family a' = AF_INET
       /\ ip_isset (Some a') = 1
       /\ s6_word3 (ip6 a') = Mem32 x00 x00 x00 x01.
Proof.
  assert (H : 8 <= 8) by lia. split; [exact H |].
  destruct (ip_init_keeps_value 8 Examples.ip_v6 x00 H)
    as (a' & Hrun & Hfam & Hset & _ & _ & H3 & _).
  exists a'. split; [exact Hrun |]. split; [exact Hfam |]. split; [exact Hset | exact H3].
Defined.

(** ** Parsing and resolving *)

Section Resolving.

Variable host_le : bool.
Variable inet_pton4 : list byte -> Z * mem32.
Variable inet_pton6 : list byte -> Z * in6_addr.
Variable getaddrinfo : list byte -> Z -> Z -> Z * list addrinfo.

(** X6: [addr_parse_ip] returns 1 exactly when one of the two parsers
    accepts the text, and 0 otherwise, leaving [to] as it was.  IPv4 is tried
    first and wins whatever the IPv6 parser would say.  An address it parsed
    is set and equal to itself. *)
Theorem addr_parse_ip_result (address : list byte) (to : IP) :
  let res := addr_parse_ip inet_pton4 inet_pton6 (Some address) (Some to) in
  (res.1 = 0 \/ res.1 = 1)
  /\ (res.1 = 1 <-> (inet_pton4 address).1 = 1 \/ (inet_pton6 address).1 = 1)
  /\ ((inet_pton4 address).1 = 1 ->
      exists to', res.2 = Some to' /\ family to' = AF_INET
                  /\ ip4 to' = (inet_pton4 address).2)
  /\ ((inet_pton4 address).1 <> 1 -> (inet_pton6 address).1 = 1 ->
      exists to', res.2 = Some to' /\ family to' = AF_INET6
                  /\ ip6 to' = (inet_pton6 address).2)
  /\ (res.1 = 0 -> res.2 = Some to)
  /\ (res.1 = 1 ->
      exists to', res.2 = Some to' /\ ip_isset (Some to') = 1
                  /\ ip_equal host_le (Some to') (Some to') = 1).
Proof.
  cbv zeta. unfold addr_parse_ip.
  destruct (inet_pton4 address) as [r4 addr4]. cbn [fst snd].
  destruct (Z.eqb_spec 1 r4) as [E4 | N4].
  - cbn [fst snd]. split; [right; reflexivity |].
    split; [split; [intros _; left; congruence | reflexivity] |].
    split; [intros _; eexists; repeat split |].
    split; [intros H; congruence |].
    split; [discriminate |].
    intros _. eexists. split; [reflexivity |]. split; [reflexivity |].
    apply ip_equal_self. left; reflexivity.
  - destruct (inet_pton6 address) as [r6 addr6]. cbn [fst snd].
    destruct (Z.eqb_spec 1 r6) as [E6 | N6]; cbn [fst snd].
    + split; [right; reflexivity |].
      split; [split; [intros _; right; congruence | reflexivity] |].
      split; [intros H; congruence |].
      split; [intros _ _; eexists; repeat split |].
      split; [discriminate |].
      intros _. eexists. split; [reflexivity |]. split; [reflexivity |].
      apply ip_equal_self. right; reflexivity.
    + split; [left; reflexivity |].
      split; [split; [discriminate | intros [H | H]; congruence] |].
      split; [intros H; congruence |].
      split; [intros _ H; congruence |].
      split; [reflexivity | discriminate].
Qed.

(** *** The loop of [addr_resolve] *)

Lemma addr_resolve_walk_done (fam : Z) (l : list addrinfo) (st : resolve_state) :
  rs_rc st = 3 -> addr_resolve_walk fam l st = st.
Proof. intros H. destruct l; [reflexivity |]. cbn [addr_resolve_walk]. rewrite H. reflexivity. Qed.

Lemma addr_resolve_step_specific (fam : Z) (e : addrinfo) (st : resolve_state) :
  fam = AF_INET \/ fam = AF_INET6 ->
  family (rs_to st) = fam ->
  addr_resolve_step fam e st
  = if usable_entry fam e
    then mkResolve 3 (entry_into (rs_to st) e) (rs_ip4 st) (rs_ip6 st)
    else st.
Proof.
  intros Hfam Hto. unfold addr_resolve_step, usable_entry, entry_into. rewrite Hto.
  destruct Hfam as [-> | ->].
  - change (AF_INET =? AF_UNSPEC) with false. change (AF_INET =? AF_INET) with true.
    cbn [negb]. cbv iota.
    destruct (ai_family e =? AF_INET); [| reflexivity].
    destruct (ai_addrlen e =? sizeof_sockaddr_in); reflexivity.
  - change (AF_INET6 =? AF_UNSPEC) with false. change (AF_INET6 =? AF_INET) with false.
    change (AF_INET6 =? AF_INET6) with true. cbn [negb]. cbv iota.
    destruct (ai_family e =? AF_INET6); [| reflexivity].
    destruct (ai_addrlen e =? sizeof_sockaddr_in6); reflexivity.
Qed.

Lemma addr_resolve_walk_specific (fam : Z) (l : list addrinfo) (st : resolve_state) :
  fam = AF_INET \/ fam = AF_INET6 ->
  family (rs_to st) = fam ->
  rs_rc st = 0 ->
  addr_resolve_walk fam l st
  = match List.find (usable_entry fam) l with
    | Some e => mkResolve 3 (entry_into (rs_to st) e) (rs_ip4 st) (rs_ip6 st)
    | None => st
    end.
Proof.
  intros Hfam Hto Hrc. induction l as [| e l IH]; [reflexivity |].
  cbn [addr_resolve_walk List.find]. rewrite Hrc. cbn [Z.eqb negb].
  rewrite addr_resolve_step_specific by assumption.
  destruct (usable_entry fam e); [| exact IH].
  apply addr_resolve_walk_done. reflexivity.
Qed.

(** X7: with [to->family] IPv4 or IPv6 and a resolver that answers, the
    result of [addr_resolve] is the first entry of that family (with the
    address length of that family) in the resolver's list: it returns 3 with
    the address of that entry in [to], the family unchanged; with no such
    entry it returns 0 and leaves [to] as it was. *)
Theorem addr_resolve_specific_family (address : list byte) (to : IP) (server : list addrinfo) :
  family to = AF_INET \/ family to = AF_INET6 ->
  getaddrinfo address (family to) SOCK_DGRAM = (0, server) ->
  addr_resolve getaddrinfo (Some address) (Some to)
  = match List.find (usable_entry (family to)) server with
    | Some e => (3, Some (entry_into to e))
    | None => (0, Some to)
    end
  /\ (forall e, List.find (usable_entry (family to)) server = Some e ->
        family (entry_into to e) = family to /\ ip_isset (Some (entry_into to e)) = 1).
Proof.
  intros Hfam Hgai. split.
  - unfold addr_resolve. rewrite Hgai. cbn [Z.eqb negb].
    rewrite addr_resolve_walk_specific by (try assumption; reflexivity).
    cbn [rs_to rs_rc rs_ip4 rs_ip6].
    destruct (List.find (usable_entry (family to)) server) as [e |]; cbn [rs_to rs_rc].
    + assert (Hkeep : family (entry_into to e) = family to)
        by (unfold entry_into; destruct (family to =? AF_INET); reflexivity).
      rewrite Hkeep. destruct Hfam as [-> | ->]; reflexivity.
    + destruct Hfam as [-> | ->]; reflexivity.
  - intros e _.
    assert (Hkeep : family (entry_into to e) = family to)
      by (unfold entry_into; destruct (family to =? AF_INET); reflexivity).
    split; [exact Hkeep |]. unfold ip_isset. rewrite Hkeep.
    destruct Hfam as [-> | ->]; reflexivity.
Qed.

Lemma addr_resolve_step_unspec (e : addrinfo) (st : resolve_state) :
  addr_resolve_step AF_UNSPEC e st
  = if usable_entry AF_INET e
    then mkResolve (Z.lor (rs_rc st) 1) (rs_to st) (entry_ip4 e) (rs_ip6 st)
    else if usable_entry AF_INET6 e
    then mkResolve (Z.lor (rs_rc st) 2) (rs_to st) (rs_ip4 st) (entry_ip6 e)
    else st.
Proof.
  unfold addr_resolve_step, usable_entry, entry_ip4, entry_ip6.
  change (AF_UNSPEC =? AF_UNSPEC) with true. change (AF_INET =? AF_INET) with true.
  change (AF_INET6 =? AF_INET) with false. cbn [negb]. cbv iota.
  destruct (Z.eqb_spec (ai_family e) AF_INET) as [E4 | N4].
  - cbn [andb]. destruct (ai_addrlen e =? sizeof_sockaddr_in); [reflexivity |].
    rewrite E4. reflexivity.
  - cbn [andb]. destruct (ai_family e =? AF_INET6); [| reflexivity].
    cbn [andb]. destruct (ai_addrlen e =? sizeof_sockaddr_in6); reflexivity.
Qed.

Lemma usable_entry_exclusive (e : addrinfo) :
  usable_entry AF_INET e = true -> usable_entry AF_INET6 e = false.
Proof.
  unfold usable_entry. destruct (Z.eqb_spec (ai_family e) AF_INET) as [E | _]; [| discriminate].
  intros _. rewrite E. reflexivity.
Qed.

Lemma rc_bits (rc : Z) :
  rc = 0 \/ rc = 1 \/ rc = 2 \/ rc = 3 ->
  (Z.lor rc 1 = 1 \/ Z.lor rc 1 = 3) /\ (Z.lor rc 2 = 2 \/ Z.lor rc 2 = 3)
  /\ rc_has 1 (Z.lor rc 1) = true /\ rc_has 2 (Z.lor rc 1) = rc_has 2 rc
  /\ rc_has 2 (Z.lor rc 2) = true /\ rc_has 1 (Z.lor rc 2) = rc_has 1 rc
  /\ (rc =? 3) = rc_has 1 rc && rc_has 2 rc
  /\ (rc =? 0) = negb (rc_has 1 rc) && negb (rc_has 2 rc).
Proof.
  intros [-> | [-> | [-> | ->]]]; cbn; repeat split; auto.
Qed.

Lemma rc_range_lor (rc bit : Z) :
  rc = 0 \/ rc = 1 \/ rc = 2 \/ rc = 3 ->
  bit = 1 \/ bit = 2 ->
  Z.lor rc bit = 0 \/ Z.lor rc bit = 1 \/ Z.lor rc bit = 2 \/ Z.lor rc bit = 3.
Proof. intros [-> | [-> | [-> | ->]]] [-> | ->]; cbn; auto. Qed.

Lemma addr_resolve_walk_unspec_cons (e : addrinfo) (l : list addrinfo) (st : resolve_state) :
  addr_resolve_walk AF_UNSPEC (e :: l) st
  = if rs_rc st =? 3 then st
    else if usable_entry AF_INET e
    then addr_resolve_walk AF_UNSPEC l
           (mkResolve (Z.lor (rs_rc st) 1) (rs_to st) (entry_ip4 e) (rs_ip6 st))
    else if usable_entry AF_INET6 e
    then addr_resolve_walk AF_UNSPEC l
           (mkResolve (Z.lor (rs_rc st) 2) (rs_to st) (rs_ip4 st) (entry_ip6 e))
    else addr_resolve_walk AF_UNSPEC l st.
Proof.
  cbn [addr_resolve_walk]. destruct (rs_rc st =? 3); [reflexivity |]. cbn [negb].
  rewrite addr_resolve_step_unspec.
  destruct (usable_entry AF_INET e); [reflexivity |].
  destruct (usable_entry AF_INET6 e); reflexivity.
Qed.

(** The loop, when [to->family] is [AF_UNSPEC], keeps [to] and keeps [rc]
    among 0-3. *)
Lemma addr_resolve_walk_unspec_keeps (l : list addrinfo) :
  forall st : resolve_state,
    rs_rc st = 0 \/ rs_rc st = 1 \/ rs_rc st = 2 \/ rs_rc st = 3 ->
    rs_to (addr_resolve_walk AF_UNSPEC l st) = rs_to st
    /\ (rs_rc (addr_resolve_walk AF_UNSPEC l st) = 0
        \/ rs_rc (addr_resolve_walk AF_UNSPEC l st) = 1
        \/ rs_rc (addr_resolve_walk AF_UNSPEC l st) = 2
        \/ rs_rc (addr_resolve_walk AF_UNSPEC l st) = 3).
Proof.
  induction l as [| e l IH]; intros st Hrc; [split; [reflexivity | exact Hrc] |].
  rewrite addr_resolve_walk_unspec_cons.
  destruct (rs_rc st =? 3); [split; [reflexivity | exact Hrc] |].
  destruct (usable_entry AF_INET e).
  { apply (IH (mkResolve _ _ _ _)). cbn [rs_rc]. apply rc_range_lor; auto. }
  destruct (usable_entry AF_INET6 e).
  { apply (IH (mkResolve _ _ _ _)). cbn [rs_rc]. apply rc_range_lor; auto. }
  apply IH. exact Hrc.
Qed.

(** Bit 1 of [rc] is set at the end when it was at the start or the list has
    an IPv4 entry; bit 2 likewise for IPv6. *)
Lemma addr_resolve_walk_unspec_bits (l : list addrinfo) :
  forall st : resolve_state,
    rs_rc st = 0 \/ rs_rc st = 1 \/ rs_rc st = 2 \/ rs_rc st = 3 ->
    rc_has 1 (rs_rc (addr_resolve_walk AF_UNSPEC l st))
    = rc_has 1 (rs_rc st) || List.existsb (usable_entry AF_INET) l
    /\ rc_has 2 (rs_rc (addr_resolve_walk AF_UNSPEC l st))
       = rc_has 2 (rs_rc st) || List.existsb (usable_entry AF_INET6) l.
Proof.
  induction l as [| e l IH]; intros st Hrc.
  { cbn [addr_resolve_walk List.existsb]. rewrite !orb_false_r. split; reflexivity. }
  pose proof (rc_bits (rs_rc st) Hrc) as (_ & _ & H11 & H21 & H22 & H12 & _).
  rewrite addr_resolve_walk_unspec_cons. cbn [List.existsb].
  destruct (Z.eqb_spec (rs_rc st) 3) as [E3 | N3].
  { rewrite E3. split; reflexivity. }
  destruct (usable_entry AF_INET e) eqn:U4.
  { rewrite (usable_entry_exclusive e U4).
    destruct (IH (mkResolve (Z.lor (rs_rc st) 1) (rs_to st) (entry_ip4 e) (rs_ip6 st)))
      as (I1 & I2); [cbn [rs_rc]; apply rc_range_lor; auto |].
    cbn [rs_rc] in I1, I2. rewrite I1, I2, H11, H21. cbn [orb].
    split; [destruct (rc_has 1 (rs_rc st)); reflexivity | reflexivity]. }
  destruct (usable_entry AF_INET6 e) eqn:U6.
  { destruct (IH (mkResolve (Z.lor (rs_rc st) 2) (rs_to st) (rs_ip4 st) (entry_ip6 e)))
      as (I1 & I2); [cbn [rs_rc]; apply rc_range_lor; auto |].
    cbn [rs_rc] in I1, I2. rewrite I1, I2, H22, H12. cbn [orb].
    split; [reflexivity | destruct (rc_has 2 (rs_rc st)); reflexivity]. }
  cbn [orb]. apply IH. exact Hrc.
Qed.

(** At the end [ip6] is what it was, with bit 2 of [rc] as it was, or it is
    the address of an IPv6 entry of the list; and likewise [ip4]. *)
Lemma addr_resolve_walk_unspec_ip6 (l : list addrinfo) :
  forall st : resolve_state,
    rs_rc st = 0 \/ rs_rc st = 1 \/ rs_rc st = 2 \/ rs_rc st = 3 ->
    (rs_ip6 (addr_resolve_walk AF_UNSPEC l st) = rs_ip6 st
     /\ rc_has 2 (rs_rc (addr_resolve_walk AF_UNSPEC l st)) = rc_has 2 (rs_rc st))
    \/ exists e, In e l /\ usable_entry AF_INET6 e = true
                 /\ rs_ip6 (addr_resolve_walk AF_UNSPEC l st) = entry_ip6 e.
Proof.
  induction l as [| e l IH]; intros st Hrc; [left; split; reflexivity |].
  pose proof (rc_bits (rs_rc st) Hrc) as (_ & _ & _ & H21 & _).
  rewrite addr_resolve_walk_unspec_cons.
  assert (Hin : forall st1, (exists x, In x l /\ usable_entry AF_INET6 x = true
                                       /\ rs_ip6 (addr_resolve_walk AF_UNSPEC l st1) = entry_ip6 x) ->
                            exists x, In x (e :: l) /\ usable_entry AF_INET6 x = true
                                      /\ rs_ip6 (addr_resolve_walk AF_UNSPEC l st1) = entry_ip6 x).
  { intros st1 (x & Hx & HP). exists x. split; [right; exact Hx | exact HP]. }
  destruct (rs_rc st =? 3); [left; split; reflexivity |].
  destruct (usable_entry AF_INET e) eqn:U4.
  { destruct (IH (mkResolve (Z.lor (rs_rc st) 1) (rs_to st) (entry_ip4 e) (rs_ip6 st)))
      as [(I1 & I2) | I]; [cbn [rs_rc]; apply rc_range_lor; auto | |].
    - left. cbn [rs_rc rs_ip6] in I1, I2. rewrite I1, I2, H21. split; reflexivity.
    - right. apply Hin. exact I. }
  destruct (usable_entry AF_INET6 e) eqn:U6.
  { destruct (IH (mkResolve (Z.lor (rs_rc st) 2) (rs_to st) (rs_ip4 st) (entry_ip6 e)))
      as [(I1 & _) | I]; [cbn [rs_rc]; apply rc_range_lor; auto | |].
    - right. exists e. split; [left; reflexivity |]. split; [exact U6 | exact I1].
    - right. apply Hin. exact I. }
  destruct (IH st Hrc) as [I | I]; [left; exact I | right; apply Hin; exact I].
Qed.

Lemma addr_resolve_walk_unspec_ip4 (l : list addrinfo) :
  forall st : resolve_state,
    rs_rc st = 0 \/ rs_rc st = 1 \/ rs_rc st = 2 \/ rs_rc st = 3 ->
    (rs_ip4 (addr_resolve_walk AF_UNSPEC l st) = rs_ip4 st
     /\ rc_has 1 (rs_rc (addr_resolve_walk AF_UNSPEC l st)) = rc_has 1 (rs_rc st))
    \/ exists e, In e l /\ usable_entry AF_INET e = true
                 /\ rs_ip4 (addr_resolve_walk AF_UNSPEC l st) = entry_ip4 e.
Proof.
  induction l as [| e l IH]; intros st Hrc; [left; split; reflexivity |].
  pose proof (rc_bits (rs_rc st) Hrc) as (_ & _ & _ & _ & _ & H12 & _).
  rewrite addr_resolve_walk_unspec_cons.
  assert (Hin : forall st1, (exists x, In x l /\ usable_entry AF_INET x = true
                                       /\ rs_ip4 (addr_resolve_walk AF_UNSPEC l st1) = entry_ip4 x) ->
                            exists x, In x (e :: l) /\ usable_entry AF_INET x = true
                                      /\ rs_ip4 (addr_resolve_walk AF_UNSPEC l st1) = entry_ip4 x).
  { intros st1 (x & Hx & HP). exists x. split; [right; exact Hx | exact HP]. }
  destruct (rs_rc st =? 3); [left; split; reflexivity |].
  destruct (usable_entry AF_INET e) eqn:U4.
  { destruct (IH (mkResolve (Z.lor (rs_rc st) 1) (rs_to st) (entry_ip4 e) (rs_ip6 st)))
      as [(I1 & _) | I]; [cbn [rs_rc]; apply rc_range_lor; auto | |].
    - right. exists e. split; [left; reflexivity |]. split; [exact U4 | exact I1].
    - right. apply Hin. exact I. }
  destruct (usable_entry AF_INET6 e) eqn:U6.
  { destruct (IH (mkResolve (Z.lor (rs_rc st) 2) (rs_to st) (rs_ip4 st) (entry_ip6 e)))
      as [(I1 & I2) | I]; [cbn [rs_rc]; apply rc_range_lor; auto | |].
    - left. cbn [rs_rc rs_ip4] in I1, I2. rewrite I1, I2, H12. split; reflexivity.
    - right. apply Hin. exact I. }
  destruct (IH st Hrc) as [I | I]; [left; exact I | right; apply Hin; exact I].
Qed.

Lemma rc_of_bits (rc : Z) :
  rc = 0 \/ rc = 1 \/ rc = 2 \/ rc = 3 ->
  rc = (if rc_has 2 rc then (if rc_has 1 rc then 3 else 2)
        else (if rc_has 1 rc then 1 else 0)).
Proof. intros [-> | [-> | [-> | ->]]]; reflexivity. Qed.

(** X8: with [to->family] [AF_UNSPEC] and a resolver that answers,
    [addr_resolve] prefers IPv6: if the list has an IPv6 entry the result is
    an IPv6 address, that of an IPv6 entry of the list, and the value
    returned is 3 when the list also has an IPv4 entry and 2 when not; with
    IPv4 entries only it returns 1 with the address of an IPv4 entry of the
    list; with neither it returns 0 and leaves [to] as it was. *)
Theorem addr_resolve_unspec_prefers_ipv6 (address : list byte) (to : IP)
        (server : list addrinfo) :
  family to = AF_UNSPEC ->
  getaddrinfo address AF_UNSPEC SOCK_DGRAM = (0, server) ->
  if List.existsb (usable_entry AF_INET6) server
  then
    exists e, In e server /\ usable_entry AF_INET6 e = true
              /\ addr_resolve getaddrinfo (Some address) (Some to)
                 = (if List.existsb (usable_entry AF_INET) server then 3 else 2,
                    Some (set_ip6 (set_family to AF_INET6) (entry_ip6 e)))
  else if List.existsb (usable_entry AF_INET) server
  then
    exists e, In e server /\ usable_entry AF_INET e = true
              /\ addr_resolve getaddrinfo (Some address) (Some to)
                 = (1, Some (set_ip4 (set_family to AF_INET) (entry_ip4 e)))
  else addr_resolve getaddrinfo (Some address) (Some to) = (0, Some to).
Proof.
  intros Hfam Hgai. unfold addr_resolve. rewrite Hfam, Hgai. cbn [Z.eqb negb].
  set (st0 := mkResolve 0 to mem32_zero in6_zero).
  assert (Hrc0 : rs_rc st0 = 0 \/ rs_rc st0 = 1 \/ rs_rc st0 = 2 \/ rs_rc st0 = 3)
    by (left; reflexivity).
  destruct (addr_resolve_walk_unspec_keeps server st0 Hrc0) as (Hto & Hrange).
  destruct (addr_resolve_walk_unspec_bits server st0 Hrc0) as (Hb1 & Hb2).
  pose proof (addr_resolve_walk_unspec_ip6 server st0 Hrc0) as H6.
  pose proof (addr_resolve_walk_unspec_ip4 server st0 Hrc0) as H4.
  pose proof (rc_of_bits _ Hrange) as Hval.
  change (rc_has 1 (rs_rc st0)) with false in Hb1, H4.
  change (rc_has 2 (rs_rc st0)) with false in Hb2, H6.
  cbn [orb] in Hb1, Hb2. change (rs_to st0) with to in Hto.
  rewrite Hto, Hfam. change (AF_UNSPEC =? AF_UNSPEC) with true. cbv iota.
  fold (rc_has 2 (rs_rc (addr_resolve_walk AF_UNSPEC server st0))).
  fold (rc_has 1 (rs_rc (addr_resolve_walk AF_UNSPEC server st0))).
  set (rc' := rs_rc (addr_resolve_walk AF_UNSPEC server st0)) in *. clearbody rc'.
  rewrite Hb1, Hb2 in Hval. rewrite Hb1, Hb2. rewrite Hb1 in H4. rewrite Hb2 in H6.
  destruct (List.existsb (usable_entry AF_INET6) server).
  - destruct H6 as [(_ & H) | (e & Hin & Hu & He)]; [discriminate |].
    exists e. split; [exact Hin |]. split; [exact Hu |]. rewrite He, Hval. reflexivity.
  - destruct (List.existsb (usable_entry AF_INET) server).
    + destruct H4 as [(_ & H) | (e & Hin & Hu & He)]; [discriminate |].
      exists e. split; [exact Hin |]. split; [exact Hu |]. rewrite He, Hval. reflexivity.
    + reflexivity.
Qed.

Lemma addr_resolve_walk_unspec_only6 (l : list addrinfo) :
  forall st : resolve_state,
    rs_rc st = 0 \/ rs_rc st = 2 ->
    List.existsb (usable_entry AF_INET) l = false ->
    addr_resolve_walk AF_UNSPEC l st
    = match last (List.filter (usable_entry AF_INET6) l) with
      | Some e => mkResolve 2 (rs_to st) (rs_ip4 st) (entry_ip6 e)
      | None => st
      end.
Proof.
  induction l as [| e l IH]; intros st Hrc Hno4; [reflexivity |].
  cbn [List.existsb] in Hno4. apply orb_false_elim in Hno4 as [U4 Hno4].
  rewrite addr_resolve_walk_unspec_cons, U4. cbn [List.filter].
  assert (H3 : (rs_rc st =? 3) = false) by (destruct Hrc as [-> | ->]; reflexivity).
  rewrite H3.
  destruct (usable_entry AF_INET6 e); [| apply IH; assumption].
  rewrite IH; [| cbn [rs_rc]; destruct Hrc as [-> | ->]; right; reflexivity | exact Hno4].
  rewrite last_cons. cbn [rs_to rs_ip4].
  destruct (last (List.filter (usable_entry AF_INET6) l)); [reflexivity |].
  destruct Hrc as [-> | ->]; reflexivity.
Qed.

Lemma addr_resolve_walk_unspec_only4 (l : list addrinfo) :
  forall st : resolve_state,
    rs_rc st = 0 \/ rs_rc st = 1 ->
    List.existsb (usable_entry AF_INET6) l = false ->
    addr_resolve_walk AF_UNSPEC l st
    = match last (List.filter (usable_entry AF_INET) l) with
      | Some e => mkResolve 1 (rs_to st) (entry_ip4 e) (rs_ip6 st)
      | None => st
      end.
Proof.
  induction l as [| e l IH]; intros st Hrc Hno6; [reflexivity |].
  cbn [List.existsb] in Hno6. apply orb_false_elim in Hno6 as [U6 Hno6].
  rewrite addr_resolve_walk_unspec_cons, U6. cbn [List.filter].
  assert (H3 : (rs_rc st =? 3) = false) by (destruct Hrc as [-> | ->]; reflexivity).
  rewrite H3.
  destruct (usable_entry AF_INET e); [| apply IH; assumption].
  rewrite IH; [| cbn [rs_rc]; destruct Hrc as [-> | ->]; right; reflexivity | exact Hno6].
  rewrite last_cons. cbn [rs_to rs_ip6].
  destruct (last (List.filter (usable_entry AF_INET) l)); [reflexivity |].
  destruct Hrc as [-> | ->]; reflexivity.
Qed.

(** X9: with [to->family] [AF_UNSPEC], every entry the loop passes
    overwrites the one kept before it: when the resolver's list has entries
    of one family only, the result is the last of them, not the first. *)
Theorem addr_resolve_unspec_last_entry (address : list byte) (to : IP)
        (server : list addrinfo) :
  family to = AF_UNSPEC ->
  getaddrinfo address AF_UNSPEC SOCK_DGRAM = (0, server) ->
  (List.existsb (usable_entry AF_INET) server = false ->
   addr_resolve getaddrinfo (Some address) (Some to)
   = match last (List.filter (usable_entry AF_INET6) server) with
     | Some e => (2, Some (set_ip6 (set_family to AF_INET6) (entry_ip6 e)))
     | None => (0, Some to)
     end)
  /\ (List.existsb (usable_entry AF_INET6) server = false ->
      addr_resolve getaddrinfo (Some address) (Some to)
      = match last (List.filter (usable_entry AF_INET) server) with
        | Some e => (1, Some (set_ip4 (set_family to AF_INET) (entry_ip4 e)))
        | None => (0, Some to)
        end).
Proof.
  intros Hfam Hgai. split; intros Hnone; unfold addr_resolve; rewrite Hfam, Hgai;
    cbn [Z.eqb negb].
  - rewrite addr_resolve_walk_unspec_only6 by (try (left; reflexivity); exact Hnone).
    cbn [rs_rc rs_to rs_ip4 rs_ip6].
    destruct (last (List.filter (usable_entry AF_INET6) server)); cbn [rs_rc rs_to rs_ip4 rs_ip6];
      rewrite Hfam; reflexivity.
  - rewrite addr_resolve_walk_unspec_only4 by (try (left; reflexivity); exact Hnone).
    cbn [rs_rc rs_to rs_ip4 rs_ip6].
    destruct (last (List.filter (usable_entry AF_INET) server)); cbn [rs_rc rs_to rs_ip4 rs_ip6];
      rewrite Hfam; reflexivity.
Qed.

Lemma addr_resolve_walk_other (fam : Z) (l : list addrinfo) (st : resolve_state) :
  fam <> AF_UNSPEC -> fam <> AF_INET -> fam <> AF_INET6 ->
  addr_resolve_walk fam l st = st.
Proof.
  intros N0 N4 N6. revert st. induction l as [| e l IH]; intros st; [reflexivity |].
  cbn [addr_resolve_walk]. destruct (negb (rs_rc st =? 3)); [| reflexivity].
  replace (addr_resolve_step fam e st) with st; [apply IH |].
  unfold addr_resolve_step.
  destruct (Z.eqb_spec fam AF_UNSPEC) as [E | _]; [contradiction |]. cbn [negb].
  destruct (ai_family e =? fam); [| reflexivity].
  destruct (Z.eqb_spec fam AF_INET) as [E | _]; [contradiction |].
  destruct (Z.eqb_spec fam AF_INET6) as [E | _]; [contradiction | reflexivity].
Qed.

(** The shapes of what [addr_resolve] gives once the resolver has answered. *)
Lemma addr_resolve_shape (address : list byte) (to : IP) (server : list addrinfo) :
  getaddrinfo address (family to) SOCK_DGRAM = (0, server) ->
  addr_resolve getaddrinfo (Some address) (Some to) = (0, Some to)
  \/ (family to <> AF_UNSPEC
      /\ exists to', addr_resolve getaddrinfo (Some address) (Some to) = (3, Some to')
                     /\ family to' = family to
                     /\ (family to = AF_INET \/ family to = AF_INET6))
  \/ (family to = AF_UNSPEC
      /\ exists rc to', addr_resolve getaddrinfo (Some address) (Some to) = (rc, Some to')
                        /\ (rc = 1 \/ rc = 2 \/ rc = 3)
                        /\ (family to' = AF_INET \/ family to' = AF_INET6)).
Proof.
  intros Hgai.
  destruct (Z.eq_dec (family to) AF_UNSPEC) as [E0 | N0].
  - unfold addr_resolve. rewrite Hgai. cbn [Z.eqb negb]. rewrite E0.
    set (st0 := mkResolve 0 to mem32_zero in6_zero).
    assert (Hrc0 : rs_rc st0 = 0 \/ rs_rc st0 = 1 \/ rs_rc st0 = 2 \/ rs_rc st0 = 3)
      by (left; reflexivity).
    destruct (addr_resolve_walk_unspec_keeps server st0 Hrc0) as (Hto & Hrange).
    change (rs_to st0) with to in Hto. rewrite Hto, E0.
    change (AF_UNSPEC =? AF_UNSPEC) with true. cbv iota.
    set (rc' := rs_rc (addr_resolve_walk AF_UNSPEC server st0)) in *. clearbody rc'.
    destruct Hrange as [-> | [-> | [-> | ->]]]; cbn [Z.land Pos.land Z.eqb negb].
    + left; reflexivity.
    + right; right. split; [reflexivity |]. eexists _, _. split; [reflexivity |].
      split; [auto | left; reflexivity].
    + right; right. split; [reflexivity |]. eexists _, _. split; [reflexivity |].
      split; [auto | right; reflexivity].
    + right; right. split; [reflexivity |]. eexists _, _. split; [reflexivity |].
      split; [auto | right; reflexivity].
  - destruct (Z.eq_dec (family to) AF_INET) as [E4 | N4];
      [| destruct (Z.eq_dec (family to) AF_INET6) as [E6 | N6]].
    3: { left. unfold addr_resolve. rewrite Hgai. cbn [Z.eqb negb].
         rewrite addr_resolve_walk_other by assumption. cbn [rs_to rs_rc].
         destruct (Z.eqb_spec (family to) AF_UNSPEC); [contradiction | reflexivity]. }
    all: assert (Hfam : family to = AF_INET \/ family to = AF_INET6) by tauto.
    all: unfold addr_resolve; rewrite Hgai; cbn [Z.eqb negb];
      rewrite addr_resolve_walk_specific by (try assumption; reflexivity);
      cbn [rs_to rs_rc rs_ip4 rs_ip6];
      (destruct (List.find (usable_entry (family to)) server) as [e |]; cbn [rs_to rs_rc];
       [ assert (Hkeep : family (entry_into to e) = family to)
           by (unfold entry_into; destruct (family to =? AF_INET); reflexivity);
         rewrite Hkeep;
         destruct (Z.eqb_spec (family to) AF_UNSPEC); [contradiction |];
         right; left; split; [exact N0 |];
         eexists; split; [reflexivity |]; split; [exact Hkeep | exact Hfam]
       | destruct (Z.eqb_spec (family to) AF_UNSPEC); [contradiction |];
         left; reflexivity ]).
Qed.

Lemma addr_resolve_zero_or_set (address : option (list byte)) (to : option IP) :
  let res := addr_resolve getaddrinfo address to in
  (res.1 = 0 -> res.2 = to)
  /\ (res.1 <> 0 ->
      exists to', res.2 = Some to' /\ (family to' = AF_INET \/ family to' = AF_INET6)
                  /\ ip_isset (Some to') = 1).
Proof.
  cbv zeta.
  destruct address as [a |], to as [to0 |];
    try (cbn [addr_resolve fst snd]; split; [reflexivity | intros H; contradiction]).
  destruct (getaddrinfo a (family to0) SOCK_DGRAM) as [rc server] eqn:Hgai.
  destruct (Z.eq_dec rc 0) as [-> | Nrc].
  - assert (Hset : forall t, family t = AF_INET \/ family t = AF_INET6 -> ip_isset (Some t) = 1)
      by (intros t [H | H]; unfold ip_isset; rewrite H; reflexivity).
    destruct (addr_resolve_shape a to0 server Hgai)
      as [-> | [(N0 & to' & -> & Hkeep & Hfam) | (E0 & rc' & to' & -> & Hrc & Hfam)]];
      cbn [fst snd].
    + split; [reflexivity | intros H; contradiction].
    + split; [discriminate |]. intros _. exists to'. split; [reflexivity |].
      rewrite <- Hkeep in Hfam. split; [exact Hfam | apply Hset, Hfam].
    + split; [intros ->; destruct Hrc as [H | [H | H]]; discriminate |].
      intros _. exists to'. split; [reflexivity |]. split; [exact Hfam | apply Hset, Hfam].
  - unfold addr_resolve. rewrite Hgai.
    destruct (Z.eqb_spec rc 0) as [E | _]; [contradiction |]. cbn [negb fst snd].
    split; [reflexivity | intros H; contradiction].
Qed.

(** X10: whatever the resolver says, [addr_resolve] returns 0, 1, 2 or 3.
    When it returns 0 (a [NULL] argument, a resolver that fails, no entry
    that can be used) [to] is left as it was.  When it returns anything else
    the resolver had answered 0 and [to] holds a set address of family IPv4
    or IPv6, and if [to->family] was not [AF_UNSPEC] that family is kept and
    the value returned is 3. *)
Theorem addr_resolve_outcome (address : option (list byte)) (to : option IP) :
  let res := addr_resolve getaddrinfo address to in
  (res.1 = 0 \/ res.1 = 1 \/ res.1 = 2 \/ res.1 = 3)
  /\ (res.1 = 0 -> res.2 = to)
  /\ (res.1 <> 0 ->
      exists a to0 to',
        address = Some a /\ to = Some to0 /\ res.2 = Some to'
        /\ (getaddrinfo a (family to0) SOCK_DGRAM).1 = 0
        /\ (family to' = AF_INET \/ family to' = AF_INET6)
        /\ ip_isset (Some to') = 1
        /\ (family to0 <> AF_UNSPEC -> family to' = family to0 /\ res.1 = 3)).
Proof.
  cbv zeta.
  destruct address as [a |], to as [to0 |];
    try (cbn [addr_resolve fst snd]; split; [left; reflexivity |];
         split; [reflexivity | intros H; contradiction]).
  destruct (getaddrinfo a (family to0) SOCK_DGRAM) as [rc server] eqn:Hgai.
  destruct (Z.eq_dec rc 0) as [-> | Nrc].
  - assert (Hset : forall t, family t = AF_INET \/ family t = AF_INET6 -> ip_isset (Some t) = 1)
      by (intros t [H | H]; unfold ip_isset; rewrite H; reflexivity).
    destruct (addr_resolve_shape a to0 server Hgai)
      as [-> | [(N0 & to' & -> & Hkeep & Hfam) | (E0 & rc' & to' & -> & Hrc & Hfam)]];
      cbn [fst snd].
    + split; [left; reflexivity |]. split; [reflexivity | intros H; contradiction].
    + split; [right; right; right; reflexivity |]. split; [discriminate |].
      intros _. exists a, to0, to'. rewrite Hgai. repeat split; auto.
      * rewrite Hkeep. exact Hfam.
      * apply Hset. rewrite Hkeep. exact Hfam.
    + split; [destruct Hrc as [-> | [-> | ->]]; auto |].
      split; [intros ->; destruct Hrc as [H | [H | H]]; discriminate |].
      intros _. exists a, to0, to'. rewrite Hgai. repeat split; auto; contradiction.
  - unfold addr_resolve. rewrite Hgai.
    destruct (Z.eqb_spec rc 0) as [E | _]; [contradiction |]. cbn [negb fst snd].
    split; [left; reflexivity |]. split; [reflexivity | intros H; contradiction].
Qed.

(** X11: [addr_resolve_or_parse_ip] returns 1 when [addr_resolve] gives
    anything but 0, with what [addr_resolve] left in [to]; when
    [addr_resolve] gives 0 it is [addr_parse_ip] on the untouched [to].  It
    returns 0 or 1; on 0 [to] is as it was, on 1 [to] holds a set address of
    family IPv4 or IPv6.  The fallback does not look at [to->family]: when
    resolving fails, a text that only the IPv6 parser accepts gives an IPv6
    address even when [to] asked for IPv4. *)
Theorem addr_resolve_or_parse_ip_outcome (address : option (list byte)) (to : option IP) :
  let res := addr_resolve_or_parse_ip inet_pton4 inet_pton6 getaddrinfo address to in
  (res.1 = 0 \/ res.1 = 1)
  /\ (res.1 = 0 -> res.2 = to)
  /\ (res.1 = 1 ->
      exists to', res.2 = Some to' /\ (family to' = AF_INET \/ family to' = AF_INET6)
                  /\ ip_isset (Some to') = 1)
  /\ ((addr_resolve getaddrinfo address to).1 <> 0 ->
      res = (1, (addr_resolve getaddrinfo address to).2))
  /\ ((addr_resolve getaddrinfo address to).1 = 0 ->
      res = addr_parse_ip inet_pton4 inet_pton6 address to)
  /\ (forall a to0,
        address = Some a -> to = Some to0 ->
        (addr_resolve getaddrinfo address to).1 = 0 ->
        (inet_pton4 a).1 <> 1 -> (inet_pton6 a).1 = 1 ->
        res = (1, Some (set_ip6 (set_family to0 AF_INET6) (inet_pton6 a).2))).
Proof.
  cbv zeta.
  pose proof (addr_resolve_zero_or_set address to) as (Hzero & Hnz). cbv zeta in *.
  unfold addr_resolve_or_parse_ip.
  destruct (addr_resolve getaddrinfo address to) as [r to1] eqn:Hres. cbn [fst snd] in *.
  assert (Hparse : forall t,
             let pr := addr_parse_ip inet_pton4 inet_pton6 address t in
             (pr.1 = 0 /\ pr.2 = t)
             \/ (pr.1 = 1 /\ exists t', pr.2 = Some t'
                                        /\ (family t' = AF_INET \/ family t' = AF_INET6))).
  { intros t. cbv zeta. unfold addr_parse_ip.
    destruct address as [a |], t as [t0 |]; try (left; split; reflexivity).
    destruct (inet_pton4 a) as [r4 v4]. destruct (1 =? r4).
    - right. split; [reflexivity |]. eexists. split; [reflexivity | left; reflexivity].
    - destruct (inet_pton6 a) as [r6 v6]. destruct (1 =? r6).
      + right. split; [reflexivity |]. eexists. split; [reflexivity | right; reflexivity].
      + left. split; reflexivity. }
  assert (Hset : forall t, family t = AF_INET \/ family t = AF_INET6 -> ip_isset (Some t) = 1)
    by (intros t [H | H]; unfold ip_isset; rewrite H; reflexivity).
  destruct (Z.eqb_spec r 0) as [-> | Nr].
  - rewrite (Hzero eq_refl).
    destruct (Hparse to) as [(Hp1 & Hp2) | (Hp1 & t' & Hp2 & Hfam)]; cbv zeta in *;
      destruct (addr_parse_ip inet_pton4 inet_pton6 address to) as [r2 to2] eqn:Hpr;
      cbn [fst snd] in *; subst r2 to2; cbn [Z.eqb fst snd].
    + split; [left; reflexivity |]. split; [reflexivity |]. split; [discriminate |].
      split; [intros H; contradiction |]. split; [reflexivity |].
      intros a to0 -> -> _ N4 E6. exfalso.
      unfold addr_parse_ip in Hpr. destruct (inet_pton4 a) as [r4 v4].
      destruct (1 =? r4); [discriminate |].
      destruct (inet_pton6 a) as [r6 v6]. cbn [fst] in E6. subst r6. discriminate.
    + split; [right; reflexivity |]. split; [discriminate |].
      split; [intros _; exists t'; split; [reflexivity | split; [exact Hfam | apply Hset, Hfam]] |].
      split; [intros H; contradiction |]. split; [reflexivity |].
      intros a to0 -> -> _ N4 E6.
      unfold addr_parse_ip in Hpr. destruct (inet_pton4 a) as [r4 v4]. cbn [fst] in N4.
      destruct (Z.eqb_spec 1 r4) as [E | _]; [congruence |].
      destruct (inet_pton6 a) as [r6 v6]. cbn [fst snd] in *. subst r6.
      cbn [Z.eqb Pos.eqb] in Hpr. congruence.
  - destruct (Hnz Nr) as (to' & -> & Hfam & Hisset).
    split; [right; reflexivity |]. split; [discriminate |].
    split; [intros _; exists to'; auto |].
    split; [reflexivity |]. split; [intros H; contradiction |].
    intros a' to0' _ _ H. contradiction.
Qed.

End Resolving.

Lemma addr_resolve_specific_family_witness :
  (family Examples.ip_v4_any = AF_INET \/ family Examples.ip_v4_any = AF_INET6)
  /\ ResolverExamples.gai_mixed [x61] (family Examples.ip_v4_any) SOCK_DGRAM
     = (0, [ResolverExamples.entry_v4_short; ResolverExamples.entry_v4;
            ResolverExamples.entry_v6; ResolverExamples.entry_v6_2])
  /\ addr_resolve ResolverExamples.gai_mixed (Some [x61]) (Some Examples.ip_v4_any)
     = (3, Some Examples.ip_v4).
Proof.
  split; [left; reflexivity |]. split; [reflexivity |].
  exact (proj1 (addr_resolve_specific_family ResolverExamples.gai_mixed [x61] Examples.ip_v4_any
                  _ (or_introl eq_refl) eq_refl)).
Defined.

Lemma addr_resolve_unspec_prefers_ipv6_witness :
  family Examples.ip_unset = AF_UNSPEC
  /\ ResolverExamples.gai_mixed [x61] AF_UNSPEC SOCK_DGRAM
     = (0, [ResolverExamples.entry_v4_short; ResolverExamples.entry_v4;
            ResolverExamples.entry_v6; ResolverExamples.entry_v6_2])
  /\ exists e,
       In e [ResolverExamples.entry_v4_short; ResolverExamples.entry_v4;
             ResolverExamples.entry_v6; ResolverExamples.entry_v6_2]
       /\ usable_entry AF_INET6 e = true
       /\ addr_resolve ResolverExamples.gai_mixed (Some [x61]) (Some Examples.ip_unset)
          = (3, Some (set_ip6 (set_family Examples.ip_unset AF_INET6) (entry_ip6 e))).
Proof.
  split; [reflexivity |]. split; [reflexivity |].
  exact (addr_resolve_unspec_prefers_ipv6 ResolverExamples.gai_mixed [x61] Examples.ip_unset
           _ eq_refl eq_refl).
Defined.

Lemma addr_resolve_unspec_last_entry_witness :
  family Examples.ip_unset = AF_UNSPEC
  /\ ResolverExamples.gai_two_v6 [x61] AF_UNSPEC SOCK_DGRAM
     = (0, [ResolverExamples.entry_v6; ResolverExamples.entry_v6_2])
  /\ addr_resolve ResolverExamples.gai_two_v6 (Some [x61]) (Some Examples.ip_unset)
     = (2, Some (mkIP AF_INET6 ResolverExamples.v6_bytes_2)).
Proof.
  split; [reflexivity |]. split; [reflexivity |].
  exact (proj1 (addr_resolve_unspec_last_entry ResolverExamples.gai_two_v6 [x61]
                  Examples.ip_unset _ eq_refl eq_refl) eq_refl).
Defined.

Lemma addr_resolve_or_parse_ip_outcome_witness :
  (addr_resolve ResolverExamples.gai_fails (Some ResolverExamples.text_v6)
                (Some Examples.ip_v4_any)).1 = 0
  /\ (ResolverExamples.pton4 ResolverExamples.text_v6).1 <> 1
  /\ (ResolverExamples.pton6 ResolverExamples.text_v6).1 = 1
  /\ family Examples.ip_v4_any = AF_INET
  /\ addr_resolve_or_parse_ip ResolverExamples.pton4 ResolverExamples.pton6
                              ResolverExamples.gai_fails
                              (Some ResolverExamples.text_v6) (Some Examples.ip_v4_any)
     = (1, Some Examples.ip_v6).
Proof.
  assert (H4 : (ResolverExamples.pton4 ResolverExamples.text_v6).1 <> 1) by discriminate.
  split; [reflexivity |]. split; [exact H4 |]. split; [reflexivity |]. split; [reflexivity |].
  exact (proj2 (proj2 (proj2 (proj2 (proj2
           (addr_resolve_or_parse_ip_outcome ResolverExamples.pton4 ResolverExamples.pton6
              ResolverExamples.gai_fails (Some ResolverExamples.text_v6)
              (Some Examples.ip_v4_any))))))
           ResolverExamples.text_v6 Examples.ip_v4_any eq_refl eq_refl eq_refl H4 eq_refl).
Defined.

(** ** Sending and receiving *)

Section SendingMore.

Variable host_le : bool.
Variable MAX_UDP_PACKET_SIZE : Z.
Variable os_ret : list (extcall * Z) -> extcall -> Z.
Variable os_errno : list (extcall * Z) -> extcall -> Z -> Z.
Variable uninit_addr : sockaddr_storage.

(** X12: [sendpacket] refuses, returning 0 without any call, exactly when
    the socket is IPv4 and the destination is not, or the destination is
    neither IPv4 nor IPv6.  Otherwise it makes one call, [sendto] on the
    socket's handle with the data and the length it was given and flags 0,
    and returns the answer cut to an [int].  The wire address is, for an
    IPv4 destination on a socket that is not IPv6, the [sockaddr_in] of
    family [AF_INET] with the port and the four bytes of the destination,
    with the size of a [sockaddr_in]; otherwise the [sockaddr_in6] of family
    [AF_INET6] with the port of the destination, flow and scope 0, and as
    address the sixteen bytes of an IPv6 destination or the v4-mapped form
    of an IPv4 one, with the size of a [sockaddr_in6]. *)
Theorem sendpacket_refuses_or_sends_once (net : Networking_Core) (ip_port : IP_Port)
        (data : list byte) (length : Z) (w : World) :
  let res := sendpacket host_le os_ret os_errno net ip_port data length w in
  let refused :=
    (net_family net = AF_INET /\ family (ip ip_port) <> AF_INET)
    \/ (family (ip ip_port) <> AF_INET /\ family (ip ip_port) <> AF_INET6) in
  (refused -> res = (0, w))
  /\ (~ refused ->
      exists (addr : sockaddr_storage) (sz r : Z),
        res = (to_int32 r,
               mkWorld (w_trace w ++ [(Sys_sendto (net_sock net) data length 0 addr sz, r)])
                       (os_errno (w_trace w) (Sys_sendto (net_sock net) data length 0 addr sz)
                                 (w_errno w))
                       (w_at_startup_ran w) (w_pending w))
        /\ r = os_ret (w_trace w) (Sys_sendto (net_sock net) data length 0 addr sz)
        /\ portptr_get addr = port ip_port
        /\ ss_family addr
           = (if (family (ip ip_port) =? AF_INET) && negb (net_family net =? AF_INET6)
              then AF_INET else AF_INET6)
        /\ (if (family (ip ip_port) =? AF_INET) && negb (net_family net =? AF_INET6)
            then
              addr = SA_in (Sockaddr_in AF_INET (port ip_port) (ip4 (ip ip_port)))
              /\ sz = sizeof_sockaddr_in
            else
              addr = SA_in6 (Sockaddr_in6 AF_INET6 (port ip_port) 0
                               (if family (ip ip_port) =? AF_INET
                                then In6_addr mem32_zero mem32_zero (Mem32 x00 x00 xff xff)
                                              (ip4 (ip ip_port))
                                else ip6 (ip ip_port))
                               0)
              /\ sz = sizeof_sockaddr_in6)).
Proof.
  cbv zeta. unfold sendpacket.
  destruct (Z.eqb_spec (net_family net) AF_INET) as [En | Nn];
    destruct (Z.eqb_spec (family (ip ip_port)) AF_INET) as [E4 | N4]; cbn [andb negb].
  - (* IPv4 socket, IPv4 destination *)
    rewrite En. change (AF_INET =? AF_INET6) with false. cbv iota. cbn [negb].
    split; [intros [[_ H] | [H _]]; contradiction |].
    intros _. eexists _, _, _. split; [reflexivity |]. split; [reflexivity |].
    split; [reflexivity |]. split; [reflexivity |]. split; reflexivity.
  - split; [reflexivity |]. intros H. exfalso. apply H. left. split; assumption.
  - (* another socket, IPv4 destination *)
    split; [intros [[H _] | [H _]]; contradiction |].
    intros _. destruct (net_family net =? AF_INET6); cbn [negb].
    + rewrite store32_zero, store32_htonl_ffff, store32_load32.
      eexists _, _, _. split; [reflexivity |]. split; [reflexivity |].
      split; [reflexivity |]. split; [reflexivity |]. split; reflexivity.
    + eexists _, _, _. split; [reflexivity |]. split; [reflexivity |].
      split; [reflexivity |]. split; [reflexivity |]. split; reflexivity.
  - destruct (Z.eqb_spec (family (ip ip_port)) AF_INET6) as [E6 | N6].
    + split; [intros [[H _] | [_ H]]; contradiction |].
      intros _. eexists _, _, _. split; [reflexivity |]. split; [reflexivity |].
      split; [reflexivity |]. split; [reflexivity |]. split; reflexivity.
    + split; [reflexivity |]. intros H. exfalso. apply H. right. split; assumption.
Qed.

Hypothesis MAX_int32 : MAX_UDP_PACKET_SIZE < 2147483648.

Lemma endpoint_of_ipv4 (p : IP_Port) (v : mem32) (pt : Z) :
  endpoint_of p = mkEndpoint (Addr_IPv4 v) pt ->
  family (ip p) = AF_INET /\ ip4 (ip p) = v /\ port p = pt.
Proof.
  unfold endpoint_of. intros H.
  destruct (Z.eqb_spec (family (ip p)) AF_INET) as [E | _].
  - injection H as H1 H2. auto.
  - destruct (family (ip p) =? AF_INET6); discriminate.
Qed.

Lemma endpoint_of_ipv6 (p : IP_Port) (v : in6_addr) (pt : Z) :
  endpoint_of p = mkEndpoint (Addr_IPv6 v) pt ->
  p = mkIP_Port (mkIP AF_INET6 v) pt.
Proof.
  unfold endpoint_of. intros H.
  destruct (Z.eqb_spec (family (ip p)) AF_INET) as [E | _]; [discriminate |].
  destruct (Z.eqb_spec (family (ip p)) AF_INET6) as [E | _]; [| discriminate].
  injection H as H1 H2. destruct p as [[f v'] pt']. cbn in *. congruence.
Qed.

(** X13: the wire address [sendpacket] builds for a destination of the
    socket's own family is read back by [receivepacket] as that destination:
    a datagram arriving from that wire address gives an endpoint with the
    family, the port and the address of the destination (for IPv6 the
    endpoint is the destination itself), which [ipport_equal] finds equal to
    it in both directions when the port is not 0. *)
Theorem send_receive_same_family (net : Networking_Core) (dest : IP_Port)
        (data : list byte) (length : Z) (w : World)
        (sock : Z) (l : poll_locals) (wr : World) (b : byte) (rest : list byte)
        (payload : list byte) (q : list recv_outcome) :
  net_family net = family (ip dest) ->
  family (ip dest) = AF_INET \/ family (ip dest) = AF_INET6 ->
  take (Z.to_nat MAX_UDP_PACKET_SIZE) payload = b :: rest ->
  exists (addr : sockaddr_storage) (sz r : Z) (w' : World),
    sendpacket host_le os_ret os_errno net dest data length w = (to_int32 r, w')
    /\ w_trace w' = w_trace w ++ [(Sys_sendto (net_sock net) data length 0 addr sz, r)]
    /\ (w_pending wr = Recv_datagram payload addr :: q ->
        exists (l' : poll_locals) (wr' : World),
          receivepacket MAX_UDP_PACKET_SIZE uninit_addr sock l wr = ((0, l'), wr')
          /\ family (ip (l_ip_port l')) = family (ip dest)
          /\ port (l_ip_port l') = port dest
          /\ ip4 (ip (l_ip_port l')) = ip4 (ip dest)
          /\ (family (ip dest) = AF_INET6 -> l_ip_port l' = dest)
          /\ (port dest <> 0 ->
              ipport_equal host_le (Some dest) (Some (l_ip_port l')) = 1
              /\ ipport_equal host_le (Some (l_ip_port l')) (Some dest) = 1)).
Proof.
  intros Hnet Hfam Htake.
  assert (Heq : forall p : IP_Port,
             family (ip p) = family (ip dest) -> port p = port dest ->
             (family (ip dest) = AF_INET -> ip4 (ip p) = ip4 (ip dest)) ->
             (family (ip dest) = AF_INET6 -> ip6 (ip p) = ip6 (ip dest)) ->
             port dest <> 0 ->
             ipport_equal host_le (Some dest) (Some p) = 1
             /\ ipport_equal host_le (Some p) (Some dest) = 1).
  { intros p Hf Hp H4 H6 Hnz. unfold ipport_equal. rewrite Hp.
    destruct (Z.eqb_spec (port dest) 0) as [E | _]; [contradiction |].
    rewrite Z.eqb_refl. cbn [orb negb]. unfold ip_equal. rewrite Hf.
    destruct Hfam as [E | E]; rewrite E.
    - change (AF_INET =? AF_INET) with true. cbv iota.
      rewrite (H4 E), Z.eqb_refl. split; reflexivity.
    - change (AF_INET6 =? AF_INET) with false. change (AF_INET6 =? AF_INET6) with true.
      cbv iota. rewrite (H6 E). split; apply IN6_ARE_ADDR_EQUAL_refl. }
  unfold sendpacket. rewrite Hnet.
  destruct Hfam as [E | E]; rewrite E.
  - change (AF_INET =? AF_INET) with true. change (AF_INET =? AF_INET6) with false.
    cbn [andb negb]. cbv iota.
    eexists _, _, _, _. split; [reflexivity |]. split; [reflexivity |].
    intros Hq.
    destruct (receivepacket_datagram MAX_UDP_PACKET_SIZE uninit_addr MAX_int32 sock l wr
                payload _ q b rest Hq Htake) as (r & l' & wr' & Hrun & _ & _ & Hdec).
    cbn in Hdec. destruct Hdec as (-> & Hep & _).
    apply endpoint_of_ipv4 in Hep as (Hf & H4 & Hp).
    exists l', wr'. split; [exact Hrun |]. split; [congruence |]. split; [exact Hp |].
    split; [exact H4 |]. split; [intros H6; cbv in H6; discriminate H6 |].
    apply Heq; [congruence | exact Hp | intros _; exact H4
               | intros H6; rewrite E in H6; cbv in H6; discriminate H6].
  - change (AF_INET6 =? AF_INET) with false. change (AF_INET6 =? AF_INET6) with true.
    cbn [andb negb]. cbv iota.
    eexists _, _, _, _. split; [reflexivity |]. split; [reflexivity |].
    intros Hq.
    destruct (receivepacket_datagram MAX_UDP_PACKET_SIZE uninit_addr MAX_int32 sock l wr
                payload _ q b rest Hq Htake) as (r & l' & wr' & Hrun & _ & _ & Hdec).
    cbn in Hdec. destruct Hdec as (-> & Hep & _).
    apply endpoint_of_ipv6 in Hep.
    assert (Hdest : l_ip_port l' = dest)
      by (rewrite Hep; destruct dest as [[f v] pt]; cbn in *; congruence).
    exists l', wr'. split; [exact Hrun |]. rewrite Hdest.
    split; [exact E |]. split; [reflexivity |]. split; [reflexivity |].
    split; [reflexivity |]. intros Hnz. apply Heq; auto.
Qed.

(** X14: an IPv4 destination sent through an IPv6 socket does not come
    back as it went: a datagram arriving from the IPv4-mapped wire address is
    given to the handlers as an IPv6 endpoint, [::ffff:a.b.c.d], and
    [ipport_equal] does not find the IPv4 destination equal to it, unless the
    destination is 0.0.0.0. *)
Theorem send_receive_ipv4_mapped (net : Networking_Core) (dest : IP_Port)
        (data : list byte) (length : Z) (w : World)
        (sock : Z) (l : poll_locals) (wr : World) (b : byte) (rest : list byte)
        (payload : list byte) (q : list recv_outcome) :
  net_family net = AF_INET6 ->
  family (ip dest) = AF_INET ->
  take (Z.to_nat MAX_UDP_PACKET_SIZE) payload = b :: rest ->
  exists (addr : sockaddr_storage) (r : Z) (w' : World),
    sendpacket host_le os_ret os_errno net dest data length w = (to_int32 r, w')
    /\ w_trace w'
       = w_trace w ++ [(Sys_sendto (net_sock net) data length 0 addr sizeof_sockaddr_in6, r)]
    /\ (w_pending wr = Recv_datagram payload addr :: q ->
        exists (l' : poll_locals) (wr' : World),
          receivepacket MAX_UDP_PACKET_SIZE uninit_addr sock l wr = ((0, l'), wr')
          /\ l_ip_port l'
             = mkIP_Port (mkIP AF_INET6
                               (In6_addr mem32_zero mem32_zero (Mem32 x00 x00 xff xff)
                                         (ip4 (ip dest))))
                         (port dest)
          /\ (ip4 (ip dest) <> mem32_zero ->
              ipport_equal host_le (Some dest) (Some (l_ip_port l')) = 0)).
Proof.
  intros Hnet Hfam Htake. unfold sendpacket. rewrite Hnet, Hfam.
  change (AF_INET6 =? AF_INET) with false. change (AF_INET =? AF_INET) with true.
  change (AF_INET6 =? AF_INET6) with true. cbn [andb negb]. cbv iota.
  rewrite store32_zero, store32_htonl_ffff, store32_load32.
  eexists _, _, _. split; [reflexivity |]. split; [reflexivity |].
  intros Hq.
  destruct (receivepacket_datagram MAX_UDP_PACKET_SIZE uninit_addr MAX_int32 sock l wr
              payload _ q b rest Hq Htake) as (r & l' & wr' & Hrun & _ & _ & Hdec).
  cbn in Hdec. destruct Hdec as (-> & Hep & _).
  apply endpoint_of_ipv6 in Hep.
  exists l', wr'. split; [exact Hrun |]. split; [exact Hep |].
  intros Hnz. rewrite Hep. unfold ipport_equal. cbn [port ip].
  destruct ((port dest =? 0) || negb (port dest =? port dest)); [reflexivity |].
  unfold ip_equal. rewrite Hfam. change (AF_INET =? AF_INET) with true. cbv iota.
  unfold ip4 at 2. cbn [ip6 s6_word0].
  destruct (Z.eqb_spec (load32 host_le (ip4 (ip dest))) (load32 host_le mem32_zero)) as [E | _];
    [| reflexivity].
  apply load32_inj in E. contradiction.
Qed.

End SendingMore.

Lemma send_receive_same_family_witness :
  Examples.ceiling < 2147483648
  /\ net_family Examples.net4 = family (ip (mkIP_Port Examples.ip_v4 Examples.port_33445_net))
  /\ (family (ip (mkIP_Port Examples.ip_v4 Examples.port_33445_net)) = AF_INET
      \/ family (ip (mkIP_Port Examples.ip_v4 Examples.port_33445_net)) = AF_INET6)
  /\ take (Z.to_nat Examples.ceiling) [x07; x01] = [x07; x01]
  /\ exists (addr : sockaddr_storage) (l' : poll_locals) (wr' : World),
       w_trace (sendpacket true Examples.os_ok Examples.os_errno_bind Examples.net4
                           (mkIP_Port Examples.ip_v4 Examples.port_33445_net) [x07; x01] 2
                           Examples.world0).2
       = [(Sys_sendto 3 [x07; x01] 2 0 addr sizeof_sockaddr_in, 0)]
       /\ receivepacket Examples.ceiling (SA_other 0) 3 Examples.some_locals
                        (mkWorld [] 0 0 [Recv_datagram [x07; x01] addr])
          = ((0, l'), wr')
       /\ ipport_equal true (Some (mkIP_Port Examples.ip_v4 Examples.port_33445_net))
                       (Some (l_ip_port l')) = 1
       /\ ipport_equal true (Some (l_ip_port l'))
                       (Some (mkIP_Port Examples.ip_v4 Examples.port_33445_net)) = 1.
Proof.
  assert (H : Examples.ceiling < 2147483648) by reflexivity.
  split; [exact H |]. split; [reflexivity |]. split; [left; reflexivity |].
  split; [reflexivity |].
  destruct (send_receive_same_family true Examples.ceiling Examples.os_ok Examples.os_errno_bind
              (SA_other 0) H Examples.net4
              (mkIP_Port Examples.ip_v4 Examples.port_33445_net) [x07; x01] 2 Examples.world0
              3 Examples.some_locals
              (mkWorld [] 0 0
                 [Recv_datagram [x07; x01]
                    (SA_in (Sockaddr_in AF_INET Examples.port_33445_net Examples.v4_bytes))])
              x07 [x01] [x07; x01] [] eq_refl (or_introl eq_refl) eq_refl)
    as (addr & sz & r & w' & Hsend & Htrace & Hback).
  injection Hsend as _ Hw. subst w'. cbn in Htrace.
  injection Htrace as Haddr Hsz Hr. subst addr.
  destruct (Hback eq_refl) as (l' & wr' & Hrun & _ & _ & _ & _ & Heq).
  exists (SA_in (Sockaddr_in AF_INET Examples.port_33445_net Examples.v4_bytes)), l', wr'.
  split; [reflexivity |]. split; [exact Hrun |].
  apply Heq. discriminate.
Defined.

Lemma send_receive_ipv4_mapped_witness :
  Examples.ceiling < 2147483648
  /\ net_family Examples.net6 = AF_INET6
  /\ family (ip (mkIP_Port Examples.ip_v4 Examples.port_33445_net)) = AF_INET
  /\ take (Z.to_nat Examples.ceiling) [x07; x01] = [x07; x01]
  /\ exists (addr : sockaddr_storage) (l' : poll_locals) (wr' : World),
       w_trace (sendpacket true Examples.os_ok Examples.os_errno_bind Examples.net6
                           (mkIP_Port Examples.ip_v4 Examples.port_33445_net) [x07; x01] 2
                           Examples.world0).2
       = [(Sys_sendto 3 [x07; x01] 2 0 addr sizeof_sockaddr_in6, 0)]
       /\ receivepacket Examples.ceiling (SA_other 0) 3 Examples.some_locals
                        (mkWorld [] 0 0 [Recv_datagram [x07; x01] addr])
          = ((0, l'), wr')
       /\ family (ip (l_ip_port l')) = AF_INET6
       /\ ipport_equal true (Some (mkIP_Port Examples.ip_v4 Examples.port_33445_net))
                       (Some (l_ip_port l')) = 0.
Proof.
  assert (H : Examples.ceiling < 2147483648) by reflexivity.
  split; [exact H |]. split; [reflexivity |]. split; [reflexivity |].
  split; [reflexivity |].
  destruct (send_receive_ipv4_mapped true Examples.ceiling Examples.os_ok Examples.os_errno_bind
              (SA_other 0) H Examples.net6
              (mkIP_Port Examples.ip_v4 Examples.port_33445_net) [x07; x01] 2 Examples.world0
              3 Examples.some_locals
              (mkWorld [] 0 0
                 [Recv_datagram [x07; x01]
                    (SA_in6 (Sockaddr_in6 AF_INET6 Examples.port_33445_net 0
                               (In6_addr mem32_zero mem32_zero (Mem32 x00 x00 xff xff)
                                         Examples.v4_bytes) 0))])
              x07 [x01] [x07; x01] [] eq_refl eq_refl eq_refl)
    as (addr & r & w' & Hsend & Htrace & Hback).
  injection Hsend as _ Hw. subst w'. cbn in Htrace.
  injection Htrace as Haddr Hr. subst addr.
  destruct (Hback eq_refl) as (l' & wr' & Hrun & Hl & Hneq).
  eexists _, l', wr'.
  split; [reflexivity |]. split; [exact Hrun |].
  split; [rewrite Hl; reflexivity |].
  apply Hneq. discriminate.
Defined.

(** ** Registration and dispatch *)

Lemma networking_registerhandler_eq (net : Networking_Core) (b : byte) (cb obj : Z) :
  networking_registerhandler net b cb obj
  = mkNetworking_Core (<[Byte.to_nat b := mkPacket_Handles cb obj]> (packethandlers net))
                      (net_family net) (net_port net) (net_sock net).
Proof.
  pose proof (networking_registerhandler_table net b cb obj) as Ht.
  unfold networking_registerhandler in *. cbn [packethandlers net_family net_port net_sock] in *.
  rewrite Ht. reflexivity.
Qed.

(** X15: registrations compose as assignments to the slots of the table:
    a second registration for a tag replaces the first altogether;
    registrations for two different tags give the same socket in either
    order; and registering for a tag the pair that is already there changes
    nothing. *)
Theorem networking_registerhandler_compose (net : Networking_Core) (t t' : byte)
        (h c h' c' : Z) :
  networking_registerhandler (networking_registerhandler net t h c) t h' c'
  = networking_registerhandler net t h' c'
  /\ (t <> t' ->
      networking_registerhandler (networking_registerhandler net t h c) t' h' c'
      = networking_registerhandler (networking_registerhandler net t' h' c') t h c)
  /\ networking_registerhandler net t (function (handler_at net t)) (object (handler_at net t))
     = net.
Proof.
  rewrite !networking_registerhandler_eq. cbn [packethandlers net_family net_port net_sock].
  split; [rewrite list_insert_insert_eq; reflexivity |]. split.
  - intros Hne. rewrite list_insert_insert_ne; [reflexivity |].
    intros E. apply Hne. symmetry. apply byte_to_nat_inj. exact E.
  - rewrite list_insert_id'; [destruct net; reflexivity |].
    intros Hlt. unfold handler_at.
    destruct (lookup_lt_is_Some_2 (packethandlers net) (Byte.to_nat t) Hlt) as [e He].
    rewrite He. destruct e; reflexivity.
Qed.

Section DispatchMore.

Variable MAX_UDP_PACKET_SIZE : Z.
Variable os_ret : list (extcall * Z) -> extcall -> Z.
Variable os_errno : list (extcall * Z) -> extcall -> Z -> Z.
Variable uninit_addr : sockaddr_storage.
Variable uninit_ip_port : IP_Port.
Variable uninit_data : list byte.
Variable uninit_length : Z.

Hypothesis MAX_int32 : MAX_UDP_PACKET_SIZE < 2147483648.

Lemma spec_drain_no_handlers (net : Networking_Core) (q : list recv_outcome) :
  (forall t, function (handler_at net t) = 0) ->
  spec_drain MAX_UDP_PACKET_SIZE net q = [].
Proof.
  intros Hnone. induction q as [| o q IH]; [reflexivity |].
  cbn [spec_drain]. destruct (spec_receive_one MAX_UDP_PACKET_SIZE o) as [[sender payload] |];
    [| reflexivity].
  rewrite IH, app_nil_r. destruct payload as [| tag rest]; [reflexivity |].
  rewrite spec_lookup_handler_at, Hnone. reflexivity.
Qed.

(** X16: on a socket none of whose tags has a handler, [networking_poll]
    invokes nothing, and still takes off the queue every datagram up to the
    first receive that fails: what arrives before a handler is registered
    is dropped. *)
Theorem networking_poll_no_handlers (net : Networking_Core) (w : World) :
  (forall t, function (handler_at net t) = 0) ->
  exists (w' : World) (evs : list (extcall * Z)),
    networking_poll MAX_UDP_PACKET_SIZE os_ret os_errno uninit_addr
                    uninit_ip_port uninit_data uninit_length
                    (S (length (w_pending w))) net w
    = (Some tt, w')
    /\ w_trace w' = w_trace w ++ evs
    /\ invocations evs = []
    /\ w_pending w' = spec_left MAX_UDP_PACKET_SIZE (w_pending w)
    /\ (Forall (fun o => exists sender payload,
                  spec_receive_one MAX_UDP_PACKET_SIZE o = Some (sender, payload))
               (w_pending w) ->
        w_pending w' = []).
Proof.
  intros Hnone.
  destruct (networking_poll_loop_drains MAX_UDP_PACKET_SIZE os_ret os_errno uninit_addr MAX_int32
              (w_pending w) (S (length (w_pending w))) net
              (mkLocals uninit_ip_port uninit_data uninit_length) w eq_refl (Nat.lt_succ_diag_r _))
    as (w' & evs & Hrun & Htr & Hinv & Hleft).
  exists w', evs. unfold networking_poll.
  split; [exact Hrun |]. split; [exact Htr |].
  split; [rewrite Hinv; apply spec_drain_no_handlers; exact Hnone |].
  split; [exact Hleft |].
  intros Hall. rewrite Hleft. clear -Hall.
  induction Hall as [| o q (sender & payload & Ho) _ IH]; [reflexivity |].
  cbn [spec_left]. rewrite Ho. exact IH.
Qed.

(** X17: registration and dispatch together.  After
    [networking_registerhandler net t h c], a poll that finds at the head of
    the queue a datagram whose first byte is [t], from an IPv4 or IPv6
    sender, invokes [h] with [c], the sender and the payload, once and before
    anything else, when [h] is not the null pointer; and invokes nothing for
    that datagram when [h] is null: registering the null pointer takes the
    handler away.  The rest of the queue is dispatched as usual. *)
Theorem networking_registerhandler_then_poll (net : Networking_Core) (t : byte) (h c : Z)
        (w : World) (payload rest : list byte) (from : sockaddr_storage) (sender : Endpoint)
        (q : list recv_outcome) :
  length (packethandlers net) = 256%nat ->
  w_pending w = Recv_datagram payload from :: q ->
  take (Z.to_nat MAX_UDP_PACKET_SIZE) payload = t :: rest ->
  spec_decode_sender from = Some sender ->
  exists (w' : World) (evs : list (extcall * Z)),
    networking_poll MAX_UDP_PACKET_SIZE os_ret os_errno uninit_addr
                    uninit_ip_port uninit_data uninit_length
                    (S (length (w_pending w))) (networking_registerhandler net t h c) w
    = (Some tt, w')
    /\ w_trace w' = w_trace w ++ evs
    /\ invocations evs
       = (if h =? 0 then [] else [mkInvocation h c sender (t :: rest)])
         ++ spec_drain MAX_UDP_PACKET_SIZE (networking_registerhandler net t h c) q.
Proof.
  intros Hlen Hq Htake Hdec.
  destruct (networking_poll_loop_drains MAX_UDP_PACKET_SIZE os_ret os_errno uninit_addr MAX_int32
              (w_pending w) (S (length (w_pending w))) (networking_registerhandler net t h c)
              (mkLocals uninit_ip_port uninit_data uninit_length) w eq_refl (Nat.lt_succ_diag_r _))
    as (w' & evs & Hrun & Htr & Hinv & _).
  exists w', evs. unfold networking_poll.
  split; [exact Hrun |]. split; [exact Htr |].
  rewrite Hinv, Hq. cbn [spec_drain spec_receive_one]. rewrite Htake, Hdec.
  f_equal. rewrite spec_lookup_handler_at.
  assert (Hslot : handler_at (networking_registerhandler net t h c) t = mkPacket_Handles h c).
  { unfold handler_at. rewrite networking_registerhandler_table.
    pose proof (byte_to_nat_lt t) as Ht.
    rewrite list_lookup_insert_eq by lia. reflexivity. }
  rewrite Hslot. cbn [function object]. destruct (h =? 0); reflexivity.
Qed.

End DispatchMore.

Lemma networking_poll_no_handlers_witness :
  Examples.ceiling < 2147483648
  /\ (forall t, function (handler_at Examples.net6 t) = 0)
  /\ exists (w' : World) (evs : list (extcall * Z)),
       networking_poll Examples.ceiling Examples.os_ok Examples.os_errno_bind (SA_other 0)
                       (mkIP_Port Examples.ip_unset 0) [] 0 3 Examples.net6
                       Examples.world_two_datagrams
       = (Some tt, w')
       /\ w_trace w' = evs
       /\ invocations evs = []
       /\ w_pending w' = [].
Proof.
  assert (H : Examples.ceiling < 2147483648) by reflexivity.
  assert (Hnone : forall t, function (handler_at Examples.net6 t) = 0)
    by (intros t; destruct t; reflexivity).
  split; [exact H |]. split; [exact Hnone |].
  destruct (networking_poll_no_handlers Examples.ceiling Examples.os_ok Examples.os_errno_bind
              (SA_other 0) (mkIP_Port Examples.ip_unset 0) [] 0 H Examples.net6
              Examples.world_two_datagrams Hnone)
    as (w' & evs & Hrun & Htr & Hinv & _ & Hempty).
  exists w', evs.
  split; [exact Hrun |]. split; [exact Htr |]. split; [exact Hinv |].
  apply Hempty. repeat constructor; eexists _, _; reflexivity.
Defined.

Lemma networking_registerhandler_then_poll_witness :
  Examples.ceiling < 2147483648
  /\ length (packethandlers Examples.net6) = 256%nat
  /\ w_pending Examples.world_two_datagrams
     = [Recv_datagram [x07; x01] Examples.from_v4; Recv_datagram [x08] Examples.from_v6]
  /\ take (Z.to_nat Examples.ceiling) [x07; x01] = [x07; x01]
  /\ spec_decode_sender Examples.from_v4
     = Some (mkEndpoint (Addr_IPv4 Examples.v4_bytes) Examples.port_33445_net)
  /\ exists (w' : World) (evs : list (extcall * Z)),
       networking_poll Examples.ceiling Examples.os_ok Examples.os_errno_bind (SA_other 0)
                       (mkIP_Port Examples.ip_unset 0) [] 0 3
                       (networking_registerhandler Examples.net6 x07 4096 8192)
                       Examples.world_two_datagrams
       = (Some tt, w')
       /\ w_trace w' = evs
       /\ invocations evs
          = [mkInvocation 4096 8192
                          (mkEndpoint (Addr_IPv4 Examples.v4_bytes) Examples.port_33445_net)
                          [x07; x01]].
Proof.
  assert (H : Examples.ceiling < 2147483648) by reflexivity.
  split; [exact H |]. split; [reflexivity |]. split; [reflexivity |].
  split; [reflexivity |]. split; [reflexivity |].
  destruct (networking_registerhandler_then_poll Examples.ceiling Examples.os_ok
              Examples.os_errno_bind (SA_other 0) (mkIP_Port Examples.ip_unset 0) [] 0 H
              Examples.net6 x07 4096 8192 Examples.world_two_datagrams [x07; x01] [x01]
              Examples.from_v4
              (mkEndpoint (Addr_IPv4 Examples.v4_bytes) Examples.port_33445_net)
              [Recv_datagram [x08] Examples.from_v6]
              eq_refl eq_refl eq_refl eq_refl)
    as (w' & evs & Hrun & Htr & Hinv).
  exists w', evs.
  split; [exact Hrun |]. split; [exact Htr |]. exact Hinv.
Defined.

(** ** Start-up and set-up *)

Lemma wrap32_wrap64 (x : Z) : wrap32 (wrap64 x) = x mod 4294967296.
Proof.
  unfold wrap32, wrap64. apply Z.mod_mod_divide.
  exists 4294967296. reflexivity.
Qed.

Lemma calloc_answers_app (tr1 tr2 : list (extcall * Z)) :
  calloc_answers (tr1 ++ tr2) = calloc_answers tr1 ++ calloc_answers tr2.
Proof. unfold calloc_answers. apply omap_app. Qed.

Lemma free_calls_app (tr1 tr2 : list (extcall * Z)) :
  free_calls (tr1 ++ tr2) = free_calls tr1 ++ free_calls tr2.
Proof. unfold free_calls. apply omap_app. Qed.

Lemma startup_calls_no_alloc (start : list (extcall * Z)) :
  Forall startup_call start ->
  calloc_answers start = [] /\ free_calls start = [].
Proof.
  induction 1 as [| [c r] l Hc _ IH]; [split; reflexivity |].
  destruct IH as (IH1 & IH2).
  unfold calloc_answers, free_calls in *. cbn [omap list_omap fst].
  destruct c; try contradiction; rewrite ?IH1, ?IH2; split; reflexivity.
Qed.

Lemma imap_bind_no_alloc (f : nat -> Z -> extcall * Z) (l : list Z) :
  (forall k x, exists s addr sz, (f k x).1 = Sys_bind s addr sz) ->
  calloc_answers (imap f l) = [] /\ free_calls (imap f l) = [].
Proof.
  revert f. induction l as [| x l IH]; intros f Hf; [split; reflexivity |].
  rewrite imap_cons. destruct (IH (f ∘ S)) as (IH1 & IH2); [intros k y; apply Hf |].
  unfold calloc_answers, free_calls in *. cbn [omap list_omap].
  destruct (Hf 0%nat x) as (s & addr & sz & E). rewrite E. split; assumption.
Qed.

Lemma bind_attempts_no_alloc (host_le : bool) (s : Z) (a : IP) (p : Z) (answers : list Z) :
  calloc_answers (bind_attempts host_le s a p answers) = []
  /\ free_calls (bind_attempts host_le s a p answers) = [].
Proof.
  unfold bind_attempts. apply imap_bind_no_alloc. intros k x. eexists _, _, _. reflexivity.
Qed.

Lemma v6only_events_no_alloc (a : IP) (s rv : Z) :
  calloc_answers (v6only_events a s rv) = [] /\ free_calls (v6only_events a s rv) = [].
Proof. unfold v6only_events. destruct (family a =? AF_INET6); split; reflexivity. Qed.

Section SetupMore.

Variable host_le : bool.
Variable os_ret : list (extcall * Z) -> extcall -> Z.
Variable os_errno : list (extcall * Z) -> extcall -> Z -> Z.
Variable os_clock : list (extcall * Z) -> Z * Z.

(** X18: [at_startup] does its work once.  It always returns 0.  Run with
    the flag [at_startup_ran] clear, it reads the clock twice and seeds
    [srandom] and then [srand], each with the low 32 bits of the time in
    microseconds, and leaves the flag at 1; run with the flag set, it makes
    no call and changes nothing.  So whatever it is run on, a second run
    right after it changes nothing. *)
Theorem at_startup_once (w : World) :
  exists (w1 : World) (evs : list (extcall * Z)),
    at_startup os_ret os_errno os_clock w = (0, w1)
    /\ w_trace w1 = w_trace w ++ evs
    /\ w_pending w1 = w_pending w
    /\ (w_at_startup_ran w <> 0 -> w1 = w)
    /\ (w_at_startup_ran w = 0 ->
        w_at_startup_ran w1 = 1
        /\ exists (r1 r2 : Z),
            let t1 := os_clock (w_trace w) in
            let t2 := os_clock (w_trace w ++ [(Sys_gettimeofday, 0);
                                              (Sys_srandom ((1000000 * t1.1 + t1.2)
                                                            mod 4294967296), r1)]) in
            evs = [(Sys_gettimeofday, 0);
                   (Sys_srandom ((1000000 * t1.1 + t1.2) mod 4294967296), r1);
                   (Sys_gettimeofday, 0);
                   (Sys_srand ((1000000 * t2.1 + t2.2) mod 4294967296), r2)])
    /\ at_startup os_ret os_errno os_clock w1 = (0, w1).
Proof.
  unfold at_startup at 1. unfold bind at 1. unfold get_at_startup_ran.
  destruct (Z.eqb_spec (w_at_startup_ran w) 0) as [E | N]; cbn [negb].
  - unfold bind, current_time, call, set_at_startup_ran, ret. cbn [w_trace].
    destruct (os_clock (w_trace w)) as [sec1 usec1] eqn:Hc1. cbn [w_trace].
    rewrite wrap32_wrap64.
    match goal with
    | |- context [os_clock ?tr] => destruct (os_clock tr) as [sec2 usec2] eqn:Hc2
    end.
    cbn [w_trace]. rewrite wrap32_wrap64.
    eexists _, [_; _; _; _]. split; [reflexivity |]. cbn [w_trace w_pending w_at_startup_ran].
    split; [rewrite <- !app_assoc; reflexivity |]. split; [reflexivity |].
    split; [intros H; contradiction |].
    split.
    + intros _. split; [reflexivity |]. eexists _, _. cbv zeta. cbn [fst snd].
      rewrite <- !app_assoc in Hc2. cbn [app] in Hc2. rewrite Hc2. reflexivity.
    + unfold at_startup, bind, get_at_startup_ran, ret. reflexivity.
  - exists w, []. split; [reflexivity |]. split; [rewrite app_nil_r; reflexivity |].
    split; [reflexivity |]. split; [reflexivity |]. split; [intros H; contradiction |].
    unfold at_startup, bind, get_at_startup_ran, ret.
    destruct (Z.eqb_spec (w_at_startup_ran w) 0); [contradiction | reflexivity].
Qed.

(** X19: [new_networking] and the memory it takes.  With a family that is
    neither IPv4 nor IPv6 it fails without any call.  Otherwise it asks
    [calloc] for the socket at most once.  When it returns a socket, that
    one [calloc] answered a non-null pointer, nothing was freed, the
    descriptor is the one [socket] answered, not negative, and the table of
    handlers is empty.  When it fails, either [calloc] was not called or
    answered null, and then neither [socket] nor [free] was called; or the
    memory [calloc] gave is freed exactly once, by the last call made. *)
Theorem new_networking_allocation (a : IP) (port : Z) (w : World) :
  0 <= port < 65536 ->
  exists (r : option Networking_Core) (w' : World) (evs : list (extcall * Z)),
    new_networking host_le os_ret os_errno os_clock a port w = (r, w')
    /\ w_trace w' = w_trace w ++ evs
    /\ (family a <> AF_INET -> family a <> AF_INET6 -> r = None /\ w' = w)
    /\ match r with
       | Some net =>
           (exists p, p <> 0 /\ calloc_answers evs = [p])
           /\ free_calls evs = []
           /\ socket_answers evs = [net_sock net]
           /\ 0 <= net_sock net
           /\ packethandlers net = replicate 256 no_handler
       | None =>
           (free_calls evs = [] /\ socket_answers evs = []
            /\ (calloc_answers evs = [] \/ calloc_answers evs = [0]))
           \/ (exists p rf pre,
                 p <> 0 /\ calloc_answers evs = [p]
                 /\ evs = pre ++ [(Sys_free, rf)] /\ free_calls pre = [])
       end.
Proof.
  intros Hport. unfold new_networking.
  destruct (Z.eqb_spec (family a) AF_INET) as [E4 | N4];
    [| destruct (Z.eqb_spec (family a) AF_INET6) as [E6 | N6]]; cbn [negb andb].
  3: { exists None, w, []. split; [reflexivity |]. split; [rewrite app_nil_r; reflexivity |].
       split; [intros _ _; split; reflexivity |].
       left. split; [reflexivity |]. split; [reflexivity |]. left. reflexivity. }
  all: assert (Hvalid : family a = AF_INET \/ family a = AF_INET6) by tauto.
  all: unfold bind at 1;
    destruct (at_startup_spec os_ret os_errno os_clock w)
      as (start & w1 & Hstart & Htr1 & Hstartup);
    destruct (startup_calls_no_alloc start Hstartup) as (Hsc & Hsf);
    destruct (startup_calls_only start 0 0 Hstartup) as (Hss & _ & _);
    rewrite Hstart; cbn [Z.eqb negb];
    unfold bind at 1; unfold call at 1;
    set (p := os_ret (w_trace w1) Sys_calloc);
    set (w2 := mkWorld _ _ _ _);
    (destruct (Z.eqb_spec p 0) as [Ep | Np];
     [ exists None, w2, (start ++ [(Sys_calloc, 0)]);
       split; [reflexivity |];
       split; [subst w2; cbn [w_trace]; rewrite Htr1, Ep, <- app_assoc; reflexivity |];
       split; [intros H1 H2; exfalso; tauto |];
       left; rewrite free_calls_app, socket_answers_app, calloc_answers_app, Hsc, Hsf, Hss;
       split; [reflexivity |]; split; [reflexivity |]; right; reflexivity
     | ]);
    cbv zeta; cbn [packethandlers net_family net_port net_sock calloc_Networking_Core];
    unfold bind at 1; unfold call at 1;
    set (s := os_ret (w_trace w2) _);
    set (w3 := mkWorld _ _ _ _);
    assert (Htr3 : w_trace w3
                   = w_trace w
                     ++ start ++ [(Sys_calloc, p);
                                  (Sys_socket (family a) SOCK_DGRAM IPPROTO_UDP, s)])
      by (subst w3 w2; cbn [w_trace]; rewrite Htr1, <- !app_assoc; reflexivity);
    clearbody w3;
    (destruct (Z.ltb_spec s 0) as [Hneg | Hpos];
     [ unfold bind, call, ret;
       eexists None, _, (start ++ [_; _; _]);
       split; [reflexivity |];
       split; [cbn [w_trace]; rewrite Htr3, <- !app_assoc; reflexivity |];
       split; [intros H1 H2; exfalso; tauto |];
       right; eexists p, _, (start ++ [_; _]);
       split; [exact Np |];
       split; [rewrite calloc_answers_app, Hsc; reflexivity |];
       split; [rewrite <- !app_assoc; reflexivity |];
       rewrite free_calls_app, Hsf; reflexivity
     | ]);
    destruct (new_networking_bind_spec host_le os_ret os_errno a port
                (mkNetworking_Core (replicate 256 no_handler) (family a) 0 s) w3
                Hport eq_refl Hvalid)
      as (r & w' & rb & rf & rv & answers & post & Hrun & Htr & Hlen & Hres);
    cbn [net_sock packethandlers net_family] in *;
    destruct (bind_attempts_no_alloc host_le s a port answers) as (Hbc & Hbf);
    destruct (bind_attempts_only_bind host_le s a port answers 0 0) as (Hbs & _);
    destruct (v6only_events_no_alloc a s rv) as (Hvc & Hvf);
    destruct (v6only_events_content a s rv) as (Hvs & _ & _);
    exists r, w',
      (start
       ++ [(Sys_calloc, p); (Sys_socket (family a) SOCK_DGRAM IPPROTO_UDP, s)]
       ++ ([(Sys_setsockopt s SOL_SOCKET SO_BROADCAST 1 sizeof_int, rb);
            (Sys_fcntl s F_SETFL O_NONBLOCK 1, rf)]
           ++ v6only_events a s rv)
       ++ bind_attempts host_le s a port answers ++ post);
    (split; [exact Hrun |]);
    (split; [rewrite Htr, Htr3, <- !app_assoc; reflexivity |]);
    (split; [intros H1 H2; exfalso; tauto |]);
    destruct r as [net |].
  all: try (destruct Hres as (-> & failed & _ & _ & ->);
            cbn [net_sock packethandlers];
            rewrite !calloc_answers_app, !free_calls_app, !socket_answers_app,
              Hsc, Hsf, Hss, Hbc, Hbf, Hbs, Hvc, Hvf, Hvs;
            split; [exists p; split; [exact Np | reflexivity] |];
            split; [reflexivity |]; split; [reflexivity |];
            split; [exact Hpos | reflexivity]).
  all: destruct Hres as (_ & _ & init & x & e0 & r1 & r2 & _ & ->);
    right;
    eexists p, r2,
      (start
       ++ [(Sys_calloc, p); (Sys_socket (family a) SOCK_DGRAM IPPROTO_UDP, s)]
       ++ ([(Sys_setsockopt s SOL_SOCKET SO_BROADCAST 1 sizeof_int, rb);
            (Sys_fcntl s F_SETFL O_NONBLOCK 1, rf)]
           ++ v6only_events a s rv)
       ++ bind_attempts host_le s a port answers ++ [_]);
    (split; [exact Np |]);
    (split; [rewrite !calloc_answers_app, Hsc, Hbc, Hvc; reflexivity |]);
    (split; [rewrite <- !app_assoc; reflexivity |]);
    rewrite !free_calls_app, Hsf, Hbf, Hvf; reflexivity.
Qed.

End SetupMore.

Lemma new_networking_allocation_witness :
  0 <= 33445 < 65536
  /\ exists (w' : World) (p rf : Z) (pre : list (extcall * Z)),
       new_networking true Examples.os_busy Examples.os_errno_bind Examples.os_clock0
                      Examples.ip_v4 33445 Examples.world0
       = (None, w')
       /\ p <> 0
       /\ calloc_answers (w_trace w') = [p]
       /\ w_trace w' = pre ++ [(Sys_free, rf)]
       /\ free_calls pre = [].
Proof.
  assert (H : 0 <= 33445 < 65536) by lia.
  split; [exact H |].
  destruct (new_networking_allocation true Examples.os_busy Examples.os_errno_bind
              Examples.os_clock0 Examples.ip_v4 33445 Examples.world0 H)
    as (r & w' & evs & Hrun & Htr & _ & Hres).
  assert (Hr : r = None).
  { vm_compute in Hrun. injection Hrun as Hr _. symmetry. exact Hr. }
  subst r. cbn [Examples.world0 w_trace app] in Htr. subst evs.
  destruct Hres as [(_ & _ & Hc) | (p & rf & pre & Hp & Hc & He & Hfp)].
  - exfalso. vm_compute in Hrun. injection Hrun as Hw. subst w'.
    vm_compute in Hc. destruct Hc; discriminate.
  - exists w', p, rf, pre.
    split; [exact Hrun |]. split; [exact Hp |]. split; [exact Hc |].
    split; [exact He | exact Hfp].
Defined.
